(** * ForgeDesigner: the engineering calculator of [ForgeDesigner.py]

    A shallow embedding of [validate_inputs], [calculate_forge_specs] and
    [calculate_steel_cuts] together with the Python arithmetic they run on.

    Python's [float] is IEEE-754 binary64 and every operation of the
    calculator is a float operation, a conversion between [int] and
    [float], or one of the two forms of the builtin [round].  The first
    part of the file is a model of that arithmetic: a finite binary64
    value is an integer multiple of [2^-1074], every operation computes
    the exact result and rounds it once to the nearest value with a
    53-bit significand, ties to even.  Parts II and III embed the Python
    operations and the functions of the source, [validate_inputs]
    included, in an error monad whose errors are the Python exceptions the
    arithmetic can raise.  Part IV is the vocabulary of the statements,
    Part V the facts about the arithmetic, Part VI the properties of the
    calculator, Parts VII and VIII what validation adds to them, and
    Part IX puts the properties to work on concrete chambers. *)

From Stdlib Require Import ZArith Lia Bool List String Ascii.
Import ListNotations.
Local Open Scope Z_scope.

(* ===================================================================== *)
(** * Part I: binary64 arithmetic                                        *)
(* ===================================================================== *)

(** [rne_div n d], for [0 < d], is the integer nearest to [n / d]; a
    quotient exactly half way between two integers goes to the even one. *)
Definition rne_div (n d : Z) : Z :=
  let q := n / d in
  match 2 * (n mod d) ?= d with
  | Lt => q
  | Gt => q + 1
  | Eq => if Z.even q then q else q + 1
  end.

(** One unit is [2^-1074], the smallest positive binary64 value; [1.0] is
    [units_per_one] units and [2^1024], the first value that is too large,
    is [overflow_threshold] units. *)
Definition units_per_one : Z := 2 ^ 1074.
Definition overflow_threshold : Z := 2 ^ 2098.

(** A magnitude of [a] units has [Z.log2 a + 1] bits; a significand keeps
    53 of them, so the lowest [dropped_bits a] bits must be zero. *)
Definition dropped_bits (a : Z) : Z := Z.max 0 (Z.log2 a - 52).

Inductive float : Type :=
| NaN
| Inf (neg : bool)
| NegZero
| Fin (k : Z).   (* the value [k * 2^-1074]; [Fin 0] is [+0.0] *)

Definition representable (k : Z) : bool :=
  (Z.abs k <? overflow_threshold) &&
  (k mod 2 ^ dropped_bits (Z.abs k) =? 0).

(** The values of the type that are binary64 values. *)
Definition is_binary64 (x : float) : bool :=
  match x with
  | Fin k => representable k
  | _ => true
  end.

Definition is_finite (x : float) : bool :=
  match x with
  | NegZero | Fin _ => true
  | _ => false
  end.

Definition is_zero (x : float) : bool :=
  match x with
  | NegZero => true
  | Fin k => k =? 0
  | _ => false
  end.

Definition signbit (x : float) : bool :=
  match x with
  | NaN => false
  | Inf s => s
  | NegZero => true
  | Fin k => k <? 0
  end.

(** The magnitude of a finite value, in units. *)
Definition units (x : float) : Z :=
  match x with
  | Fin k => k
  | _ => 0
  end.

(** [nearest53 n d], for [0 < d], is the number of units with a 53-bit
    significand nearest to [n / d] units, ties to even.  The exponent is
    not bounded above here. *)
Definition nearest53 (n d : Z) : Z :=
  let s := dropped_bits (Z.abs n / d) in
  rne_div n (d * 2 ^ s) * 2 ^ s.

(** [round_units nz n d] is the binary64 value nearest to [n / d] units
    ([0 < d]), ties to even; [nz] is the sign given to a zero result. *)
Definition round_units (nz : bool) (n d : Z) : float :=
  let k := nearest53 n d in
  if overflow_threshold <=? Z.abs k then Inf (k <? 0)
  else if k =? 0 then (if nz then NegZero else Fin 0)
  else Fin k.

Definition fneg (x : float) : float :=
  match x with
  | NaN => NaN
  | Inf s => Inf (negb s)
  | NegZero => Fin 0
  | Fin k => if k =? 0 then NegZero else Fin (- k)
  end.

Definition fadd (x y : float) : float :=
  match x, y with
  | NaN, _ | _, NaN => NaN
  | Inf a, Inf b => if Bool.eqb a b then Inf a else NaN
  | Inf a, _ => Inf a
  | _, Inf b => Inf b
  | _, _ =>
      let s := units x + units y in
      if s =? 0 then (if signbit x && signbit y then NegZero else Fin 0)
      else round_units false s 1
  end.

Definition fsub (x y : float) : float := fadd x (fneg y).

Definition fmul (x y : float) : float :=
  match x, y with
  | NaN, _ | _, NaN => NaN
  | Inf a, Inf b => Inf (xorb a b)
  | Inf a, z | z, Inf a =>
      if is_zero z then NaN else Inf (xorb a (signbit z))
  | _, _ =>
      round_units (xorb (signbit x) (signbit y))
                  (units x * units y) units_per_one
  end.

(** IEEE division; Python never reaches the zero-divisor cases, see
    [float_truediv]. *)
Definition fdiv (x y : float) : float :=
  match x, y with
  | NaN, _ | _, NaN => NaN
  | Inf _, Inf _ => NaN
  | Inf a, _ => Inf (xorb a (signbit y))
  | _, Inf b => if xorb (signbit x) b then NegZero else Fin 0
  | _, _ =>
      if is_zero y then
        (if is_zero x then NaN else Inf (xorb (signbit x) (signbit y)))
      else
        round_units (xorb (signbit x) (signbit y))
                    (units x * units_per_one * Z.sgn (units y))
                    (Z.abs (units y))
  end.

Declare Scope float_scope.
Delimit Scope float_scope with float.
Bind Scope float_scope with float.
Infix "⊕" := fadd (at level 50, left associativity) : float_scope.
Infix "⊖" := fsub (at level 50, left associativity) : float_scope.
Infix "⊗" := fmul (at level 40, left associativity) : float_scope.
Infix "⊘" := fdiv (at level 40, left associativity) : float_scope.
Local Open Scope float_scope.

(** [x < y] on floats: false as soon as one side is NaN. *)
Definition flt (x y : float) : bool :=
  match x, y with
  | NaN, _ | _, NaN => false
  | Inf a, Inf b => a && negb b
  | Inf a, _ => a
  | _, Inf b => negb b
  | _, _ => units x <? units y
  end.

(** The value of the decimal literal [m * 10^-digits], as the Python
    parser reads it: the nearest binary64 value. *)
Definition dec (m : Z) (digits : Z) : float :=
  round_units (m <? 0) (m * units_per_one) (10 ^ digits).

(** The nearest binary64 value to the integer [n] ([Inf] when there is
    none). *)
Definition of_int (n : Z) : float :=
  round_units false (n * units_per_one) 1.

(* ===================================================================== *)
(** * Part II: the Python operations the calculator uses                 *)
(* ===================================================================== *)

(** The exceptions the arithmetic of the calculator can raise. *)
Inductive exn : Type :=
| OverflowError
| ValueError
| ZeroDivisionError.

Inductive result (A : Type) : Type :=
| Ok (a : A)
| Raise (e : exn).
Arguments Ok {A} a.
Arguments Raise {A} e.

Definition bind {A B : Type} (c : result A) (k : A -> result B) : result B :=
  match c with
  | Ok a => k a
  | Raise e => Raise e
  end.

Declare Scope py_scope.
Delimit Scope py_scope with py.
Notation "x <- c ;; k" := (bind c (fun x => k))
  (at level 61, c at next level, right associativity) : py_scope.
Local Open Scope py_scope.

(** A Python number: the calculator stores an [int] in some fields and a
    [float] in others, and in two fields either. *)
Inductive number : Type :=
| PyInt (n : Z)
| PyFloat (x : float).

(** [float(n)] as the mixed-type operators do it (PyLong_AsDouble): the
    nearest float, OverflowError when the integer is too large. *)
Definition float_of_int (n : Z) : result float :=
  match of_int n with
  | Inf _ => Raise OverflowError
  | x => Ok x
  end.

(** [x / y] on floats: ZeroDivisionError on a zero divisor. *)
Definition float_truediv (x y : float) : result float :=
  if is_zero y then Raise ZeroDivisionError else Ok (x ⊘ y).

(** [a / b] on ints (long_true_divide): the float nearest to the exact
    quotient. *)
Definition int_truediv (a b : Z) : result float :=
  if b =? 0 then Raise ZeroDivisionError
  else
    match round_units (xorb (a <? 0) (b <? 0))
                      (a * units_per_one * Z.sgn b) (Z.abs b) with
    | Inf _ => Raise OverflowError
    | x => Ok x
    end.

(** The operators with one [int] operand convert it first. *)
Definition float_mul_int (x : float) (n : Z) : result float :=
  y <- float_of_int n ;; Ok (x ⊗ y).
Definition int_mul_float (n : Z) (y : float) : result float :=
  x <- float_of_int n ;; Ok (x ⊗ y).
Definition int_add_float (n : Z) (y : float) : result float :=
  x <- float_of_int n ;; Ok (x ⊕ y).
Definition float_sub_int (x : float) (n : Z) : result float :=
  y <- float_of_int n ;; Ok (x ⊖ y).
Definition float_truediv_int (x : float) (n : Z) : result float :=
  y <- float_of_int n ;; float_truediv x y.

(** [x < n] for a float and an int compares the exact values. *)
Definition float_lt_int (x : float) (n : Z) : bool :=
  match x with
  | NaN => false
  | Inf s => s
  | _ => units x <? n * units_per_one
  end.

(** The other comparisons of the source: every comparison with a NaN is
    false, and a float and an int are compared by their exact values. *)

(** [x <= y] on floats. *)
Definition fle (x y : float) : bool :=
  match x, y with
  | NaN, _ | _, NaN => false
  | Inf a, Inf b => a || negb b
  | Inf a, _ => a
  | _, Inf b => negb b
  | _, _ => units x <=? units y
  end.

(** [n <= x] for an int and a float. *)
Definition int_le_float (n : Z) (x : float) : bool :=
  match x with
  | NaN => false
  | Inf s => negb s
  | _ => n * units_per_one <=? units x
  end.

(** [x <= n] for a float and an int. *)
Definition float_le_int (x : float) (n : Z) : bool :=
  match x with
  | NaN => false
  | Inf s => s
  | _ => units x <=? n * units_per_one
  end.

(** [x > n] for a float and an int. *)
Definition float_gt_int (x : float) (n : Z) : bool :=
  match x with
  | NaN => false
  | Inf s => negb s
  | _ => n * units_per_one <? units x
  end.

(** [round(x)]: the nearest integer, ties to even. *)
Definition round (x : float) : result Z :=
  match x with
  | NaN => Raise ValueError
  | Inf _ => Raise OverflowError
  | NegZero => Ok 0
  | Fin k => Ok (rne_div k units_per_one)
  end.

(** [round(x, ndigits)]: the float nearest to the decimal with [ndigits]
    fractional digits that is nearest to [x], ties to even.  Non-finite
    values are returned as they are. *)
Definition round_ndigits (x : float) (ndigits : Z) : result float :=
  match x with
  | Fin k =>
      if 323 <? ndigits then Ok x
      else if ndigits <? -308 then Ok (if k <? 0 then NegZero else Fin 0)
      else
        let r :=
          if 0 <=? ndigits then
            round_units (k <? 0)
              (rne_div (k * 10 ^ ndigits) units_per_one * units_per_one)
              (10 ^ ndigits)
          else
            round_units (k <? 0)
              (rne_div k (units_per_one * 10 ^ (- ndigits))
               * 10 ^ (- ndigits) * units_per_one)
              1
        in
        match r with
        | Inf _ => Raise OverflowError
        | _ => Ok r
        end
  | _ => Ok x
  end.

(* ===================================================================== *)
(** * Part III: ForgeDesigner.py                                         *)
(* ===================================================================== *)

(** ** Configuration and constants *)

(* Refractory properties (Kast-O-Lite 30 LI) *)
Definition REFRACTORY_DENSITY_LB_PER_CF : Z := 92.
Definition REFRACTORY_BAG_SIZE_LB : Z := 55.

(* Engineering constants *)
Definition BTU_PER_CUBIC_INCH : Z := 450.
Definition HOLE_COVERAGE_CI : Z := 18.
Definition MIN_BURNER_HOLES : Z := 12.
Definition BURNER_ROWS : Z := 3.
Definition HOLE_SPACING : float := dec 75 2.

(* Cost estimates (USD) *)
Definition COST_REFRACTORY_PER_BAG : Z := 110.
Definition COST_BASE_MATERIALS : Z := 250.

(* Validation ranges *)
Definition VALID_WIDTH_RANGE : Z * Z := (3, 12).
Definition VALID_HEIGHT_RANGE : Z * Z := (3, 12).
Definition VALID_LENGTH_RANGE : Z * Z := (6, 48).
Definition VALID_INSULATION_RANGE : float * float := (dec 10 1, dec 30 1).

(** ** Data *)

(** The dictionary [get_user_input] returns: it builds the four dimensions
    with [float(...)] and the door configuration with [int(...)]. *)
Record UserInput : Type := {
  input_width : float;
  input_height : float;
  input_length : float;
  input_insulation : float;
  input_door_config : Z
}.

(** The door configurations the prompt offers. *)
Definition FrontOnly : Z := 1.
Definition FrontAndRear : Z := 2.
Definition SideLoading : Z := 3.

(** An f-string before it is rendered: literal text and interpolated
    floats. *)
Inductive fpiece : Type :=
| Text (s : string)
| Value (x : float).

(** The double-quote character, which the source uses as the inch mark. *)
Definition inch_mark : string := String (ascii_of_nat 34) EmptyString.

Record Plate : Type := {
  plate_name : string;
  plate_qty : Z;
  plate_w : float;
  plate_h : float;
  plate_thickness : string;
  plate_note : option (list fpiece)   (* [None]: the key is absent *)
}.

Record Angle : Type := {
  angle_name : string;
  angle_qty : Z;
  angle_length : float;
  angle_size : string
}.

Record SteelCuts : Type := {
  plates : list Plate;
  angle_iron : list Angle
}.

(** The dictionary [calculate_forge_specs] returns, key by key. *)
Record ForgeSpecs : Type := {
  (* User inputs *)
  internal_w : float;
  internal_h : float;
  internal_l : float;
  insulation : float;
  door_config : Z;
  (* Calculated dimensions *)
  internal_volume : float;
  external_w : float;
  external_h : float;
  external_l : float;
  (* Burner specs *)
  burner_holes : Z;
  holes_per_row : Z;
  burner_rows : Z;
  burner_length : float;
  burner_width : float;
  (* Blower specs *)
  cfm_required : Z;
  cfm_recommended : Z;
  static_pressure : string;
  (* Refractory *)
  refractory_bags : float;
  refractory_weight : float;
  blanket_sqft : float;
  ifb_floor : Z;
  ifb_doors : Z;
  (* Doors *)
  front_door_w : float;
  front_door_h : float;
  rear_door_w : number;
  rear_door_h : number;
  (* Steel *)
  steel_cuts : SteelCuts;
  (* Performance *)
  btu_required : Z;
  estimated_cost : float;
  (* Metadata *)
  generated_date : string
}.

(** ** Input validation *)

(** An f-string with interpolated numbers before it is rendered. *)
Inductive mpiece : Type :=
| Words (s : string)
| Shown (v : number).

Definition message : Type := list mpiece.

(** The six f-strings of [validate_inputs]. *)
Definition width_warning (width : float) : message :=
  [ Words "Width "; Shown (PyFloat width);
    Words (inch_mark ++ " outside typical range (");
    Shown (PyInt (fst VALID_WIDTH_RANGE)); Words "-";
    Shown (PyInt (snd VALID_WIDTH_RANGE)); Words (inch_mark ++ ")") ].

Definition height_warning (height : float) : message :=
  [ Words "Height "; Shown (PyFloat height);
    Words (inch_mark ++ " outside typical range (");
    Shown (PyInt (fst VALID_HEIGHT_RANGE)); Words "-";
    Shown (PyInt (snd VALID_HEIGHT_RANGE)); Words (inch_mark ++ ")") ].

Definition length_warning (length : float) : message :=
  [ Words "Length "; Shown (PyFloat length);
    Words (inch_mark ++ " outside typical range (");
    Shown (PyInt (fst VALID_LENGTH_RANGE)); Words "-";
    Shown (PyInt (snd VALID_LENGTH_RANGE)); Words (inch_mark ++ ")") ].

Definition insulation_warning (insulation : float) : message :=
  [ Words "Insulation "; Shown (PyFloat insulation);
    Words (inch_mark ++ " outside typical range (");
    Shown (PyFloat (fst VALID_INSULATION_RANGE)); Words "-";
    Shown (PyFloat (snd VALID_INSULATION_RANGE)); Words (inch_mark ++ ")") ].

Definition small_warning (volume : float) : message :=
  [ Words "Very small chamber ("; Shown (PyFloat volume);
    Words " ci) - may have difficulty heating evenly" ].

Definition large_warning (volume : float) : message :=
  [ Words "Very large chamber ("; Shown (PyFloat volume);
    Words " ci) - may need multiple burners" ].

(** Validate user inputs against reasonable ranges.  Returns list of
    warning messages.  The call of [debug_log] only prints and is left
    out. *)
Definition validate_inputs (width height length insulation : float)
  : list message :=
  let warnings := [] in
  let warnings :=
    if negb (int_le_float (fst VALID_WIDTH_RANGE) width
             && float_le_int width (snd VALID_WIDTH_RANGE))
    then warnings ++ [width_warning width] else warnings in
  let warnings :=
    if negb (int_le_float (fst VALID_HEIGHT_RANGE) height
             && float_le_int height (snd VALID_HEIGHT_RANGE))
    then warnings ++ [height_warning height] else warnings in
  let warnings :=
    if negb (int_le_float (fst VALID_LENGTH_RANGE) length
             && float_le_int length (snd VALID_LENGTH_RANGE))
    then warnings ++ [length_warning length] else warnings in
  let warnings :=
    if negb (fle (fst VALID_INSULATION_RANGE) insulation
             && fle insulation (snd VALID_INSULATION_RANGE))
    then warnings ++ [insulation_warning insulation] else warnings in
  let volume := width ⊗ height ⊗ length in
  let warnings :=
    if float_lt_int volume 100
    then warnings ++ [small_warning volume] else warnings in
  let warnings :=
    if float_gt_int volume 2000
    then warnings ++ [large_warning volume] else warnings in
  warnings.

(** ** The engineering calculator *)

Definition quarter_inch : string := ("1/4" ++ inch_mark)%string.
Definition angle_stock : string :=
  ("2" ++ inch_mark ++ " x 2" ++ inch_mark ++ " x 1/8" ++ inch_mark)%string.

(** Generate steel plate cut list based on dimensions. *)
Definition calculate_steel_cuts (ext_w ext_h ext_l door_w door_h : float)
  : result SteelCuts :=
  let cuts :=
    [ {| plate_name := "Side Panels"; plate_qty := 2;
         plate_w := ext_l; plate_h := ext_h;
         plate_thickness := quarter_inch; plate_note := None |};
      {| plate_name := "Top Panel"; plate_qty := 1;
         plate_w := ext_l; plate_h := ext_w;
         plate_thickness := quarter_inch; plate_note := None |};
      {| plate_name := "Bottom Panel"; plate_qty := 1;
         plate_w := ext_l; plate_h := ext_w;
         plate_thickness := quarter_inch; plate_note := None |};
      {| plate_name := "Front End Panel"; plate_qty := 1;
         plate_w := ext_w; plate_h := ext_h;
         plate_thickness := quarter_inch;
         plate_note :=
           Some [ Text "Cut "; Value door_w;
                  Text (inch_mark ++ "x"); Value door_h;
                  Text (inch_mark ++ " door opening") ] |};
      {| plate_name := "Rear End Panel"; plate_qty := 1;
         plate_w := ext_w; plate_h := ext_h;
         plate_thickness := quarter_inch; plate_note := None |} ] in
  (* Angle iron for frame *)
  rail_length <- float_sub_int ext_l 4 ;;
  end_length <- float_sub_int ext_w 4 ;;
  let angle_cuts :=
    [ {| angle_name := "Corner Posts"; angle_qty := 4;
         angle_length := ext_h; angle_size := angle_stock |};
      {| angle_name := "Top/Bottom Rails"; angle_qty := 8;
         angle_length := rail_length; angle_size := angle_stock |};
      {| angle_name := "End Rails"; angle_qty := 8;
         angle_length := end_length; angle_size := angle_stock |} ] in
  Ok {| plates := cuts; angle_iron := angle_cuts |}.

(** Calculate all engineering specifications from user input.  [now] is
    the text [datetime.now().strftime(...)] gives at the call.  The calls
    of [debug_log] only print and are left out. *)
Definition calculate_forge_specs (now : string) (user_input : UserInput)
  : result ForgeSpecs :=
  let w := input_width user_input in
  let h := input_height user_input in
  let l := input_length user_input in
  let ins := input_insulation user_input in
  let door_config := input_door_config user_input in
  (* Internal volume *)
  let internal_volume := w ⊗ h ⊗ l in
  (* External dimensions *)
  ins_w <- float_mul_int ins 2 ;;
  let ext_w := w ⊕ ins_w ⊕ dec 5 1 in
  ins_h <- float_mul_int ins 2 ;;
  let ext_h := h ⊕ ins_h ⊕ dec 5 1 in
  let ext_l := l ⊕ dec 10 1 in
  (* Burner calculations *)
  raw_holes <- float_truediv_int internal_volume HOLE_COVERAGE_CI ;;
  rounded_holes <- round raw_holes ;;
  let total_holes := Z.max MIN_BURNER_HOLES rounded_holes in
  row_share <- int_truediv total_holes BURNER_ROWS ;;
  holes_per_row <- round row_share ;;
  let total_holes := holes_per_row * BURNER_ROWS in
  row_span <- int_mul_float holes_per_row HOLE_SPACING ;;
  burner_length <- round_ndigits (row_span ⊕ dec 15 1) 1 ;;
  let burner_width := dec 30 1 in
  (* Blower/CFM calculations *)
  raw_cfm <- float_truediv_int internal_volume HOLE_COVERAGE_CI ;;
  cfm_required <- round (raw_cfm ⊗ dec 12 1) ;;
  cfm_margin <- int_mul_float cfm_required (dec 125 2) ;;
  cfm_recommended <- round cfm_margin ;;
  let static_pressure :=
    if float_lt_int internal_volume 500 then "1.5"%string else "3.0"%string in
  (* Refractory calculations *)
  let external_volume_ci := ext_w ⊗ ext_h ⊗ ext_l in
  let refractory_volume_ci := external_volume_ci ⊖ internal_volume in
  refractory_volume_cf <- float_truediv_int refractory_volume_ci 1728 ;;
  refractory_weight_lb <-
    float_mul_int refractory_volume_cf REFRACTORY_DENSITY_LB_PER_CF ;;
  bags <- float_truediv_int refractory_weight_lb REFRACTORY_BAG_SIZE_LB ;;
  refractory_bags <- round_ndigits bags 1 ;;
  (* Door sizing (proportional to chamber) *)
  front_door_w <- round_ndigits (w ⊗ dec 85 2) 1 ;;
  front_door_h <- round_ndigits (h ⊗ dec 85 2) 1 ;;
  rear_doors <-
    (if door_config =? 2 then
       rear_w <- round_ndigits (w ⊗ dec 7 1) 1 ;;
       rear_h <- round_ndigits (h ⊗ dec 75 2) 1 ;;
       Ok (PyFloat rear_w, PyFloat rear_h)
     else
       Ok (PyInt 0, PyInt 0)) ;;
  let rear_door_w := fst rear_doors in
  let rear_door_h := snd rear_doors in
  (* Steel cut list *)
  steel_cuts <-
    calculate_steel_cuts ext_w ext_h ext_l front_door_w front_door_h ;;
  (* Cost estimation *)
  bags_cost <- float_mul_int refractory_bags COST_REFRACTORY_PER_BAG ;;
  cost <- int_add_float COST_BASE_MATERIALS bags_cost ;;
  estimated_cost <- round_ndigits cost 2 ;;
  (* BTU estimation *)
  btu <- float_mul_int internal_volume BTU_PER_CUBIC_INCH ;;
  btu_required <- round btu ;;
  (* Ceramic blanket calculation (walls and ceiling) *)
  side_area <- float_mul_int (ext_l ⊗ ext_h) 2 ;;
  end_area <- float_mul_int (ext_w ⊗ ext_h) 2 ;;
  blanket <-
    float_truediv_int
      (side_area ⊕ ext_l ⊗ ext_w ⊕ end_area) 144 ;;
  blanket_sqft <- round_ndigits blanket 1 ;;
  (* IFB count for floor *)
  floor_bricks <- float_truediv_int (ext_l ⊗ ext_w) 72 ;;
  floor_rounded <- round floor_bricks ;;
  let ifb_floor_count := Z.max 2 floor_rounded in
  let ifb_door_count := if door_config =? 1 then 4 else 6 in
  weight_rounded <- round_ndigits refractory_weight_lb 1 ;;
  Ok {| internal_w := w;
        internal_h := h;
        internal_l := l;
        insulation := ins;
        door_config := door_config;
        internal_volume := internal_volume;
        external_w := ext_w;
        external_h := ext_h;
        external_l := ext_l;
        burner_holes := total_holes;
        holes_per_row := holes_per_row;
        burner_rows := BURNER_ROWS;
        burner_length := burner_length;
        burner_width := burner_width;
        cfm_required := cfm_required;
        cfm_recommended := cfm_recommended;
        static_pressure := static_pressure;
        refractory_bags := refractory_bags;
        refractory_weight := weight_rounded;
        blanket_sqft := blanket_sqft;
        ifb_floor := ifb_floor_count;
        ifb_doors := ifb_door_count;
        front_door_w := front_door_w;
        front_door_h := front_door_h;
        rear_door_w := rear_door_w;
        rear_door_h := rear_door_h;
        steel_cuts := steel_cuts;
        btu_required := btu_required;
        estimated_cost := estimated_cost;
        generated_date := now |}.

(* ===================================================================== *)
(** * Part IV: vocabulary of the statements                              *)
(* ===================================================================== *)

(** [within j x]: [x] is finite and its magnitude is at most [2^j]
    units. *)
Definition within (j : Z) (x : float) : bool :=
  match x with
  | NegZero => true
  | Fin k => Z.abs k <=? 2 ^ j
  | _ => false
  end.

(** A run that raises nothing. *)
Definition returns {A : Type} (r : result A) : Prop := exists a, r = Ok a.

(** A run that does not end in a division by zero. *)
Definition no_zero_division {A : Type} (r : result A) : Prop :=
  r <> Raise ZeroDivisionError.

(** A positive finite binary64 value: what the specification asks of
    every dimension. *)
Definition positive_finite (x : float) : bool :=
  match x with
  | Fin k => (0 <? k) && representable k
  | _ => false
  end.

Definition valid_input (u : UserInput) : Prop :=
  positive_finite (input_width u) = true /\
  positive_finite (input_height u) = true /\
  positive_finite (input_length u) = true /\
  positive_finite (input_insulation u) = true /\
  (input_door_config u = FrontOnly \/
   input_door_config u = FrontAndRear \/
   input_door_config u = SideLoading).

(** The quantities of the source that the statements name. *)
Definition volume_of (u : UserInput) : float :=
  input_width u ⊗ input_height u ⊗ input_length u.
Definition ext_w_of (u : UserInput) : float :=
  input_width u ⊕ input_insulation u ⊗ of_int 2 ⊕ dec 5 1.
Definition ext_h_of (u : UserInput) : float :=
  input_height u ⊕ input_insulation u ⊗ of_int 2 ⊕ dec 5 1.
Definition ext_l_of (u : UserInput) : float :=
  input_length u ⊕ dec 10 1.

(** [refractory_volume_ci] of the source, from the returned envelope. *)
Definition refractory_volume_of (s : ForgeSpecs) : float :=
  external_w s ⊗ external_h s ⊗ external_l s ⊖ internal_volume s.

(** [refractory_volume_ci] of the source, from the input. *)
Definition shell_volume_of (u : UserInput) : float :=
  ext_w_of u ⊗ ext_h_of u ⊗ ext_l_of u ⊖ volume_of u.

(** Two results that agree on every key but ['door_config'] and
    ['ifb_doors']. *)
Definition same_except_doors (a b : ForgeSpecs) : Prop :=
  internal_w a = internal_w b /\
  internal_h a = internal_h b /\
  internal_l a = internal_l b /\
  insulation a = insulation b /\
  internal_volume a = internal_volume b /\
  external_w a = external_w b /\
  external_h a = external_h b /\
  external_l a = external_l b /\
  burner_holes a = burner_holes b /\
  holes_per_row a = holes_per_row b /\
  burner_rows a = burner_rows b /\
  burner_length a = burner_length b /\
  burner_width a = burner_width b /\
  cfm_required a = cfm_required b /\
  cfm_recommended a = cfm_recommended b /\
  static_pressure a = static_pressure b /\
  refractory_bags a = refractory_bags b /\
  refractory_weight a = refractory_weight b /\
  blanket_sqft a = blanket_sqft b /\
  ifb_floor a = ifb_floor b /\
  front_door_w a = front_door_w b /\
  front_door_h a = front_door_h b /\
  rear_door_w a = rear_door_w b /\
  rear_door_h a = rear_door_h b /\
  steel_cuts a = steel_cuts b /\
  btu_required a = btu_required b /\
  estimated_cost a = estimated_cost b /\
  generated_date a = generated_date b.

(** ** Inputs of the worked scenarios *)

Definition chamber (w h l ins : float) (door : Z) : UserInput :=
  {| input_width := w; input_height := h; input_length := l;
     input_insulation := ins; input_door_config := door |}.

(** A reading of the clock. *)
Definition sample_date : string := "2026-01-01 00:00".

(** Scenario A: 6 x 6 x 14 inches, 2 inches of insulation, front door. *)
Definition scenario_A : UserInput :=
  chamber (of_int 6) (of_int 6) (of_int 14) (of_int 2) FrontOnly.

(** Scenario B: scenario A with front and rear doors. *)
Definition scenario_B : UserInput :=
  chamber (of_int 6) (of_int 6) (of_int 14) (of_int 2) FrontAndRear.

(** A chamber of exactly 500 cubic inches. *)
Definition scenario_C : UserInput :=
  chamber (of_int 5) (of_int 10) (of_int 10) (of_int 2) FrontOnly.

(** Width and height [1e200]: positive, finite, and the volume is not. *)
Definition huge_chamber : UserInput :=
  chamber (of_int (10 ^ 200)) (of_int (10 ^ 200)) (of_int 14) (of_int 2)
          FrontOnly.

(** A chamber of 54 cubic inches: 3 x 3 x 6 inches, 2 inches of
    insulation, front door. *)
Definition small_chamber : UserInput :=
  chamber (of_int 3) (of_int 3) (of_int 6) (of_int 2) FrontOnly.

(** A chamber narrower and shorter than the corner posts allow:
    1 x 6 x 2 inches with 1 inch of insulation. *)
Definition tiny_chamber : UserInput :=
  chamber (of_int 1) (of_int 6) (of_int 2) (of_int 1) FrontOnly.

(** What scenario A of the specification lists. *)
Definition scenario_A_as_listed (s : ForgeSpecs) : Prop :=
  internal_volume s = of_int 504 /\
  burner_holes s = 27 /\
  holes_per_row s = 9 /\
  burner_length s = dec 83 1 /\
  cfm_required s = 34 /\
  cfm_recommended s = 43 /\
  static_pressure s = "1.5"%string /\
  front_door_w s = dec 51 1 /\
  front_door_h s = dec 51 1.

(** What the calculator returns for it. *)
Definition scenario_A_as_computed (s : ForgeSpecs) : Prop :=
  internal_volume s = of_int 504 /\
  burner_holes s = 27 /\
  holes_per_row s = 9 /\
  burner_length s = dec 82 1 /\
  cfm_required s = 34 /\
  cfm_recommended s = 42 /\
  static_pressure s = "3.0"%string /\
  front_door_w s = dec 51 1 /\
  front_door_h s = dec 51 1.

(** ** Vocabulary of validation *)

(** A finite value of at least [lo] and at most [hi] units. *)
Definition between (lo hi : Z) (x : float) : Prop :=
  is_finite x = true /\ lo <= units x <= hi.

(** A finite value between the integers [lo] and [hi]. *)
Definition in_range (lo hi : Z) (x : float) : Prop :=
  between (lo * units_per_one) (hi * units_per_one) x.

Definition is_nan (x : float) : bool :=
  match x with
  | NaN => true
  | _ => false
  end.

(** A warning about the volume. *)
Definition volume_warning (m : message) : Prop :=
  exists volume, m = small_warning volume \/ m = large_warning volume.

(** Two results that agree on every key but ['door_config'], ['ifb_doors']
    and the rear door. *)
Definition same_except_rear_door (a b : ForgeSpecs) : Prop :=
  internal_w a = internal_w b /\
  internal_h a = internal_h b /\
  internal_l a = internal_l b /\
  insulation a = insulation b /\
  internal_volume a = internal_volume b /\
  external_w a = external_w b /\
  external_h a = external_h b /\
  external_l a = external_l b /\
  burner_holes a = burner_holes b /\
  holes_per_row a = holes_per_row b /\
  burner_rows a = burner_rows b /\
  burner_length a = burner_length b /\
  burner_width a = burner_width b /\
  cfm_required a = cfm_required b /\
  cfm_recommended a = cfm_recommended b /\
  static_pressure a = static_pressure b /\
  refractory_bags a = refractory_bags b /\
  refractory_weight a = refractory_weight b /\
  blanket_sqft a = blanket_sqft b /\
  ifb_floor a = ifb_floor b /\
  front_door_w a = front_door_w b /\
  front_door_h a = front_door_h b /\
  steel_cuts a = steel_cuts b /\
  btu_required a = btu_required b /\
  estimated_cost a = estimated_cost b /\
  generated_date a = generated_date b.

(** One step of [validate_inputs]: a warning appended on a condition. *)
Definition appended_if {A : Type} (c : bool) (m : A) (ws : list A) : list A :=
  if c then ws ++ [m] else ws.

(* ===================================================================== *)
(** * Part V: facts about the arithmetic                                *)
(* ===================================================================== *)

(** ** Rounding a quotient to the nearest integer *)

Section RneDiv.

Variables n d : Z.
Hypothesis d_pos : 0 < d.

Lemma rne_div_floor : n / d <= rne_div n d <= n / d + 1.
Proof.
  unfold rne_div.
  destruct (2 * (n mod d) ?= d); [destruct (Z.even (n / d)) | | ]; lia.
Qed.

Lemma rne_div_lower (m : Z) : m * d <= n -> m <= rne_div n d.
Proof.
  intros Hm.
  assert (m <= n / d) by (apply Z.div_le_lower_bound; lia).
  pose proof rne_div_floor. lia.
Qed.

Lemma rne_div_upper (m : Z) : n <= m * d -> rne_div n d <= m.
Proof.
  intros Hm.
  pose proof (Z.div_mod n d ltac:(lia)) as Hdm.
  pose proof (Z.mod_pos_bound n d d_pos) as Hr.
  unfold rne_div.
  destruct (Z.compare_spec (2 * (n mod d)) d) as [He | Hl | Hg].
  - assert (n / d < m) by nia.
    destruct (Z.even (n / d)); lia.
  - assert (n / d <= m) by nia. lia.
  - assert (n / d < m) by nia. lia.
Qed.

(** The rounded quotient is within half a divisor of the dividend. *)
Lemma rne_div_close : 2 * Z.abs (rne_div n d * d - n) <= d.
Proof.
  pose proof (Z.div_mod n d ltac:(lia)) as Hdm.
  pose proof (Z.mod_pos_bound n d d_pos) as Hr.
  unfold rne_div.
  destruct (Z.compare_spec (2 * (n mod d)) d) as [He | Hl | Hg];
    [destruct (Z.even (n / d)) | | ]; nia.
Qed.

End RneDiv.

Lemma rne_div_exact (m d : Z) : 0 < d -> rne_div (m * d) d = m.
Proof.
  intros Hd.
  pose proof (rne_div_lower (m * d) d Hd m).
  pose proof (rne_div_upper (m * d) d Hd m).
  lia.
Qed.

Lemma rne_div_scale (n d c : Z) :
  0 < d -> 0 < c -> rne_div (n * c) (d * c) = rne_div n d.
Proof.
  intros Hd Hc. unfold rne_div.
  rewrite Z.div_mul_cancel_r by lia.
  rewrite Z.mul_mod_distr_r by lia.
  replace (2 * (n mod d * c)) with (2 * (n mod d) * c) by ring.
  destruct (Z.compare_spec (2 * (n mod d)) d) as [He | Hl | Hg].
  - rewrite He, Z.compare_refl. reflexivity.
  - assert (Hc' : 2 * (n mod d) * c < d * c) by nia.
    apply Z.compare_lt_iff in Hc'. rewrite Hc'. reflexivity.
  - assert (Hc' : d * c < 2 * (n mod d) * c) by nia.
    apply Z.compare_gt_iff in Hc'. rewrite Hc'. reflexivity.
Qed.

(** ** Powers of two *)

Lemma pow2_pos (j : Z) : 0 <= j -> 0 < 2 ^ j.
Proof. intros; apply Z.pow_pos_nonneg; lia. Qed.

Lemma pow2_split (j s : Z) : 0 <= s <= j -> 2 ^ j = 2 ^ (j - s) * 2 ^ s.
Proof. intros; rewrite <- Z.pow_add_r by lia; f_equal; lia. Qed.

Lemma pow2_le (i j : Z) : 0 <= i <= j -> 2 ^ i <= 2 ^ j.
Proof. intros; apply Z.pow_le_mono_r; lia. Qed.

Lemma pow2_lt (i j : Z) : 0 <= i < j -> 2 ^ i < 2 ^ j.
Proof. intros; apply Z.pow_lt_mono_r; lia. Qed.

Lemma units_per_one_pos : 0 < units_per_one.
Proof. apply pow2_pos; lia. Qed.

Lemma overflow_threshold_split (j : Z) :
  0 <= j <= 2098 -> overflow_threshold = 2 ^ (2098 - j) * 2 ^ j.
Proof. intros; unfold overflow_threshold; apply pow2_split; lia. Qed.

(** ** The bits a significand drops *)

Lemma dropped_bits_nonneg (a : Z) : 0 <= dropped_bits a.
Proof. unfold dropped_bits; lia. Qed.

Lemma below_dropped_bits (a : Z) : 0 <= a -> a < 2 ^ (dropped_bits a + 53).
Proof.
  intros Ha. unfold dropped_bits.
  destruct (Z.eq_dec a 0) as [-> | Hne].
  - apply pow2_pos. cbn. lia.
  - pose proof (Z.log2_spec a ltac:(lia)) as [_ Hlt].
    pose proof (Z.log2_nonneg a).
    eapply Z.lt_le_trans; [exact Hlt |].
    apply pow2_le. lia.
Qed.

Lemma above_dropped_bits (a : Z) :
  0 < dropped_bits a -> 2 ^ (dropped_bits a + 52) <= a.
Proof.
  unfold dropped_bits. intros Hs.
  assert (Ha : 0 < a).
  { destruct (Z.log2_null a) as [_ Hn]. destruct (Z_lt_le_dec 0 a); [easy |].
    rewrite Hn in Hs by lia. lia. }
  pose proof (Z.log2_spec a Ha) as [Hle _].
  replace (Z.max 0 (Z.log2 a - 52) + 52) with (Z.log2 a) by lia.
  exact Hle.
Qed.

(** ** Rounding to a 53-bit significand *)

Section Nearest53.

Variables n d : Z.
Hypothesis d_pos : 0 < d.

Let s := dropped_bits (Z.abs n / d).

Lemma nearest53_grid_lower (c : Z) :
  c * 2 ^ s * d <= n -> c * 2 ^ s <= nearest53 n d.
Proof.
  intros Hc. unfold nearest53. fold s.
  pose proof (pow2_pos s (dropped_bits_nonneg _)) as Hp.
  assert (c <= rne_div n (d * 2 ^ s)) by (apply rne_div_lower; nia).
  nia.
Qed.

Lemma nearest53_grid_upper (c : Z) :
  n <= c * 2 ^ s * d -> nearest53 n d <= c * 2 ^ s.
Proof.
  intros Hc. unfold nearest53. fold s.
  pose proof (pow2_pos s (dropped_bits_nonneg _)) as Hp.
  assert (rne_div n (d * 2 ^ s) <= c) by (apply rne_div_upper; nia).
  nia.
Qed.

(** When bits are dropped the magnitude spans at least 53 bits. *)
Lemma magnitude_above : 0 < s -> 2 ^ 52 * 2 ^ s * d <= Z.abs n.
Proof.
  intros Hs.
  pose proof (above_dropped_bits _ Hs) as Ha. fold s in Ha.
  rewrite Z.add_comm, Z.pow_add_r in Ha by lia.
  assert (d * (Z.abs n / d) <= Z.abs n)
    by (apply Z.mul_div_le; lia).
  nia.
Qed.

Lemma magnitude_below : Z.abs n < 2 ^ 53 * 2 ^ s * d.
Proof.
  assert (Ha : 0 <= Z.abs n / d) by (apply Z.div_pos; lia).
  pose proof (below_dropped_bits _ Ha) as Hb. fold s in Hb.
  rewrite Z.add_comm, Z.pow_add_r in Hb
    by (unfold s; pose proof (dropped_bits_nonneg (Z.abs n / d)); lia).
  pose proof (Z.div_mod (Z.abs n) d ltac:(lia)).
  pose proof (Z.mod_pos_bound (Z.abs n) d d_pos).
  nia.
Qed.

Lemma nearest53_nonneg : 0 <= n -> 0 <= nearest53 n d.
Proof. intros; apply (nearest53_grid_lower 0); lia. Qed.

Lemma nearest53_nonpos : n <= 0 -> nearest53 n d <= 0.
Proof. intros; apply (nearest53_grid_upper 0); lia. Qed.

Variable j : Z.
Hypothesis j_nonneg : 0 <= j.

Lemma nearest53_le_pow2 : n <= 2 ^ j * d -> nearest53 n d <= 2 ^ j.
Proof.
  intros Hn.
  pose proof (dropped_bits_nonneg (Z.abs n / d)) as Hs0. fold s in Hs0.
  pose proof (pow2_pos j j_nonneg) as Hj.
  destruct (Z_le_gt_dec s j) as [Hsj | Hsj].
  - rewrite (pow2_split j s) in * by lia.
    apply nearest53_grid_upper. exact Hn.
  - pose proof (magnitude_above ltac:(lia)) as Hm.
    pose proof (pow2_pos s Hs0) as Hp.
    assert (2 ^ j <= 2 ^ s) by (apply pow2_le; lia).
    assert (nearest53 n d <= - 2 ^ 52 * 2 ^ s)
      by (apply nearest53_grid_upper; nia).
    nia.
Qed.

Lemma nearest53_ge_pow2 : 2 ^ j * d <= n -> 2 ^ j <= nearest53 n d.
Proof.
  intros Hn.
  pose proof (dropped_bits_nonneg (Z.abs n / d)) as Hs0. fold s in Hs0.
  pose proof (pow2_pos j j_nonneg) as Hj.
  destruct (Z_le_gt_dec s j) as [Hsj | Hsj].
  - rewrite (pow2_split j s) in * by lia.
    apply nearest53_grid_lower. exact Hn.
  - pose proof (magnitude_above ltac:(lia)) as Hm.
    pose proof (pow2_pos s Hs0) as Hp.
    assert (2 ^ j <= 2 ^ s) by (apply pow2_le; lia).
    assert (2 ^ 52 * 2 ^ s <= nearest53 n d)
      by (apply nearest53_grid_lower; nia).
    nia.
Qed.

Lemma nearest53_le_neg_pow2 :
  n <= - 2 ^ j * d -> nearest53 n d <= - 2 ^ j.
Proof.
  intros Hn.
  pose proof (dropped_bits_nonneg (Z.abs n / d)) as Hs0. fold s in Hs0.
  pose proof (pow2_pos j j_nonneg) as Hj.
  destruct (Z_le_gt_dec s j) as [Hsj | Hsj].
  - rewrite (pow2_split j s) in * by lia.
    replace (- (2 ^ (j - s) * 2 ^ s)) with (- 2 ^ (j - s) * 2 ^ s) in * by ring.
    apply nearest53_grid_upper. exact Hn.
  - pose proof (magnitude_above ltac:(lia)) as Hm.
    pose proof (pow2_pos s Hs0) as Hp.
    assert (2 ^ j <= 2 ^ s) by (apply pow2_le; lia).
    assert (nearest53 n d <= - 2 ^ 52 * 2 ^ s)
      by (apply nearest53_grid_upper; nia).
    nia.
Qed.

Lemma nearest53_ge_neg_pow2 :
  - 2 ^ j * d <= n -> - 2 ^ j <= nearest53 n d.
Proof.
  intros Hn.
  pose proof (dropped_bits_nonneg (Z.abs n / d)) as Hs0. fold s in Hs0.
  pose proof (pow2_pos j j_nonneg) as Hj.
  destruct (Z_le_gt_dec s j) as [Hsj | Hsj].
  - rewrite (pow2_split j s) in * by lia.
    replace (- (2 ^ (j - s) * 2 ^ s)) with (- 2 ^ (j - s) * 2 ^ s) in * by ring.
    apply nearest53_grid_lower. exact Hn.
  - pose proof (magnitude_above ltac:(lia)) as Hm.
    pose proof (pow2_pos s Hs0) as Hp.
    assert (2 ^ j <= 2 ^ s) by (apply pow2_le; lia).
    assert (2 ^ 52 * 2 ^ s <= nearest53 n d)
      by (apply nearest53_grid_lower; nia).
    nia.
Qed.

Lemma nearest53_abs_le_pow2 :
  Z.abs n <= 2 ^ j * d -> Z.abs (nearest53 n d) <= 2 ^ j.
Proof.
  intros Hn.
  assert (nearest53 n d <= 2 ^ j) by (apply nearest53_le_pow2; lia).
  assert (- 2 ^ j <= nearest53 n d) by (apply nearest53_ge_neg_pow2; lia).
  lia.
Qed.

End Nearest53.

Lemma nearest53_scale (n d c : Z) :
  0 < d -> 0 < c -> nearest53 (n * c) (d * c) = nearest53 n d.
Proof.
  intros Hd Hc. unfold nearest53.
  replace (Z.abs (n * c)) with (Z.abs n * c) by (rewrite Z.abs_mul; lia).
  rewrite Z.div_mul_cancel_r by lia.
  set (s := dropped_bits (Z.abs n / d)).
  pose proof (pow2_pos s (dropped_bits_nonneg _)).
  replace (d * c * 2 ^ s) with (d * 2 ^ s * c) by ring.
  rewrite rne_div_scale by nia.
  reflexivity.
Qed.

(** ** Representable magnitudes *)

Lemma representable_spec (k : Z) :
  representable k = true <->
  Z.abs k < overflow_threshold /\ k mod 2 ^ dropped_bits (Z.abs k) = 0.
Proof.
  unfold representable.
  rewrite andb_true_iff, Z.ltb_lt, Z.eqb_eq. reflexivity.
Qed.

Lemma representable_0 : representable 0 = true.
Proof. reflexivity. Qed.

(** A multiple of [2^s] whose significand fits in 53 bits. *)
Lemma significand_representable (m s : Z) :
  0 <= s -> Z.abs m <= 2 ^ 53 ->
  Z.abs (m * 2 ^ s) < overflow_threshold ->
  representable (m * 2 ^ s) = true.
Proof.
  intros Hs Hm Hlt. apply representable_spec. split; [exact Hlt |].
  pose proof (pow2_pos s Hs) as Hp.
  destruct (Z.eq_dec m 0) as [-> | Hm0]; [reflexivity |].
  assert (Habs : Z.abs (m * 2 ^ s) = Z.abs m * 2 ^ s)
    by (rewrite Z.abs_mul; lia).
  rewrite Habs. unfold dropped_bits.
  rewrite Z.log2_mul_pow2 by lia.
  destruct (Z.eq_dec (Z.abs m) (2 ^ 53)) as [He | Hne].
  - rewrite He, Z.log2_pow2 by lia.
    replace (Z.max 0 (s + 53 - 52)) with (s + 1) by lia.
    assert (Hm' : m = 2 ^ 53 \/ m = - 2 ^ 53) by lia.
    rewrite Z.pow_add_r by lia.
    destruct Hm' as [-> | ->].
    + replace (2 ^ 53 * 2 ^ s) with (2 ^ 52 * (2 ^ s * 2 ^ 1))
        by (change (2 ^ 53) with (2 ^ 52 * 2 ^ 1); ring).
      apply Z.mod_mul. cbn. nia.
    + replace (- 2 ^ 53 * 2 ^ s) with (- 2 ^ 52 * (2 ^ s * 2 ^ 1))
        by (change (2 ^ 53) with (2 ^ 52 * 2 ^ 1); ring).
      apply Z.mod_mul. cbn. nia.
  - assert (Hl : Z.log2 (Z.abs m) < 53).
    { apply Z.log2_lt_pow2; lia. }
    pose proof (Z.log2_nonneg (Z.abs m)).
    set (t := Z.max 0 (s + Z.log2 (Z.abs m) - 52)).
    assert (Ht : 0 <= t <= s) by (unfold t; lia).
    rewrite (pow2_split s t) by lia.
    rewrite Z.mul_assoc. apply Z.mod_mul.
    pose proof (pow2_pos t ltac:(lia)). lia.
Qed.

Lemma nearest53_significand (n d : Z) :
  0 < d ->
  Z.abs (rne_div n (d * 2 ^ dropped_bits (Z.abs n / d))) <= 2 ^ 53.
Proof.
  intros Hd.
  set (s := dropped_bits (Z.abs n / d)).
  pose proof (pow2_pos s (dropped_bits_nonneg _)) as Hp.
  pose proof (magnitude_below n d Hd) as Hb. fold s in Hb.
  assert (rne_div n (d * 2 ^ s) <= 2 ^ 53)
    by (apply rne_div_upper; nia).
  assert (- 2 ^ 53 <= rne_div n (d * 2 ^ s))
    by (apply rne_div_lower; nia).
  lia.
Qed.

Lemma nearest53_representable (n d : Z) :
  0 < d -> Z.abs (nearest53 n d) < overflow_threshold ->
  representable (nearest53 n d) = true.
Proof.
  intros Hd Hlt. unfold nearest53 in *.
  apply significand_representable; auto using dropped_bits_nonneg.
  apply nearest53_significand; assumption.
Qed.

(** A representable magnitude is its own nearest value. *)
Lemma nearest53_id (k : Z) : representable k = true -> nearest53 k 1 = k.
Proof.
  intros Hk. apply representable_spec in Hk as [_ Hmod].
  unfold nearest53. rewrite Z.div_1_r, Z.mul_1_l.
  set (s := dropped_bits (Z.abs k)) in *.
  pose proof (pow2_pos s (dropped_bits_nonneg _)) as Hp.
  clearbody s.
  apply Z.mod_divide in Hmod; [| lia].
  destruct Hmod as [c ->].
  rewrite rne_div_exact by lia. reflexivity.
Qed.

(** A representable magnitude of at least [j + 53] bits is a multiple of
    [2^j]. *)
Lemma representable_multiple (k j : Z) :
  0 <= j -> representable k = true -> 2 ^ (j + 52) <= Z.abs k ->
  exists c, k = c * 2 ^ j.
Proof.
  intros Hj Hk Hbig. apply representable_spec in Hk as [_ Hmod].
  assert (Hlog : j + 52 <= Z.log2 (Z.abs k)).
  { apply Z.log2_le_pow2; [| exact Hbig].
    pose proof (pow2_pos (j + 52) ltac:(lia)). lia. }
  unfold dropped_bits in Hmod.
  set (s := Z.max 0 (Z.log2 (Z.abs k) - 52)) in *.
  assert (j <= s) by (unfold s; lia).
  pose proof (pow2_pos s ltac:(lia)) as Hp.
  clearbody s. clear Hlog Hbig.
  apply Z.mod_divide in Hmod; [| lia].
  destruct Hmod as [c ->].
  exists (c * 2 ^ (s - j)).
  rewrite (pow2_split s j) by lia. ring.
Qed.

(** ** Rounding to binary64 *)

Section RoundUnits.

Variable nz : bool.
Variables n d : Z.
Hypothesis d_pos : 0 < d.

Lemma round_units_binary64 : is_binary64 (round_units nz n d) = true.
Proof.
  unfold round_units.
  destruct (Z.leb_spec overflow_threshold (Z.abs (nearest53 n d)));
    [reflexivity |].
  destruct (Z.eqb_spec (nearest53 n d) 0); [destruct nz; reflexivity |].
  cbn. apply nearest53_representable; assumption.
Qed.

(** What each shape of result says about the rounded magnitude. *)
Lemma round_units_inv :
  match round_units nz n d with
  | NaN => False
  | Inf s =>
      overflow_threshold <= Z.abs (nearest53 n d) /\
      s = (nearest53 n d <? 0)
  | NegZero => nearest53 n d = 0
  | Fin k => k = nearest53 n d /\ Z.abs k < overflow_threshold
  end.
Proof.
  unfold round_units.
  destruct (Z.leb_spec overflow_threshold (Z.abs (nearest53 n d)));
    [split; [assumption | reflexivity] |].
  destruct (Z.eqb_spec (nearest53 n d) 0) as [He | Hne].
  - destruct nz; [assumption |].
    rewrite He in *. split; [reflexivity | assumption].
  - split; [reflexivity | assumption].
Qed.

Lemma round_units_within (j : Z) :
  0 <= j < 2098 -> Z.abs n <= 2 ^ j * d ->
  within j (round_units nz n d) = true.
Proof.
  intros Hj Hn.
  pose proof (nearest53_abs_le_pow2 n d d_pos j ltac:(lia) Hn) as Hk.
  assert (2 ^ j < overflow_threshold)
    by (apply pow2_lt; lia).
  unfold round_units.
  destruct (Z.leb_spec overflow_threshold (Z.abs (nearest53 n d)));
    [lia |].
  destruct (Z.eqb_spec (nearest53 n d) 0) as [He | Hne].
  - destruct nz; [reflexivity |].
    pose proof (pow2_pos j ltac:(lia)).
    unfold within. apply Z.leb_le. change (Z.abs 0) with 0. lia.
  - unfold within. apply Z.leb_le. assumption.
Qed.

(** A quotient of at most minus one unit rounds to a negative value. *)
Lemma round_units_negative :
  n <= - d -> float_lt_int (round_units nz n d) 0 = true.
Proof.
  intros Hn.
  assert (Hk : nearest53 n d <= - 2 ^ 0)
    by (apply nearest53_le_neg_pow2; change (2 ^ 0) with 1; lia).
  change (2 ^ 0) with 1 in Hk.
  pose proof round_units_inv as Hinv.
  destruct (round_units nz n d) as [| s | | k]; cbn.
  - contradiction.
  - destruct Hinv as [_ ->]. apply Z.ltb_lt. lia.
  - lia.
  - destruct Hinv as [-> _]. apply Z.ltb_lt. lia.
Qed.

End RoundUnits.

Lemma within_finite (j : Z) (x : float) :
  within j x = true -> is_finite x = true.
Proof. destruct x; cbn; congruence. Qed.

Lemma within_units (j : Z) (x : float) :
  within j x = true -> 0 <= j -> Z.abs (units x) <= 2 ^ j.
Proof.
  destruct x; cbn; try discriminate.
  - intros _ Hj. pose proof (pow2_pos j Hj). lia.
  - intros H _. apply Z.leb_le. assumption.
Qed.

Lemma within_weaken (i j : Z) (x : float) :
  within i x = true -> 0 <= i <= j -> within j x = true.
Proof.
  destruct x; cbn; try congruence.
  intros H Hij. apply Z.leb_le in H. apply Z.leb_le.
  pose proof (pow2_le i j Hij). lia.
Qed.

(** A finite binary64 value is below the overflow threshold. *)
Lemma binary64_within (x : float) :
  is_binary64 x = true -> is_finite x = true -> within 2098 x = true.
Proof.
  destruct x as [| s | | k]; cbn; try congruence.
  intros Hk _. apply representable_spec in Hk as [Hlt _].
  apply Z.leb_le. apply Z.lt_le_incl. exact Hlt.
Qed.

(** ** The float operations stay inside binary64 *)

#[local] Arguments round_units : simpl never.
#[local] Arguments nearest53 : simpl never.

Ltac case_ifs :=
  repeat match goal with
         | |- context [if ?c then _ else _] => destruct c
         end.

Lemma fmul_binary64 (x y : float) : is_binary64 (x ⊗ y) = true.
Proof.
  pose proof units_per_one_pos.
  destruct x as [| a | | kx], y as [| b | | ky]; cbn; case_ifs;
    try reflexivity; apply round_units_binary64; assumption.
Qed.

Lemma fadd_binary64 (x y : float) : is_binary64 (x ⊕ y) = true.
Proof.
  destruct x as [| a | | kx], y as [| b | | ky]; cbn; case_ifs;
    try reflexivity; apply round_units_binary64; lia.
Qed.

Lemma fsub_binary64 (x y : float) : is_binary64 (x ⊖ y) = true.
Proof. apply fadd_binary64. Qed.

Lemma fdiv_binary64 (x y : float) : is_binary64 (x ⊘ y) = true.
Proof.
  destruct x as [| a | | kx], y as [| b | | ky]; cbn;
    repeat match goal with
           | |- context [if ?k =? 0 then _ else _] =>
               destruct (Z.eqb_spec k 0)
           | |- context [if ?c then _ else _] => destruct c
           end;
    try reflexivity; apply round_units_binary64; lia.
Qed.

Lemma of_int_binary64 (n : Z) : is_binary64 (of_int n) = true.
Proof. apply round_units_binary64. lia. Qed.

(** ** Conversions and mixed operators *)

Lemma round_units_representable (k : Z) :
  representable k = true -> round_units false k 1 = Fin k.
Proof.
  intros Hk. unfold round_units. rewrite (nearest53_id k Hk).
  apply representable_spec in Hk as [Hlt _].
  destruct (Z.leb_spec overflow_threshold (Z.abs k)); [lia |].
  destruct (Z.eqb_spec k 0) as [-> | _]; reflexivity.
Qed.

Lemma small_int_representable (n : Z) :
  Z.abs n <= 2 ^ 53 -> representable (n * units_per_one) = true.
Proof.
  intros Hn. unfold units_per_one.
  apply significand_representable; [lia | assumption |].
  rewrite Z.abs_mul, (Z.abs_eq (2 ^ 1074)) by (apply Z.pow_nonneg; lia).
  rewrite (overflow_threshold_split 1074) by lia.
  apply Z.mul_lt_mono_pos_r; [apply pow2_pos; lia |].
  eapply Z.le_lt_trans; [exact Hn |].
  apply pow2_lt. lia.
Qed.

Lemma of_int_small (n : Z) :
  Z.abs n <= 2 ^ 53 -> of_int n = Fin (n * units_per_one).
Proof.
  intros Hn. unfold of_int.
  apply round_units_representable, small_int_representable, Hn.
Qed.

Lemma float_of_int_small (n : Z) :
  Z.abs n <= 2 ^ 53 -> float_of_int n = Ok (of_int n).
Proof.
  intros Hn. unfold float_of_int. rewrite (of_int_small n Hn). reflexivity.
Qed.

Section SmallLiteral.

Variable x : float.
Variable n : Z.
Hypothesis n_small : Z.abs n <= 2 ^ 53.

Lemma float_mul_int_small : float_mul_int x n = Ok (x ⊗ of_int n).
Proof. unfold float_mul_int. rewrite float_of_int_small; auto. Qed.

Lemma int_mul_float_small : int_mul_float n x = Ok (of_int n ⊗ x).
Proof. unfold int_mul_float. rewrite float_of_int_small; auto. Qed.

Lemma int_add_float_small : int_add_float n x = Ok (of_int n ⊕ x).
Proof. unfold int_add_float. rewrite float_of_int_small; auto. Qed.

Lemma float_sub_int_small : float_sub_int x n = Ok (x ⊖ of_int n).
Proof. unfold float_sub_int. rewrite float_of_int_small; auto. Qed.

Lemma float_truediv_int_small :
  n <> 0 -> float_truediv_int x n = Ok (x ⊘ of_int n).
Proof.
  intros Hn0. unfold float_truediv_int.
  rewrite float_of_int_small by auto. cbn [bind].
  unfold float_truediv. rewrite of_int_small by auto. cbn [is_zero].
  pose proof units_per_one_pos.
  destruct (Z.eqb_spec (n * units_per_one) 0); [nia | reflexivity].
Qed.

End SmallLiteral.

(** ** Magnitude bounds through the operations *)

Lemma pow2_units (j : Z) :
  0 <= j -> 2 ^ (j + 1074) = 2 ^ j * units_per_one.
Proof. intros; unfold units_per_one; apply Z.pow_add_r; lia. Qed.

#[local] Arguments round_units : simpl never.

Lemma fmul_within (a b c : Z) (x y : float) :
  within a x = true -> within b y = true ->
  0 <= a -> 0 <= b -> 0 <= c < 2098 -> a + b <= c + 1074 ->
  within c (x ⊗ y) = true.
Proof.
  intros Hx Hy Ha Hb Hc Habc.
  pose proof (within_units a x Hx Ha) as Hux.
  pose proof (within_units b y Hy Hb) as Huy.
  assert (Hr : x ⊗ y = round_units (xorb (signbit x) (signbit y))
                                    (units x * units y) units_per_one).
  { destruct x, y; try discriminate; reflexivity. }
  rewrite Hr. apply round_units_within;
    [apply units_per_one_pos | assumption |].
  rewrite Z.abs_mul.
  assert (H1 : Z.abs (units x) * Z.abs (units y) <= 2 ^ a * 2 ^ b)
    by (apply Z.mul_le_mono_nonneg; lia).
  assert (H2 : 2 ^ a * 2 ^ b <= 2 ^ c * units_per_one).
  { rewrite <- Z.pow_add_r, <- pow2_units by lia. apply pow2_le; lia. }
  lia.
Qed.

Lemma fdiv_within (a b c : Z) (x y : float) :
  within a x = true -> is_finite y = true -> 2 ^ b <= Z.abs (units y) ->
  0 <= a -> 0 <= b -> 0 <= c < 2098 -> a + 1074 <= b + c ->
  within c (x ⊘ y) = true.
Proof.
  intros Hx Hfy Hy Ha Hb Hc Habc.
  pose proof (within_units a x Hx Ha) as Hux.
  pose proof (pow2_pos b Hb) as Hpb.
  assert (Hny : units y <> 0) by lia.
  assert (Hr : x ⊘ y = round_units (xorb (signbit x) (signbit y))
                          (units x * units_per_one * Z.sgn (units y))
                          (Z.abs (units y))).
  { destruct y as [| | | ky]; try discriminate; cbn in Hny; try lia.
    destruct x; try discriminate; cbn;
      destruct (Z.eqb_spec ky 0); try lia; reflexivity. }
  rewrite Hr. apply round_units_within; [lia | assumption |].
  rewrite !Z.abs_mul.
  replace (Z.abs (Z.sgn (units y))) with 1 by lia.
  rewrite (Z.abs_eq units_per_one) by (pose proof units_per_one_pos; lia).
  pose proof units_per_one_pos as HU.
  pose proof (pow2_pos c ltac:(lia)) as Hpc.
  assert (H1 : Z.abs (units x) * units_per_one <= 2 ^ a * units_per_one)
    by (apply Z.mul_le_mono_nonneg_r; lia).
  assert (H2 : 2 ^ a * units_per_one <= 2 ^ c * 2 ^ b).
  { rewrite <- Z.pow_add_r, <- pow2_units by lia. apply pow2_le; lia. }
  assert (H3 : 2 ^ c * 2 ^ b <= 2 ^ c * Z.abs (units y))
    by (apply Z.mul_le_mono_nonneg_l; lia).
  lia.
Qed.

Lemma round_within (j : Z) (x : float) :
  within j x = true -> 1074 <= j ->
  exists n, round x = Ok n /\ Z.abs n <= 2 ^ (j - 1074).
Proof.
  intros Hx Hj.
  pose proof (pow2_pos (j - 1074) ltac:(lia)) as Hp.
  destruct x as [| s | | k]; try discriminate; cbn.
  - exists 0. split; [reflexivity | lia].
  - exists (rne_div k units_per_one). split; [reflexivity |].
    cbn in Hx. apply Z.leb_le in Hx.
    rewrite (pow2_split j 1074) in Hx by lia. fold units_per_one in Hx.
    pose proof units_per_one_pos as HU.
    assert (rne_div k units_per_one <= 2 ^ (j - 1074))
      by (apply rne_div_upper; lia).
    assert (- 2 ^ (j - 1074) <= rne_div k units_per_one)
      by (apply rne_div_lower; lia).
    lia.
Qed.

Lemma float_of_int_within (j n : Z) :
  0 <= j <= 1023 -> Z.abs n <= 2 ^ j ->
  float_of_int n = Ok (of_int n) /\ within (j + 1074) (of_int n) = true.
Proof.
  intros Hj Hn.
  assert (Hw : within (j + 1074) (of_int n) = true).
  { apply round_units_within; [lia | lia |].
    rewrite Z.abs_mul, pow2_units, Z.mul_1_r by lia.
    rewrite (Z.abs_eq units_per_one) by (pose proof units_per_one_pos; lia).
    apply Z.mul_le_mono_nonneg_r; [pose proof units_per_one_pos |]; lia. }
  split; [| exact Hw].
  unfold float_of_int. apply within_finite in Hw.
  destruct (of_int n); try discriminate; reflexivity.
Qed.

Lemma int_truediv_within (j a b : Z) :
  0 <= j <= 1023 -> Z.abs a <= 2 ^ j -> 0 < b ->
  exists x, int_truediv a b = Ok x /\ within (j + 1074) x = true.
Proof.
  intros Hj Ha Hb. unfold int_truediv.
  destruct (Z.eqb_spec b 0); [lia |].
  set (r := round_units _ _ _).
  assert (Hw : within (j + 1074) r = true).
  { apply round_units_within; [lia | lia |].
    rewrite !Z.abs_mul, pow2_units by lia.
    rewrite (Z.abs_eq units_per_one) by (pose proof units_per_one_pos; lia).
    replace (Z.abs (Z.sgn b)) with 1 by lia.
    pose proof units_per_one_pos as HU.
    pose proof (pow2_pos j ltac:(lia)) as Hpj.
    assert (H1 : Z.abs a * units_per_one <= 2 ^ j * units_per_one)
      by (apply Z.mul_le_mono_nonneg_r; lia).
    assert (H2 : 2 ^ j * units_per_one * 1
                 <= 2 ^ j * units_per_one * Z.abs b)
      by (apply Z.mul_le_mono_nonneg_l; [apply Z.mul_nonneg_nonneg |]; lia).
    lia. }
  exists r. split; [| exact Hw].
  apply within_finite in Hw.
  destruct r; try discriminate; reflexivity.
Qed.

(** ** [round(x, ndigits)] never fails on a binary64 value *)

Lemma round_ndigits_total (x : float) (ndigits : Z) :
  is_binary64 x = true -> 0 <= ndigits ->
  exists y, round_ndigits x ndigits = Ok y /\ is_binary64 y = true.
Proof.
  intros Hx Hnd.
  destruct x as [| s | | k]; try (eexists; split; reflexivity).
  cbn in Hx. unfold round_ndigits.
  destruct (323 <? ndigits); [exists (Fin k); split; auto |].
  destruct (Z.ltb_spec ndigits (-308)); [lia |].
  destruct (Z.leb_spec 0 ndigits); [| lia].
  set (p := 10 ^ ndigits).
  assert (Hp : 0 < p) by (apply Z.pow_pos_nonneg; lia).
  pose proof units_per_one_pos as HU.
  set (m := rne_div (k * p) units_per_one).
  set (r := round_units (k <? 0) (m * units_per_one) p).
  assert (Hb : is_binary64 r = true) by (apply round_units_binary64; lia).
  assert (Hf : is_finite r = true).
  { destruct (Z_lt_le_dec (Z.abs k) (2 ^ (1074 + 52))) as [Hsmall | Hbig].
    - apply (within_finite 1127). apply round_units_within; [lia | lia |].
      pose proof (rne_div_close (k * p) units_per_one HU) as Hc.
      fold m in Hc.
      assert (Hup : units_per_one <= 2 ^ (1074 + 52))
        by (apply pow2_le; lia).
      change (2 ^ 1127) with (2 * 2 ^ (1074 + 52)).
      set (bound := 2 ^ (1074 + 52)) in *. clearbody bound.
      nia.
    - destruct (representable_multiple k 1074 ltac:(lia) Hx Hbig)
        as [c Hc].
      clear Hbig.
      fold units_per_one in Hc.
      assert (Hm : m = c * p).
      { unfold m. rewrite Hc.
        replace (c * units_per_one * p) with (c * p * units_per_one)
          by ring.
        apply rne_div_exact, HU. }
      assert (Hk : nearest53 (m * units_per_one) p = k).
      { rewrite Hm.
        replace (c * p * units_per_one) with (k * p) by (rewrite Hc; ring).
        rewrite <- (Z.mul_1_l p) at 2.
        rewrite nearest53_scale by lia.
        apply nearest53_id, Hx. }
      apply representable_spec in Hx as [Hlt _].
      unfold r, round_units. rewrite Hk.
      destruct (Z.leb_spec overflow_threshold (Z.abs k)); [lia |].
      destruct (k =? 0); [destruct (k <? 0) |]; reflexivity. }
  exists r. split; [| exact Hb].
  destruct r; try discriminate; reflexivity.
Qed.

(** ** Commutativity of the float product *)

Lemma fmul_comm (x y : float) : x ⊗ y = y ⊗ x.
Proof.
  destruct x as [| a | | kx], y as [| b | | ky];
    cbn [fmul is_zero signbit units];
    try reflexivity;
    try (rewrite xorb_comm; reflexivity);
    try (f_equal; [apply xorb_comm | apply Z.mul_comm]).
  all: try (destruct (_ =? 0); [reflexivity | rewrite xorb_comm; reflexivity]).
  all: rewrite xorb_comm, Z.mul_comm; reflexivity.
Qed.

(** ** Stepping through the calculator *)

(** When a run is compared with its unfolding, unfold the calculator
    first rather than evaluate its steps. *)
#[local] Strategy expand [calculate_forge_specs calculate_steel_cuts].

Ltac small_literal := solve [vm_compute; congruence].

(** An operator applied to an integer literal is the float operation on
    the converted literal. *)
Ltac convert_literal_in E :=
  match type of E with
  | float_mul_int ?x ?n = _ =>
      rewrite (float_mul_int_small x n) in E by small_literal
  | float_sub_int ?x ?n = _ =>
      rewrite (float_sub_int_small x n) in E by small_literal
  | int_add_float ?n ?x = _ =>
      rewrite (int_add_float_small x n) in E by small_literal
  | float_truediv_int ?x ?n = _ =>
      rewrite (float_truediv_int_small x n) in E by small_literal
  end.

Ltac convert_literals :=
  repeat match goal with
         | |- context [float_mul_int ?x ?n] =>
             rewrite (float_mul_int_small x n) by small_literal
         | |- context [float_sub_int ?x ?n] =>
             rewrite (float_sub_int_small x n) by small_literal
         | |- context [int_add_float ?n ?x] =>
             rewrite (int_add_float_small x n) by small_literal
         | |- context [float_truediv_int ?x ?n] =>
             rewrite (float_truediv_int_small x n) by small_literal
         | _ => progress cbn [bind]
         end.

Lemma calculate_steel_cuts_ok (ext_w ext_h ext_l door_w door_h : float) :
  exists cuts,
    calculate_steel_cuts ext_w ext_h ext_l door_w door_h = Ok cuts /\
    angle_iron cuts =
      [ {| angle_name := "Corner Posts"; angle_qty := 4;
           angle_length := ext_h; angle_size := angle_stock |};
        {| angle_name := "Top/Bottom Rails"; angle_qty := 8;
           angle_length := ext_l ⊖ of_int 4; angle_size := angle_stock |};
        {| angle_name := "End Rails"; angle_qty := 8;
           angle_length := ext_w ⊖ of_int 4; angle_size := angle_stock |} ].
Proof.
  unfold calculate_steel_cuts. convert_literals.
  eexists. split; reflexivity.
Qed.

Lemma bind_ok {A B : Type} (c : result A) (k : A -> result B) (b : B) :
  bind c k = Ok b -> exists a, c = Ok a /\ k a = Ok b.
Proof. destruct c as [a | e]; cbn; [eauto | discriminate]. Qed.

Lemma Ok_inj {A : Type} (a b : A) : Ok a = Ok b -> a = b.
Proof. congruence. Qed.

(** Split a successful run into its successful steps; a step that only
    converts a literal is replaced by its value. *)
Ltac step_in H :=
  match type of H with
  | bind _ _ = Ok _ =>
      let a := fresh "v" in
      let E := fresh "E" in
      apply bind_ok in H as (a & E & H); cbv beta in H;
      try (convert_literal_in E; apply Ok_inj in E; subst a)
  end.

Ltac invert_specs H :=
  unfold calculate_forge_specs in H;
  cbn [chamber input_width input_height input_length input_insulation
       input_door_config] in H;
  repeat step_in H;
  apply Ok_inj in H; subst;
  unfold REFRACTORY_DENSITY_LB_PER_CF, REFRACTORY_BAG_SIZE_LB,
    BTU_PER_CUBIC_INCH, HOLE_COVERAGE_CI, MIN_BURNER_HOLES, BURNER_ROWS,
    HOLE_SPACING, COST_REFRACTORY_PER_BAG, COST_BASE_MATERIALS in *;
  cbn [internal_w internal_h internal_l insulation door_config
       internal_volume external_w external_h external_l
       burner_holes holes_per_row burner_rows burner_length burner_width
       cfm_required cfm_recommended static_pressure
       refractory_bags refractory_weight blanket_sqft ifb_floor ifb_doors
       front_door_w front_door_h rear_door_w rear_door_h
       steel_cuts btu_required estimated_cost generated_date] in *.

(** ** Finiteness through the operations *)

Lemma fmul_finite_l (x y : float) :
  is_finite (x ⊗ y) = true -> is_finite x = true.
Proof.
  destruct x as [| a | | kx]; try reflexivity;
    destruct y as [| b | | ky]; cbn; try discriminate;
    case_ifs; discriminate.
Qed.

Lemma fdiv_finite_l (x y : float) :
  is_finite y = true -> is_finite (x ⊘ y) = true -> is_finite x = true.
Proof.
  destruct x as [| a | | kx]; try reflexivity;
    destruct y as [| b | | ky]; cbn; discriminate.
Qed.

Lemma round_ok_finite (x : float) (n : Z) :
  round x = Ok n -> is_finite x = true.
Proof. destruct x; cbn; try discriminate; reflexivity. Qed.

(** Dividing by an integer literal of at least [2^b]. *)
Lemma fdiv_int_within (a b n : Z) (x : float) :
  within a x = true -> 2 ^ b <= Z.abs n <= 2 ^ 53 ->
  0 <= b <= a -> a - b < 2098 ->
  within (a - b) (x ⊘ of_int n) = true.
Proof.
  intros Hx Hn Hb Hab.
  rewrite of_int_small by lia.
  apply (fdiv_within a (b + 1074));
    [assumption | reflexivity | | lia | lia | lia | lia].
  cbn [units]. rewrite Z.abs_mul, pow2_units by lia.
  rewrite (Z.abs_eq units_per_one) by (pose proof units_per_one_pos; lia).
  apply Z.mul_le_mono_nonneg_r; [pose proof units_per_one_pos |]; lia.
Qed.

Lemma finite_product_within (x y : float) :
  is_finite (x ⊗ y) = true -> within 2098 (x ⊗ y) = true.
Proof. apply binary64_within, fmul_binary64. Qed.

(** ** When the calculator returns *)

Lemma dec_12_1_within : within 1075 (dec 12 1) = true.
Proof. vm_compute. reflexivity. Qed.

Lemma dec_125_2_within : within 1075 (dec 125 2) = true.
Proof. vm_compute. reflexivity. Qed.

(** The results of float operations are binary64 values. *)
Ltac prove_binary64 :=
  lazymatch goal with
  | |- is_binary64 (_ ⊗ _) = true => apply fmul_binary64
  | |- is_binary64 (_ ⊕ _) = true => apply fadd_binary64
  | |- is_binary64 (_ ⊖ _) = true => apply fsub_binary64
  | |- is_binary64 (_ ⊘ _) = true => apply fdiv_binary64
  | |- is_binary64 (of_int _) = true => apply of_int_binary64
  end.

Lemma returns_bind {A B : Type} (c : result A) (k : A -> result B) (a : A) :
  c = Ok a -> returns (k a) -> returns (bind c k).
Proof. intros -> H. exact H. Qed.

Lemma returns_bind_assoc {A B C : Type} (c : result A) (k1 : A -> result B)
    (k2 : B -> result C) :
  returns (bind c (fun a => bind (k1 a) k2)) -> returns (bind (bind c k1) k2).
Proof. destruct c; exact (fun H => H). Qed.

Lemma returns_Ok {A : Type} (a : A) : returns (Ok a).
Proof. exists a. reflexivity. Qed.

Lemma int_mul_float_ok (n : Z) (x y : float) :
  float_of_int n = Ok x -> int_mul_float n y = Ok (x ⊗ y).
Proof. unfold int_mul_float. intros ->. reflexivity. Qed.

(** Run the step at the head of the goal: a literal conversion, a step
    whose result is known, a [round(x, ndigits)] on the result of a float
    operation, the cut list, or a choice. *)
Ltac forward :=
  lazymatch goal with
  | |- returns (bind ?c ?k) =>
      lazymatch c with
      | bind _ _ => apply returns_bind_assoc
      | (if ?b then _ else _) => destruct b
      | Ok ?a => refine (returns_bind c k a eq_refl _)
      | float_mul_int ?x ?n =>
          refine (returns_bind c k _ (float_mul_int_small x n _) _);
          [small_literal |]
      | float_sub_int ?x ?n =>
          refine (returns_bind c k _ (float_sub_int_small x n _) _);
          [small_literal |]
      | int_add_float ?n ?x =>
          refine (returns_bind c k _ (int_add_float_small x n _) _);
          [small_literal |]
      | float_truediv_int ?x ?n =>
          refine (returns_bind c k _ (float_truediv_int_small x n _ _) _);
          [small_literal | small_literal |]
      | int_mul_float ?n ?y =>
          match goal with
          | E : float_of_int n = Ok ?x |- _ =>
              refine (returns_bind c k _ (int_mul_float_ok n x y E) _)
          end
      | round_ndigits ?x ?d =>
          let y := fresh "y" in
          let E := fresh "E" in
          destruct (round_ndigits_total x d) as (y & E & _);
          [prove_binary64 | lia | refine (returns_bind c k y E _)]
      | calculate_steel_cuts ?a ?b ?c ?d ?e =>
          let cuts := fresh "cuts" in
          let E := fresh "E" in
          destruct (calculate_steel_cuts_ok a b c d e) as (cuts & E & _);
          refine (returns_bind _ k cuts E _)
      | _ =>
          match goal with
          | E : c = Ok ?a |- _ => refine (returns_bind c k a E _)
          end
      end;
      cbv beta
  | |- returns (Ok ?a) => apply returns_Ok
  end.

Lemma calculate_forge_specs_returns (now : string) (u : UserInput) :
  is_finite (volume_of u ⊗ of_int BTU_PER_CUBIC_INCH) = true ->
  is_finite (ext_l_of u ⊗ ext_w_of u) = true ->
  returns (calculate_forge_specs now u).
Proof.
  unfold volume_of, ext_l_of, ext_w_of. intros Hbtu Hfloor.
  set (vol := input_width u ⊗ input_height u ⊗ input_length u) in *.
  assert (Wvol : within 2098 vol = true).
  { apply binary64_within; [apply fmul_binary64 |].
    apply (fmul_finite_l _ _ Hbtu). }
  (* burner *)
  assert (Wraw : within (2098 - 4) (vol ⊘ of_int HOLE_COVERAGE_CI) = true).
  { apply fdiv_int_within;
      [assumption | vm_compute; split; congruence | lia | lia]. }
  destruct (round_within _ _ Wraw ltac:(lia)) as (n & En & Hn).
  assert (Htotal : Z.abs (Z.max MIN_BURNER_HOLES n) <= 2 ^ 1020).
  { change (2098 - 4 - 1074) with 1020 in Hn.
    assert (2 ^ 4 <= 2 ^ 1020) by (apply pow2_le; lia).
    change (2 ^ 4) with 16 in *. unfold MIN_BURNER_HOLES. lia. }
  destruct (int_truediv_within 1020 _ BURNER_ROWS ltac:(lia) Htotal
              ltac:(reflexivity)) as (share & Eshare & Wshare).
  destruct (round_within _ _ Wshare ltac:(lia)) as (hpr & Ehpr & Hhpr).
  replace (1020 + 1074 - 1074) with 1020 in Hhpr by lia.
  destruct (float_of_int_within 1020 hpr ltac:(lia) Hhpr) as (Espan & _).
  (* blower *)
  assert (Wcfm : within 2095
            (vol ⊘ of_int HOLE_COVERAGE_CI ⊗ dec 12 1) = true).
  { apply (fmul_within (2098 - 4) 1075);
      [assumption | apply dec_12_1_within | lia | lia | lia | lia]. }
  destruct (round_within _ _ Wcfm ltac:(lia)) as (cfm & Ecfm & Hcfm).
  change (2095 - 1074) with 1021 in Hcfm.
  destruct (float_of_int_within 1021 cfm ltac:(lia) Hcfm)
    as (Emargin & Wmargin).
  assert (Wrec : within 2096 (of_int cfm ⊗ dec 125 2) = true).
  { apply (fmul_within (1021 + 1074) 1075);
      [assumption | apply dec_125_2_within | lia | lia | lia | lia]. }
  destruct (round_within _ _ Wrec ltac:(lia)) as (rec & Erec & _).
  (* BTU and floor bricks *)
  destruct (round_within _ _ (finite_product_within _ _ Hbtu) ltac:(lia))
    as (btu & Ebtu & _).
  assert (Wfloor : within (2098 - 6)
            ((input_length u ⊕ dec 10 1)
             ⊗ (input_width u ⊕ input_insulation u ⊗ of_int 2 ⊕ dec 5 1)
             ⊘ of_int 72) = true).
  { apply fdiv_int_within;
      [apply finite_product_within; assumption
      | vm_compute; split; congruence | lia | lia]. }
  destruct (round_within _ _ Wfloor ltac:(lia)) as (bricks & Ebricks & _).
  (* the run *)
  unfold calculate_forge_specs. fold vol.
  repeat forward.
Qed.

Lemma calculate_forge_specs_finite (now : string) (u : UserInput)
    (s : ForgeSpecs) :
  calculate_forge_specs now u = Ok s ->
  is_finite (volume_of u ⊗ of_int BTU_PER_CUBIC_INCH) = true /\
  is_finite (ext_l_of u ⊗ ext_w_of u) = true.
Proof.
  intros H. invert_specs H. unfold volume_of, ext_l_of, ext_w_of. split.
  - match goal with
    | E : round (_ ⊗ of_int 450) = Ok _ |- _ =>
        exact (round_ok_finite _ _ E)
    end.
  - match goal with
    | E : round (_ ⊘ of_int 72) = Ok _ |- _ =>
        apply round_ok_finite in E;
        apply fdiv_finite_l in E; [exact E | vm_compute; reflexivity]
    end.
Qed.

(** ** Replaying known steps *)

Lemma bind_eq_ok {A B : Type} (c : result A) (k : A -> result B) (a : A)
    (r : result B) :
  c = Ok a -> k a = r -> bind c k = r.
Proof. intros -> H. exact H. Qed.

(** Run the step at the head of the left-hand side with a known result. *)
Ltac replay :=
  repeat lazymatch goal with
         | |- bind ?c ?k = _ =>
             match goal with
             | E : c = Ok ?a |- _ => refine (bind_eq_ok c k a _ E _)
             end;
             cbv beta
         end.

(** Run the step at the head of the left-hand side again: a literal
    conversion, or a step whose result is known. *)
Ltac rerun :=
  lazymatch goal with
  | |- bind ?c ?k = _ =>
      lazymatch c with
      | Ok ?a => refine (bind_eq_ok c k a _ eq_refl _)
      | float_mul_int ?x ?n =>
          refine (bind_eq_ok c k _ _ (float_mul_int_small x n _) _);
          [small_literal |]
      | float_sub_int ?x ?n =>
          refine (bind_eq_ok c k _ _ (float_sub_int_small x n _) _);
          [small_literal |]
      | int_add_float ?n ?x =>
          refine (bind_eq_ok c k _ _ (int_add_float_small x n _) _);
          [small_literal |]
      | float_truediv_int ?x ?n =>
          refine (bind_eq_ok c k _ _ (float_truediv_int_small x n _ _) _);
          [small_literal | small_literal |]
      | _ =>
          match goal with
          | E : c = Ok ?a |- _ => refine (bind_eq_ok c k a _ E _)
          end
      end;
      cbv beta
  end.

(** ** The burner rows *)

(** The quotient of an integer of at least [2^j * b] by [b] rounds to at
    least [2^j]. *)
Lemma int_truediv_round_lower (j a b h : Z) (x : float) :
  0 <= j -> 0 < b -> 2 ^ j * b <= a ->
  int_truediv a b = Ok x -> round x = Ok h -> 2 ^ j <= h.
Proof.
  intros Hj Hb Ha Hdiv Hround.
  unfold int_truediv in Hdiv.
  destruct (Z.eqb_spec b 0); [lia |].
  pose proof units_per_one_pos as HU.
  pose proof (pow2_pos j Hj) as Hp.
  assert (Hk : 2 ^ (j + 1074)
               <= nearest53 (a * units_per_one * Z.sgn b) (Z.abs b)).
  { apply nearest53_ge_pow2; [lia | lia |].
    rewrite pow2_units by lia.
    replace (Z.sgn b) with 1 by lia. replace (Z.abs b) with b by lia.
    rewrite Z.mul_1_r.
    replace (2 ^ j * units_per_one * b) with (2 ^ j * b * units_per_one)
      by ring.
    apply Z.mul_le_mono_nonneg_r; lia. }
  rewrite pow2_units in Hk by lia.
  pose proof (round_units_inv (xorb (a <? 0) (b <? 0))
                (a * units_per_one * Z.sgn b) (Z.abs b)) as Hinv.
  destruct (round_units _ _ _) as [| s | | k];
    try discriminate; try contradiction;
    apply Ok_inj in Hdiv; subst x; unfold round in Hround;
    apply Ok_inj in Hround; subst h.
  - lia.
  - destruct Hinv as [Hk' _]. rewrite Hk'.
    apply rne_div_lower; [exact HU | exact Hk].
Qed.

(** ** Rails shorter than the corner posts *)

Lemma fsub_int_negative (x : float) (n : Z) :
  Z.abs n <= 2 ^ 53 -> float_lt_int x n = true ->
  float_lt_int (x ⊖ of_int n) 0 = true.
Proof.
  intros Hn Hlt. rewrite of_int_small by exact Hn.
  unfold float_lt_int in Hlt.
  set (m := n * units_per_one) in *. clearbody m.
  unfold fsub, fneg.
  destruct (Z.eqb_spec m 0) as [-> | Hm];
    destruct x as [| s | | k]; try discriminate;
    cbn [fadd units signbit andb] in *;
    try exact Hlt; apply Z.ltb_lt in Hlt;
    match goal with
    | |- context [if ?a =? 0 then _ else _] =>
        destruct (Z.eqb_spec a 0); [lia |]
    end;
    apply round_units_negative; lia.
Qed.

(** ** The worked scenario *)

(** The run of scenario A, field by field. *)
Lemma scenario_A_runs (now : string) :
  exists s,
    calculate_forge_specs now scenario_A = Ok s /\
    scenario_A_as_computed s /\
    external_w s = dec 105 1 /\
    external_h s = dec 105 1 /\
    external_l s = of_int 15 /\
    refractory_bags s = dec 11 1 /\
    refractory_weight s = dec 612 1 /\
    blanket_sqft s = dec 48 1 /\
    ifb_floor s = 2 /\
    ifb_doors s = 4 /\
    rear_door_w s = PyInt 0 /\
    rear_door_h s = PyInt 0 /\
    btu_required s = 226800 /\
    estimated_cost s = of_int 371 /\
    generated_date s = now.
Proof.
  eexists. split; [vm_compute; exact eq_refl |].
  vm_compute. repeat split.
Qed.

(** ** No step divides by zero *)

Lemma no_zero_division_bind {A B : Type} (c : result A)
    (k : A -> result B) :
  no_zero_division c -> (forall a, c = Ok a -> no_zero_division (k a)) ->
  no_zero_division (bind c k).
Proof.
  unfold no_zero_division. destruct c as [a | e]; cbn.
  - intros _ Hk. apply Hk. reflexivity.
  - intros Hc _ He. apply Hc. congruence.
Qed.

Lemma no_zero_division_bind_assoc {A B C : Type} (c : result A)
    (k1 : A -> result B) (k2 : B -> result C) :
  no_zero_division (bind c (fun a => bind (k1 a) k2)) ->
  no_zero_division (bind (bind c k1) k2).
Proof. destruct c; exact (fun H => H). Qed.

Lemma no_zero_division_Ok {A : Type} (a : A) : no_zero_division (Ok a).
Proof. discriminate. Qed.

Lemma round_no_zero_division (x : float) : no_zero_division (round x).
Proof. destruct x; discriminate. Qed.

Lemma float_of_int_no_zero_division (n : Z) :
  no_zero_division (float_of_int n).
Proof. unfold float_of_int. destruct (of_int n); discriminate. Qed.

Lemma int_mul_float_no_zero_division (n : Z) (y : float) :
  no_zero_division (int_mul_float n y).
Proof.
  unfold int_mul_float.
  apply no_zero_division_bind;
    [apply float_of_int_no_zero_division | discriminate].
Qed.

Lemma int_truediv_no_zero_division (a b : Z) :
  b <> 0 -> no_zero_division (int_truediv a b).
Proof.
  intros Hb. unfold int_truediv.
  destruct (Z.eqb_spec b 0); [contradiction |].
  destruct (round_units _ _ _); discriminate.
Qed.

Lemma round_ndigits_no_zero_division (x : float) (ndigits : Z) :
  no_zero_division (round_ndigits x ndigits).
Proof.
  unfold round_ndigits. destruct x; try discriminate.
  case_ifs; try discriminate;
    match goal with
    | |- no_zero_division (match ?r with _ => _ end) =>
        destruct r; discriminate
    end.
Qed.

Lemma Ok_no_zero_division {A : Type} (c : result A) (a : A) :
  c = Ok a -> no_zero_division c.
Proof. intros ->. discriminate. Qed.

(** Run the step at the head of the goal. *)
Ltac safe_step :=
  lazymatch goal with
  | |- no_zero_division (bind ?c ?k) =>
      lazymatch c with
      | bind _ _ => apply no_zero_division_bind_assoc
      | (if ?b then _ else _) => destruct b
      | _ =>
          apply (no_zero_division_bind c k);
          [ lazymatch c with
            | Ok _ => apply no_zero_division_Ok
            | float_mul_int ?x ?n =>
                apply (Ok_no_zero_division _ _ (float_mul_int_small x n
                                                  ltac:(small_literal)))
            | float_sub_int ?x ?n =>
                apply (Ok_no_zero_division _ _ (float_sub_int_small x n
                                                  ltac:(small_literal)))
            | int_add_float ?n ?x =>
                apply (Ok_no_zero_division _ _ (int_add_float_small x n
                                                  ltac:(small_literal)))
            | float_truediv_int ?x ?n =>
                apply (Ok_no_zero_division _ _
                         (float_truediv_int_small x n ltac:(small_literal)
                            ltac:(small_literal)))
            | int_mul_float ?n ?y => apply int_mul_float_no_zero_division
            | int_truediv ?a ?b =>
                apply int_truediv_no_zero_division; small_literal
            | round ?x => apply round_no_zero_division
            | round_ndigits ?x ?d => apply round_ndigits_no_zero_division
            | calculate_steel_cuts ?a ?b ?c ?d ?e =>
                let cuts := fresh "cuts" in
                let E := fresh "E" in
                destruct (calculate_steel_cuts_ok a b c d e)
                  as (cuts & E & _);
                exact (Ok_no_zero_division _ _ E)
            end
          | let a := fresh "a" in
            let E := fresh "E" in
            intros a E; clear E ]
      end;
      cbv beta
  | |- no_zero_division (Ok _) => apply no_zero_division_Ok
  end.

Lemma calculate_forge_specs_no_zero_division (now : string)
    (u : UserInput) :
  no_zero_division (calculate_forge_specs now u).
Proof.
  unfold calculate_forge_specs. repeat safe_step.
Qed.

(* ===================================================================== *)
(** * Part VI: the properties of the calculator                          *)
(* ===================================================================== *)

(** ** Scenario A *)

(** C1, as amended: for width 6, height 6, length 14, insulation 2 and a
    front door only, [calculate_forge_specs] returns internal volume 504,
    27 burner holes in rows of 9, CFM required 34, front door 5.1 by 5.1,
    and, where the listed values differ, burner length 8.2 (the tie 8.25
    goes to the even digit), CFM recommended 42 (the tie 42.5 goes to the
    even integer) and static pressure ["3.0"] (504 is not below 500). *)
Theorem scenario_A_computed (now : string) :
  exists s,
    calculate_forge_specs now scenario_A = Ok s /\ scenario_A_as_computed s.
Proof.
  destruct (scenario_A_runs now) as (s & Hrun & Hcomputed & _).
  exists s. split; assumption.
Qed.

(** C1, as listed, fails: the run of scenario A does not have the listed
    static pressure ["1.5"], nor the listed CFM recommended 43. *)
Lemma scenario_A_not_as_listed :
  exists s,
    calculate_forge_specs sample_date scenario_A = Ok s /\
    static_pressure s <> "1.5"%string /\
    cfm_recommended s <> 43 /\
    ~ scenario_A_as_listed s.
Proof.
  destruct (scenario_A_runs sample_date) as (s & Hrun & Hcomputed & _).
  destruct Hcomputed as (_ & _ & _ & _ & _ & Hcfm & Hpressure & _).
  exists s. split; [exact Hrun |].
  assert (Hp : static_pressure s <> "1.5"%string)
    by (rewrite Hpressure; discriminate).
  assert (Hc : cfm_recommended s <> 43) by (rewrite Hcfm; discriminate).
  repeat split; try assumption.
  intros (_ & _ & _ & _ & _ & Hlisted & _). contradiction.
Qed.

(** ** Burner sizing *)

(** C2: whenever the calculator returns, the internal volume is the
    float product [width * height * length] of the input, the holes per
    row are [round(max(12, round(internal_volume / 18)) / 3)] of that
    volume, the burner holes are three times the holes per row, hence a
    multiple of 3, and there are at least 12 of them. *)
Theorem burner_holes_multiple_of_rows (now : string) (u : UserInput)
    (s : ForgeSpecs) :
  calculate_forge_specs now u = Ok s ->
  internal_volume s = volume_of u /\
  (rounded <- round (volume_of u ⊘ of_int 18) ;;
   share <- int_truediv (Z.max 12 rounded) 3 ;;
   round share) = Ok (holes_per_row s) /\
  burner_holes s = holes_per_row s * 3 /\
  burner_holes s mod 3 = 0 /\
  12 <= burner_holes s.
Proof.
  intros H. invert_specs H. unfold volume_of.
  split; [reflexivity |].
  assert (Hrow : 2 ^ 2 <= v1).
  { match goal with
    | Ediv : int_truediv (Z.max 12 ?n) 3 = Ok ?x, Erow : round ?x = Ok v1
      |- _ =>
        apply (int_truediv_round_lower 2 (Z.max 12 n) 3 v1 x);
        [lia | reflexivity | change (2 ^ 2) with 4; lia
        | exact Ediv | exact Erow]
    end. }
  change (2 ^ 2) with 4 in Hrow.
  repeat split.
  - replay. assumption.
  - apply Z.mod_mul. lia.
  - lia.
Qed.

(** ** Airflow sizing *)

(** C3: with the internal volume the float product
    [width * height * length] of the input, CFM required is
    [round(internal_volume / 18 * 1.2)], from the raw quotient and not
    from the hole count; CFM recommended is [round(cfm_required * 1.25)],
    that is [round(round(internal_volume / 18 * 1.2) * 1.25)]. *)
Theorem cfm_from_raw_coverage (now : string) (u : UserInput)
    (s : ForgeSpecs) :
  calculate_forge_specs now u = Ok s ->
  internal_volume s = volume_of u /\
  round (volume_of u ⊘ of_int 18 ⊗ dec 12 1) = Ok (cfm_required s) /\
  (margin <- int_mul_float (cfm_required s) (dec 125 2) ;;
   round margin) = Ok (cfm_recommended s) /\
  (required <- round (volume_of u ⊘ of_int 18 ⊗ dec 12 1) ;;
   margin <- int_mul_float required (dec 125 2) ;;
   round margin) = Ok (cfm_recommended s).
Proof.
  intros H. invert_specs H. unfold volume_of.
  split; [reflexivity |].
  repeat split; replay; assumption.
Qed.

(** C4: with the internal volume the float product
    [width * height * length] of the input, the static pressure is
    ["1.5"] when the internal volume is below 500 and ["3.0"] otherwise;
    it has no other value, and at a volume of exactly 500 it is
    ["3.0"]. *)
Theorem static_pressure_step (now : string) (u : UserInput)
    (s : ForgeSpecs) :
  calculate_forge_specs now u = Ok s ->
  internal_volume s = volume_of u /\
  (float_lt_int (volume_of u) 500 = true ->
   static_pressure s = "1.5"%string) /\
  (float_lt_int (volume_of u) 500 = false ->
   static_pressure s = "3.0"%string) /\
  (static_pressure s = "1.5"%string \/ static_pressure s = "3.0"%string) /\
  (volume_of u = of_int 500 -> static_pressure s = "3.0"%string).
Proof.
  intros H. invert_specs H. unfold volume_of.
  split; [reflexivity |].
  repeat split.
  - intros ->. reflexivity.
  - intros ->. reflexivity.
  - destruct (float_lt_int _ 500); [left | right]; reflexivity.
  - intros ->. rewrite of_int_small by small_literal.
    unfold float_lt_int, units. rewrite Z.ltb_irrefl. reflexivity.
Qed.

(** ** Refractory sizing *)

(** C6: with the external volume the float product of the envelope
    [width + 2 * insulation + 0.5], [height + 2 * insulation + 0.5] and
    [length + 1.0] of the input, and the internal volume the float
    product of its width, height and length, the refractory bags are
    [round((external volume - internal volume) / 1728 * 92 / 55, 1)] and
    the refractory weight is
    [round((external volume - internal volume) / 1728 * 92, 1)], with
    density 92 and bag size 55; the record stores that envelope and that
    volume. *)
Theorem refractory_from_shell_volume (now : string) (u : UserInput)
    (s : ForgeSpecs) :
  calculate_forge_specs now u = Ok s ->
  refractory_volume_of s = shell_volume_of u /\
  round_ndigits
    (shell_volume_of u ⊘ of_int 1728
       ⊗ of_int REFRACTORY_DENSITY_LB_PER_CF
       ⊘ of_int REFRACTORY_BAG_SIZE_LB) 1 = Ok (refractory_bags s) /\
  round_ndigits
    (shell_volume_of u ⊘ of_int 1728
       ⊗ of_int REFRACTORY_DENSITY_LB_PER_CF) 1 = Ok (refractory_weight s) /\
  REFRACTORY_DENSITY_LB_PER_CF = 92 /\
  REFRACTORY_BAG_SIZE_LB = 55.
Proof.
  intros H. invert_specs H.
  unfold refractory_volume_of, shell_volume_of, ext_w_of, ext_h_of,
    ext_l_of, volume_of.
  cbn [internal_volume external_w external_h external_l].
  split; [reflexivity |].
  repeat split; assumption.
Qed.

(** ** Door sizing *)

Lemma dec_70_2 : dec 70 2 = dec 7 1.
Proof. vm_compute. reflexivity. Qed.

(** C7: the front door is [round(width * 0.85, 1)] by
    [round(height * 0.85, 1)]; with front and rear doors the rear door is
    [round(width * 0.70, 1)] by [round(height * 0.75, 1)]; with any other
    door configuration both rear dimensions are the integer zero. *)
Theorem door_sizing (now : string) (u : UserInput) (s : ForgeSpecs) :
  calculate_forge_specs now u = Ok s ->
  round_ndigits (input_width u ⊗ dec 85 2) 1 = Ok (front_door_w s) /\
  round_ndigits (input_height u ⊗ dec 85 2) 1 = Ok (front_door_h s) /\
  (input_door_config u = FrontAndRear ->
   exists rear_w rear_h,
     rear_door_w s = PyFloat rear_w /\
     rear_door_h s = PyFloat rear_h /\
     round_ndigits (input_width u ⊗ dec 70 2) 1 = Ok rear_w /\
     round_ndigits (input_height u ⊗ dec 75 2) 1 = Ok rear_h) /\
  (input_door_config u <> FrontAndRear ->
   rear_door_w s = PyInt 0 /\ rear_door_h s = PyInt 0).
Proof.
  intros H. invert_specs H. rewrite dec_70_2.
  match goal with
  | E : (if input_door_config u =? 2 then _ else _) = Ok _ |- _ =>
      rename E into Erear
  end.
  split; [assumption |]. split; [assumption |]. split.
  - intros Hdoor. unfold FrontAndRear in Hdoor.
    rewrite Hdoor, Z.eqb_refl in Erear.
    repeat step_in Erear. apply Ok_inj in Erear. subst.
    eexists _, _. repeat split; assumption.
  - intros Hdoor. unfold FrontAndRear in Hdoor.
    destruct (Z.eqb_spec (input_door_config u) 2) as [Hd | Hd];
      [contradiction |].
    apply Ok_inj in Erear. subst. split; reflexivity.
Qed.

(** ** The external envelope *)

(** C8: the external width is [width + 2 * insulation + 0.5], the external
    height [height + 2 * insulation + 0.5] and the external length
    [length + 1.0]: the float sums themselves, to which no [round] is
    applied. *)
Theorem external_envelope (now : string) (u : UserInput) (s : ForgeSpecs) :
  calculate_forge_specs now u = Ok s ->
  external_w s =
    input_width u ⊕ of_int 2 ⊗ input_insulation u ⊕ dec 5 1 /\
  external_h s =
    input_height u ⊕ of_int 2 ⊗ input_insulation u ⊕ dec 5 1 /\
  external_l s = input_length u ⊕ dec 10 1.
Proof.
  intros H. invert_specs H.
  rewrite (fmul_comm (of_int 2) (input_insulation u)).
  repeat split.
Qed.

(** ** Totality *)

(** C5, as listed, fails: a chamber 1e200 wide and 1e200 high has
    positive finite dimensions and a listed door configuration, and the
    calculator raises OverflowError on it (its volume is not finite). *)
Lemma huge_chamber_raises :
  valid_input huge_chamber /\
  calculate_forge_specs sample_date huge_chamber = Raise OverflowError.
Proof.
  split.
  - unfold valid_input. repeat split; try (vm_compute; reflexivity).
    left. reflexivity.
  - vm_compute. reflexivity.
Qed.

(** C5, as amended: on positive finite dimensions and a listed door
    configuration the calculator returns a record, raising nothing,
    exactly when the float products [internal_volume * 450] and
    [ext_l * ext_w] are finite; and it never divides by zero. *)
Theorem returns_unless_overflow (now : string) (u : UserInput) :
  valid_input u ->
  (returns (calculate_forge_specs now u) <->
   is_finite (volume_of u ⊗ of_int BTU_PER_CUBIC_INCH) = true /\
   is_finite (ext_l_of u ⊗ ext_w_of u) = true) /\
  calculate_forge_specs now u <> Raise ZeroDivisionError.
Proof.
  intros _. split; [split |].
  - intros [s Hs]. exact (calculate_forge_specs_finite now u s Hs).
  - intros [Hbtu Hfloor]. apply calculate_forge_specs_returns; assumption.
  - apply calculate_forge_specs_no_zero_division.
Qed.

(** ** Door configurations *)

(** C9: a side-loading chamber gets the record of the same chamber with a
    front door only, but for two keys: the door configuration it echoes
    and the door brick count, 6 instead of 4. *)
Theorem side_loading_as_front_only (now : string) (w h l ins : float)
    (front : ForgeSpecs) :
  calculate_forge_specs now (chamber w h l ins FrontOnly) = Ok front ->
  exists side,
    calculate_forge_specs now (chamber w h l ins SideLoading) = Ok side /\
    same_except_doors front side /\
    door_config front = FrontOnly /\ door_config side = SideLoading /\
    ifb_doors front = 4 /\ ifb_doors side = 6.
Proof.
  intros H. invert_specs H.
  unfold FrontOnly, SideLoading in *.
  match goal with
  | E : (if 1 =? 2 then _ else _) = Ok _ |- _ =>
      change (1 =? 2) with false in E; cbv iota in E;
      apply Ok_inj in E; subst
  end.
  eexists. split.
  - unfold calculate_forge_specs.
    cbn [chamber input_width input_height input_length input_insulation
         input_door_config].
    change (3 =? 2) with false. cbv iota.
    unfold REFRACTORY_DENSITY_LB_PER_CF, REFRACTORY_BAG_SIZE_LB,
      BTU_PER_CUBIC_INCH, HOLE_COVERAGE_CI, MIN_BURNER_HOLES, BURNER_ROWS,
      HOLE_SPACING, COST_REFRACTORY_PER_BAG, COST_BASE_MATERIALS.
    repeat rerun.
    exact eq_refl.
  - unfold same_except_doors.
    cbn [internal_w internal_h internal_l insulation door_config
         internal_volume external_w external_h external_l
         burner_holes holes_per_row burner_rows burner_length burner_width
         cfm_required cfm_recommended static_pressure
         refractory_bags refractory_weight blanket_sqft ifb_floor ifb_doors
         front_door_w front_door_h rear_door_w rear_door_h
         steel_cuts btu_required estimated_cost generated_date].
    repeat split.
Qed.

(** ** The steel cut list *)

(** C10: the cut list is what [calculate_steel_cuts] returns on the
    external envelope, it lists eight top/bottom rails of length
    [ext_l - 4] and eight end rails of length [ext_w - 4], and nothing
    bounds these lengths below: when [width + 2 * insulation + 0.5 < 4]
    the end rails have a negative length, and when [length + 1.0 < 4] the
    top/bottom rails have. *)
Theorem rails_not_bounded_below (now : string) (u : UserInput)
    (s : ForgeSpecs) :
  calculate_forge_specs now u = Ok s ->
  calculate_steel_cuts (external_w s) (external_h s) (external_l s)
    (front_door_w s) (front_door_h s) = Ok (steel_cuts s) /\
  angle_iron (steel_cuts s) =
    [ {| angle_name := "Corner Posts"; angle_qty := 4;
         angle_length := ext_h_of u; angle_size := angle_stock |};
      {| angle_name := "Top/Bottom Rails"; angle_qty := 8;
         angle_length := ext_l_of u ⊖ of_int 4;
         angle_size := angle_stock |};
      {| angle_name := "End Rails"; angle_qty := 8;
         angle_length := ext_w_of u ⊖ of_int 4;
         angle_size := angle_stock |} ] /\
  (float_lt_int (ext_w_of u) 4 = true ->
   float_lt_int (ext_w_of u ⊖ of_int 4) 0 = true) /\
  (float_lt_int (ext_l_of u) 4 = true ->
   float_lt_int (ext_l_of u ⊖ of_int 4) 0 = true).
Proof.
  intros H. invert_specs H. unfold ext_w_of, ext_h_of, ext_l_of.
  match goal with
  | E : calculate_steel_cuts ?a ?b ?c ?d ?e = Ok ?cuts |- _ =>
      destruct (calculate_steel_cuts_ok a b c d e) as (cuts' & E' & Hangle);
      assert (cuts = cuts') by (apply Ok_inj; rewrite <- E, <- E'; exact eq_refl);
      subst cuts'
  end.
  split; [assumption |]. split; [assumption |].
  split; apply fsub_int_negative; small_literal.
Qed.

(** ** The volume and the envelope of a run *)

(** Every run echoes its input and stores the volume and the envelope
    of the source. *)
Lemma calculate_forge_specs_dimensions (now : string) (u : UserInput)
    (s : ForgeSpecs) :
  calculate_forge_specs now u = Ok s ->
  internal_volume s = volume_of u /\
  external_w s = ext_w_of u /\
  external_h s = ext_h_of u /\
  external_l s = ext_l_of u.
Proof. intros H. invert_specs H. repeat split. Qed.

(* ===================================================================== *)
(** * Part VII: validation, and more of the calculator                  *)
(* ===================================================================== *)

(** ** Rounding is monotone against representable bounds *)

Section Nearest53Bounds.

Variables n d B : Z.
Hypothesis d_pos : 0 < d.
Hypothesis B_representable : representable B = true.

Lemma nearest53_le_representable : n <= B * d -> nearest53 n d <= B.
Proof.
  intros Hn.
  set (s := dropped_bits (Z.abs n / d)).
  pose proof (dropped_bits_nonneg (Z.abs n / d)) as Hs0. fold s in Hs0.
  pose proof (pow2_pos s Hs0) as Hp.
  destruct (Z_le_gt_dec (2 ^ (s + 52)) (Z.abs B)) as [Hbig | Hsmall].
  - destruct (representable_multiple B s Hs0 B_representable Hbig)
      as [c Hc].
    rewrite Hc in *. apply nearest53_grid_upper; assumption.
  - destruct (Z.eq_dec s 0) as [Hz | Hnz].
    + replace B with (B * 2 ^ s) in * by (rewrite Hz; lia).
      apply nearest53_grid_upper; assumption.
    + pose proof (magnitude_above n d d_pos ltac:(fold s; lia)) as Hm.
      fold s in Hm.
      rewrite Z.pow_add_r in Hsmall by lia.
      assert (Hneg : n <= - 2 ^ (s + 52) * d).
      { rewrite Z.pow_add_r by lia. nia. }
      assert (nearest53 n d <= - 2 ^ (s + 52))
        by (apply nearest53_le_neg_pow2; [assumption | lia | exact Hneg]).
      rewrite Z.pow_add_r in * by lia. lia.
Qed.

Lemma nearest53_ge_representable : B * d <= n -> B <= nearest53 n d.
Proof.
  intros Hn.
  set (s := dropped_bits (Z.abs n / d)).
  pose proof (dropped_bits_nonneg (Z.abs n / d)) as Hs0. fold s in Hs0.
  pose proof (pow2_pos s Hs0) as Hp.
  destruct (Z_le_gt_dec (2 ^ (s + 52)) (Z.abs B)) as [Hbig | Hsmall].
  - destruct (representable_multiple B s Hs0 B_representable Hbig)
      as [c Hc].
    rewrite Hc in *. apply nearest53_grid_lower; assumption.
  - destruct (Z.eq_dec s 0) as [Hz | Hnz].
    + replace B with (B * 2 ^ s) in * by (rewrite Hz; lia).
      apply nearest53_grid_lower; assumption.
    + pose proof (magnitude_above n d d_pos ltac:(fold s; lia)) as Hm.
      fold s in Hm.
      rewrite Z.pow_add_r in Hsmall by lia.
      assert (Hpos : 2 ^ (s + 52) * d <= n).
      { rewrite Z.pow_add_r by lia. nia. }
      assert (2 ^ (s + 52) <= nearest53 n d)
        by (apply nearest53_ge_pow2; [assumption | lia | exact Hpos]).
      rewrite Z.pow_add_r in * by lia. lia.
Qed.

End Nearest53Bounds.

(** ** Rounding to an integer at the half-way points *)

Section RneDivHalf.

Variables n d m : Z.
Hypothesis d_pos : 0 < d.

Lemma rne_div_below_half : 2 * n < (2 * m + 1) * d -> rne_div n d <= m.
Proof.
  intros Hm.
  pose proof (Z.div_mod n d ltac:(lia)) as Hdm.
  pose proof (Z.mod_pos_bound n d d_pos) as Hr.
  unfold rne_div.
  destruct (Z.compare_spec (2 * (n mod d)) d) as [He | Hl | Hg].
  - assert (n / d < m) by nia. destruct (Z.even (n / d)); lia.
  - assert (n / d <= m) by nia. lia.
  - assert (n / d < m) by nia. lia.
Qed.

Lemma rne_div_above_half : (2 * m - 1) * d < 2 * n -> m <= rne_div n d.
Proof.
  intros Hm.
  pose proof (Z.div_mod n d ltac:(lia)) as Hdm.
  pose proof (Z.mod_pos_bound n d d_pos) as Hr.
  unfold rne_div.
  destruct (Z.compare_spec (2 * (n mod d)) d) as [He | Hl | Hg].
  - assert (m - 1 < n / d) by nia. destruct (Z.even (n / d)); lia.
  - assert (m - 1 < n / d) by nia. lia.
  - assert (m - 1 <= n / d) by nia. lia.
Qed.

(** A tie goes up to an even integer. *)
Lemma rne_div_at_half :
  Z.even m = true -> (2 * m - 1) * d <= 2 * n -> m <= rne_div n d.
Proof.
  intros Heven Hm.
  destruct (Z.eq_dec ((2 * m - 1) * d) (2 * n)) as [Htie | Hne];
    [| apply rne_div_above_half; lia].
  pose proof (Z.div_mod n d ltac:(lia)) as Hdm.
  pose proof (Z.mod_pos_bound n d d_pos) as Hr.
  assert (Hq : n / d = m - 1) by nia.
  assert (Hrem : 2 * (n mod d) = d) by nia.
  unfold rne_div. rewrite Hrem, Z.compare_refl, Hq.
  replace (m - 1) with (Z.pred m) by lia.
  rewrite Z.even_pred.
  rewrite <- Z.negb_even, Heven. cbn. lia.
Qed.

End RneDivHalf.

(** ** Values between two bounds *)

Lemma representable_below_threshold (k : Z) :
  representable k = true -> Z.abs k < overflow_threshold.
Proof. intros Hk. apply representable_spec in Hk. tauto. Qed.

(** A quotient between two representable bounds rounds to a value between
    them. *)
Lemma round_units_between (nz : bool) (n d lo hi : Z) :
  0 < d -> representable lo = true -> representable hi = true ->
  lo * d <= n <= hi * d ->
  between lo hi (round_units nz n d).
Proof.
  intros Hd Hlo Hhi [Hl Hh].
  pose proof (nearest53_ge_representable n d lo Hd Hlo Hl) as Hk1.
  pose proof (nearest53_le_representable n d hi Hd Hhi Hh) as Hk2.
  pose proof (representable_below_threshold lo Hlo).
  pose proof (representable_below_threshold hi Hhi).
  unfold round_units.
  destruct (Z.leb_spec overflow_threshold (Z.abs (nearest53 n d)));
    [lia |].
  destruct (Z.eqb_spec (nearest53 n d) 0) as [He | Hne].
  - destruct nz; (split; [reflexivity | cbn [units]; lia]).
  - split; [reflexivity | cbn [units]; lia].
Qed.

(** An exact quotient that is representable is the result. *)
Lemma round_units_exact (nz : bool) (k d : Z) :
  0 < d -> representable k = true -> k <> 0 ->
  round_units nz (k * d) d = Fin k.
Proof.
  intros Hd Hk Hne.
  assert (Hn : nearest53 (k * d) d = k).
  { rewrite <- (Z.mul_1_l d) at 2.
    rewrite nearest53_scale by lia. apply nearest53_id, Hk. }
  unfold round_units. rewrite Hn.
  pose proof (representable_below_threshold k Hk).
  destruct (Z.leb_spec overflow_threshold (Z.abs k)); [lia |].
  destruct (Z.eqb_spec k 0); [contradiction | reflexivity].
Qed.

(** The decimal literal of a small integer. *)
Lemma dec_integer (n digits : Z) :
  0 <= digits -> 0 < n <= 2 ^ 53 ->
  dec (n * 10 ^ digits) digits = Fin (n * units_per_one).
Proof.
  intros Hd Hn. unfold dec.
  pose proof units_per_one_pos as HU.
  assert (Hp : 0 < 10 ^ digits) by (apply Z.pow_pos_nonneg; lia).
  replace (n * 10 ^ digits * units_per_one)
    with (n * units_per_one * 10 ^ digits) by ring.
  apply round_units_exact;
    [exact Hp | apply small_int_representable; lia | nia].
Qed.

Lemma between_weaken (lo hi lo' hi' : Z) (x : float) :
  between lo hi x -> lo' <= lo -> hi <= hi' -> between lo' hi' x.
Proof. intros [Hf Hu] Hl Hh. split; [exact Hf | lia]. Qed.

Lemma between_within (lo hi j : Z) (x : float) :
  between lo hi x -> - 2 ^ j <= lo -> hi <= 2 ^ j -> within j x = true.
Proof.
  intros [Hf Hu] Hl Hh.
  destruct x as [| s | | k]; try discriminate; [reflexivity |].
  cbn in *. apply Z.leb_le. lia.
Qed.

Lemma between_positive (lo hi : Z) (x : float) :
  between lo hi x -> 0 < lo -> exists k, x = Fin k /\ lo <= k <= hi.
Proof.
  intros [Hf Hu] Hl.
  destruct x as [| s | | k]; try discriminate; cbn in Hu; [lia |].
  exists k. split; [reflexivity | exact Hu].
Qed.

(** The finite cases of the four operations round the exact result. *)
Lemma fadd_finite (x y : float) :
  is_finite x = true -> is_finite y = true ->
  x ⊕ y = (if units x + units y =? 0
            then (if signbit x && signbit y then NegZero else Fin 0)
            else round_units false (units x + units y) 1).
Proof. destruct x, y; try discriminate; reflexivity. Qed.

Lemma fmul_finite (x y : float) :
  is_finite x = true -> is_finite y = true ->
  x ⊗ y = round_units (xorb (signbit x) (signbit y))
                       (units x * units y) units_per_one.
Proof. destruct x, y; try discriminate; reflexivity. Qed.

Lemma fdiv_finite (x y : float) :
  is_finite x = true -> is_finite y = true -> units y <> 0 ->
  x ⊘ y = round_units (xorb (signbit x) (signbit y))
                       (units x * units_per_one * Z.sgn (units y))
                       (Z.abs (units y)).
Proof.
  intros Hx Hy Hn.
  destruct y as [| | | ky]; try discriminate; cbn in Hn; try lia.
  destruct x; try discriminate; cbn;
    destruct (Z.eqb_spec ky 0); try lia; reflexivity.
Qed.

Lemma fadd_between (a b c e lo hi : Z) (x y : float) :
  between a b x -> between c e y ->
  representable lo = true -> representable hi = true ->
  lo <= a + c -> b + e <= hi ->
  between lo hi (x ⊕ y).
Proof.
  intros [Hfx Hx] [Hfy Hy] Hlo Hhi Hl Hh.
  rewrite (fadd_finite x y Hfx Hfy).
  destruct (Z.eqb_spec (units x + units y) 0) as [He | Hne].
  - destruct (signbit x && signbit y);
      (split; [reflexivity | cbn [units]; lia]).
  - apply round_units_between; [lia | assumption | assumption | lia].
Qed.

(** The product of two nonnegative ranges. *)
Lemma fmul_between (a b c e lo hi : Z) (x y : float) :
  between a b x -> between c e y -> 0 <= a -> 0 <= c ->
  representable lo = true -> representable hi = true ->
  lo * units_per_one <= a * c -> b * e <= hi * units_per_one ->
  between lo hi (x ⊗ y).
Proof.
  intros [Hfx Hx] [Hfy Hy] Ha Hc Hlo Hhi Hl Hh.
  rewrite (fmul_finite x y Hfx Hfy).
  apply round_units_between;
    [apply units_per_one_pos | assumption | assumption |].
  split.
  - assert (a * c <= units x * units y)
      by (apply Z.mul_le_mono_nonneg; lia).
    lia.
  - assert (units x * units y <= b * e)
      by (apply Z.mul_le_mono_nonneg; lia).
    lia.
Qed.

(** A nonnegative range divided by a positive integer literal. *)
Lemma fdiv_int_between (a b n lo hi : Z) (x : float) :
  between a b x -> 0 < n <= 2 ^ 53 ->
  representable lo = true -> representable hi = true ->
  lo * n <= a -> b <= hi * n ->
  between lo hi (x ⊘ of_int n).
Proof.
  intros [Hfx Hx] Hn Hlo Hhi Hl Hh.
  pose proof units_per_one_pos as HU.
  rewrite of_int_small by lia.
  rewrite (fdiv_finite x (Fin (n * units_per_one)) Hfx eq_refl)
    by (cbn [units]; nia).
  cbn [units].
  assert (Hpos : 0 < n * units_per_one) by nia.
  rewrite (Z.abs_eq (n * units_per_one)), Z.sgn_pos, Z.mul_1_r by lia.
  apply round_units_between; [lia | assumption | assumption |].
  split.
  - replace (lo * (n * units_per_one)) with (lo * n * units_per_one) by ring.
    apply Z.mul_le_mono_nonneg_r; lia.
  - replace (hi * (n * units_per_one)) with (hi * n * units_per_one) by ring.
    apply Z.mul_le_mono_nonneg_r; lia.
Qed.

Lemma of_int_between (n : Z) :
  Z.abs n <= 2 ^ 53 ->
  between (n * units_per_one) (n * units_per_one) (of_int n).
Proof.
  intros Hn. rewrite of_int_small by exact Hn.
  split; [reflexivity | cbn [units]; lia].
Qed.

(** [round] of a value between two bounds. *)
Lemma round_between (lo hi m1 m2 n : Z) (x : float) :
  between lo hi x -> round x = Ok n ->
  (2 * m1 - 1) * units_per_one < 2 * lo ->
  2 * hi < (2 * m2 + 1) * units_per_one ->
  m1 <= 0 <= m2 \/ x <> NegZero ->
  m1 <= n <= m2.
Proof.
  intros [Hf Hu] Hr H1 H2 Hz.
  pose proof units_per_one_pos as HU.
  destruct x as [| s | | k]; try discriminate;
    cbn [round units] in Hr, Hu; apply Ok_inj in Hr; subst n.
  - destruct Hz as [Hz | Hz]; [lia | congruence].
  - split.
    + apply rne_div_above_half; [exact HU | lia].
    + apply rne_div_below_half; [exact HU | lia].
Qed.

(** ** The range checks of [validate_inputs] *)

Lemma range_check (lo hi : Z) (x : float) :
  int_le_float lo x && float_le_int x hi = true <-> in_range lo hi x.
Proof.
  unfold in_range, between.
  destruct x as [| s | | k]; cbn [int_le_float float_le_int is_finite units].
  - split; [discriminate | intros [H _]; discriminate].
  - split; [destruct s; discriminate | intros [H _]; discriminate].
  - rewrite andb_true_iff, !Z.leb_le. tauto.
  - rewrite andb_true_iff, !Z.leb_le. tauto.
Qed.

Lemma insulation_range :
  VALID_INSULATION_RANGE
  = (Fin (1 * units_per_one), Fin (3 * units_per_one)).
Proof.
  unfold VALID_INSULATION_RANGE.
  change (dec 10 1) with (dec (1 * 10 ^ 1) 1).
  change (dec 30 1) with (dec (3 * 10 ^ 1) 1).
  rewrite !dec_integer by (try split; vm_compute; congruence).
  reflexivity.
Qed.

Lemma insulation_check (x : float) :
  fle (fst VALID_INSULATION_RANGE) x && fle x (snd VALID_INSULATION_RANGE)
  = true <-> in_range 1 3 x.
Proof.
  rewrite insulation_range. cbn [fst snd]. unfold in_range, between.
  set (a := 1 * units_per_one). set (b := 3 * units_per_one).
  destruct x as [| s | | k]; cbn [fle is_finite units].
  - split; [discriminate | intros [H _]; discriminate].
  - split; [destruct s; discriminate | intros [H _]; discriminate].
  - rewrite andb_true_iff, !Z.leb_le. tauto.
  - rewrite andb_true_iff, !Z.leb_le. tauto.
Qed.

Lemma volume_check (volume : float) :
  is_finite volume = true ->
  (float_lt_int volume 100 = false /\ float_gt_int volume 2000 = false
   <-> in_range 100 2000 volume).
Proof.
  unfold in_range, between. intros Hf. rewrite Hf.
  destruct volume as [| s | | k]; try discriminate;
    cbn [float_lt_int float_gt_int units];
    rewrite !Z.ltb_ge; tauto.
Qed.

Lemma in_range_volume_check (volume : float) :
  in_range 100 2000 volume ->
  float_lt_int volume 100 = false /\ float_gt_int volume 2000 = false.
Proof. intros H. apply volume_check; [apply H | exact H]. Qed.

(** The volume of a chamber whose sides pass the range checks is between
    54 and 6912 cubic inches. *)
Lemma checked_volume (w h l : float) :
  in_range 3 12 w -> in_range 3 12 h -> in_range 6 48 l ->
  in_range 54 6912 (w ⊗ h ⊗ l).
Proof.
  unfold in_range. intros Hw Hh Hl.
  pose proof units_per_one_pos as HU.
  assert (Hwh : between (9 * units_per_one) (144 * units_per_one) (w ⊗ h)).
  { eapply fmul_between; [exact Hw | exact Hh | lia | lia | | | |].
    - apply small_int_representable. vm_compute. congruence.
    - apply small_int_representable. vm_compute. congruence.
    - nia.
    - nia. }
  eapply fmul_between; [exact Hwh | exact Hl | lia | lia | | | |].
  - apply small_int_representable. vm_compute. congruence.
  - apply small_int_representable. vm_compute. congruence.
  - nia.
  - nia.
Qed.

(** ** The list of warnings *)

Lemma appended_if_nil {A : Type} (c : bool) (m : A) (ws : list A) :
  appended_if c m ws = [] <-> c = false /\ ws = [].
Proof.
  unfold appended_if. destruct c.
  - split; [| intros [H _]; discriminate].
    intros H. apply app_eq_nil in H as [_ H]. discriminate.
  - tauto.
Qed.

Lemma appended_if_in {A : Type} (c : bool) (m : A) (ws : list A) (x : A) :
  In x (appended_if c m ws) <-> In x ws \/ c = true /\ x = m.
Proof.
  unfold appended_if. destruct c.
  - rewrite in_app_iff. cbn [In]. intuition congruence.
  - intuition discriminate.
Qed.

Lemma appended_if_length {A : Type} (c : bool) (m : A) (ws : list A) :
  List.length (appended_if c m ws)
  = (List.length ws + (if c then 1 else 0))%nat.
Proof.
  unfold appended_if. destruct c; [rewrite length_app; reflexivity | lia].
Qed.

(** [validate_inputs] step by step. *)
Lemma validate_inputs_steps (w h l ins : float) :
  validate_inputs w h l ins =
  appended_if (float_gt_int (w ⊗ h ⊗ l) 2000) (large_warning (w ⊗ h ⊗ l))
    (appended_if (float_lt_int (w ⊗ h ⊗ l) 100)
       (small_warning (w ⊗ h ⊗ l))
       (appended_if
          (negb (fle (fst VALID_INSULATION_RANGE) ins
                 && fle ins (snd VALID_INSULATION_RANGE)))
          (insulation_warning ins)
          (appended_if
             (negb (int_le_float (fst VALID_LENGTH_RANGE) l
                    && float_le_int l (snd VALID_LENGTH_RANGE)))
             (length_warning l)
             (appended_if
                (negb (int_le_float (fst VALID_HEIGHT_RANGE) h
                       && float_le_int h (snd VALID_HEIGHT_RANGE)))
                (height_warning h)
                (appended_if
                   (negb (int_le_float (fst VALID_WIDTH_RANGE) w
                          && float_le_int w (snd VALID_WIDTH_RANGE)))
                   (width_warning w) []))))).
Proof.
  unfold validate_inputs. cbv zeta. unfold appended_if. exact eq_refl.
Qed.

(** Without a warning every side and the insulation are in their ranges
    and the volume is between 100 and 2000. *)
Lemma silent_in_ranges (w h l ins : float) :
  validate_inputs w h l ins = [] ->
  in_range 3 12 w /\ in_range 3 12 h /\ in_range 6 48 l /\
  in_range 1 3 ins /\ in_range 100 2000 (w ⊗ h ⊗ l).
Proof.
  rewrite validate_inputs_steps. intros H.
  apply (proj1 (appended_if_nil _ _ _)) in H as (Hlarge & H).
  apply (proj1 (appended_if_nil _ _ _)) in H as (Hsmall & H).
  apply (proj1 (appended_if_nil _ _ _)) in H as (Hins & H).
  apply (proj1 (appended_if_nil _ _ _)) in H as (Hl & H).
  apply (proj1 (appended_if_nil _ _ _)) in H as (Hh & H).
  apply (proj1 (appended_if_nil _ _ _)) in H as (Hw & _).
  apply negb_false_iff in Hw, Hh, Hl, Hins.
  apply range_check in Hw, Hh, Hl. apply insulation_check in Hins.
  change (in_range 3 12 w) in Hw. change (in_range 3 12 h) in Hh.
  change (in_range 6 48 l) in Hl.
  repeat (split; [assumption |]).
  apply volume_check; [| split; assumption].
  apply (checked_volume w h l Hw Hh Hl).
Qed.

Lemma in_ranges_silent (w h l ins : float) :
  in_range 3 12 w -> in_range 3 12 h -> in_range 6 48 l ->
  in_range 1 3 ins -> in_range 100 2000 (w ⊗ h ⊗ l) ->
  validate_inputs w h l ins = [].
Proof.
  intros Hw Hh Hl Hins Hvol. rewrite validate_inputs_steps.
  apply in_range_volume_check in Hvol as [Hsmall Hlarge].
  change (in_range (fst VALID_WIDTH_RANGE) (snd VALID_WIDTH_RANGE) w)
    in Hw.
  change (in_range (fst VALID_HEIGHT_RANGE) (snd VALID_HEIGHT_RANGE) h)
    in Hh.
  change (in_range (fst VALID_LENGTH_RANGE) (snd VALID_LENGTH_RANGE) l)
    in Hl.
  apply range_check in Hw, Hh, Hl. apply insulation_check in Hins.
  apply negb_false_iff in Hw, Hh, Hl, Hins.
  repeat (apply (proj2 (appended_if_nil _ _ _)); split; [assumption |]).
  reflexivity.
Qed.

(** A volume is not both below 100 and above 2000. *)
Lemma small_not_large (volume : float) :
  float_lt_int volume 100 = true -> float_gt_int volume 2000 = false.
Proof.
  pose proof units_per_one_pos as HU.
  destruct volume as [| s | | k];
    cbn [float_lt_int float_gt_int units]; try discriminate.
  - intros ->. reflexivity.
  - rewrite Z.ltb_lt, Z.ltb_ge. lia.
  - rewrite Z.ltb_lt, Z.ltb_ge. lia.
Qed.

Lemma fmul_nan (w h l : float) :
  is_nan w || is_nan h || is_nan l = true -> w ⊗ h ⊗ l = NaN.
Proof.
  destruct w as [| a | | kw]; [reflexivity | | |];
    (destruct h as [| b | | kh]; [reflexivity | | |]);
    (destruct l as [| c | | kl]; try discriminate; intros _);
    match goal with
    | |- ?x ⊗ NaN = NaN => destruct x; reflexivity
    end.
Qed.

Lemma range_warning_not_volume (m : message) (x : float) :
  m = width_warning x \/ m = height_warning x \/ m = length_warning x \/
  m = insulation_warning x ->
  ~ volume_warning m.
Proof.
  intros Hm [v Hv].
  destruct Hm as [-> | [-> | [-> | ->]]]; destruct Hv as [Hv | Hv];
    discriminate Hv.
Qed.

(** ** Binary fractions of a unit *)

Ltac small_int := solve [try split; vm_compute; congruence].

Lemma scaled_representable (n j : Z) :
  0 <= j <= 2044 -> Z.abs n <= 2 ^ 53 -> representable (n * 2 ^ j) = true.
Proof.
  intros Hj Hn. apply significand_representable; [lia | exact Hn |].
  rewrite Z.abs_mul, (Z.abs_eq (2 ^ j)) by (apply Z.pow_nonneg; lia).
  rewrite (overflow_threshold_split j) by lia.
  apply Z.mul_lt_mono_pos_r; [apply pow2_pos; lia |].
  eapply Z.le_lt_trans; [exact Hn |].
  apply pow2_lt. lia.
Qed.

Lemma units_per_one_split (j : Z) :
  0 <= j <= 1074 -> units_per_one = 2 ^ (1074 - j) * 2 ^ j.
Proof. intros Hj. unfold units_per_one. apply pow2_split. lia. Qed.

Lemma units_per_one_halves : units_per_one = 2 * 2 ^ 1073.
Proof. apply (units_per_one_split 1073). lia. Qed.

Lemma units_per_one_quarters : units_per_one = 4 * 2 ^ 1072.
Proof. apply (units_per_one_split 1072). lia. Qed.

Lemma units_per_one_eighths : units_per_one = 8 * 2 ^ 1071.
Proof. apply (units_per_one_split 1071). lia. Qed.

(** Abstract a power of two before arithmetic is decided. *)
Ltac with_fraction j tac :=
  let e := fresh "e" in
  set (e := 2 ^ j) in *; clearbody e; tac.

(** ** Literals of the calculator *)

(** A literal that is a binary fraction: [m / 10^digits = c * 2^j]
    units. *)
Lemma dec_fraction (m digits c j : Z) :
  0 <= digits -> 0 <= j <= 1074 -> 0 < c <= 2 ^ 53 ->
  m * 2 ^ (1074 - j) = c * 10 ^ digits ->
  dec m digits = Fin (c * 2 ^ j).
Proof.
  intros Hd Hj Hc Hm. unfold dec.
  pose proof (pow2_pos j ltac:(lia)) as Hp.
  assert (Hten : 0 < 10 ^ digits) by (apply Z.pow_pos_nonneg; lia).
  rewrite (units_per_one_split j Hj).
  replace (m * (2 ^ (1074 - j) * 2 ^ j))
    with (c * 2 ^ j * 10 ^ digits)
    by (rewrite Z.mul_assoc, Hm; ring).
  apply round_units_exact;
    [exact Hten | apply scaled_representable; lia |].
  with_fraction j nia.
Qed.

(** [0.5], [1.0], [0.75], [1.25] and [1.5]. *)
Lemma dec_5_1 : dec 5 1 = Fin (1 * 2 ^ 1073).
Proof. apply dec_fraction; small_int. Qed.

Lemma dec_10_1 : dec 10 1 = Fin (1 * units_per_one).
Proof. apply (dec_fraction 10 1 1 1074); small_int. Qed.

Lemma dec_75_2 : dec 75 2 = Fin (3 * 2 ^ 1072).
Proof. apply dec_fraction; small_int. Qed.

Lemma dec_125_2 : dec 125 2 = Fin (5 * 2 ^ 1072).
Proof. apply dec_fraction; small_int. Qed.

Lemma dec_15_1 : dec 15 1 = Fin (6 * 2 ^ 1072).
Proof. apply dec_fraction; small_int. Qed.

Lemma between_itself (k : Z) : between k k (Fin k).
Proof. split; [reflexivity | cbn [units]; split; apply Z.le_refl]. Qed.

(** ** The envelope of a chamber that passes validation *)

Lemma checked_ext_w (w ins : float) :
  in_range 3 12 w -> in_range 1 3 ins ->
  between (11 * 2 ^ 1073) (37 * 2 ^ 1073) (w ⊕ ins ⊗ of_int 2 ⊕ dec 5 1).
Proof.
  unfold in_range. intros w_ok ins_ok.
  pose proof units_per_one_pos as HU.
  assert (Hins2 : between (2 * units_per_one) (6 * units_per_one)
                    (ins ⊗ of_int 2)).
  { eapply fmul_between;
      [exact ins_ok | apply (of_int_between 2); small_int | lia | lia
      | apply small_int_representable; small_int
      | apply small_int_representable; small_int | nia | nia]. }
  assert (Hsum : between (5 * units_per_one) (18 * units_per_one)
                   (w ⊕ ins ⊗ of_int 2)).
  { eapply fadd_between;
      [exact w_ok | exact Hins2
      | apply small_int_representable; small_int
      | apply small_int_representable; small_int | lia | lia]. }
  rewrite dec_5_1.
  eapply fadd_between;
    [exact Hsum | apply between_itself
    | apply scaled_representable; [lia | small_int]
    | apply scaled_representable; [lia | small_int] | |];
    rewrite units_per_one_halves; with_fraction 1073 lia.
Qed.

Lemma checked_ext_l (l : float) :
  in_range 6 48 l ->
  between (7 * units_per_one) (49 * units_per_one) (l ⊕ dec 10 1).
Proof.
  unfold in_range. intros l_ok. rewrite dec_10_1.
  eapply fadd_between;
    [exact l_ok | apply between_itself
    | apply small_int_representable; small_int
    | apply small_int_representable; small_int | lia | lia].
Qed.

(** A chamber that passes validation has a finite heat demand and floor
    area. *)
Lemma checked_heat_finite (w h l ins : float) (door : Z) :
  in_range 100 2000 (w ⊗ h ⊗ l) ->
  is_finite (volume_of (chamber w h l ins door)
             ⊗ of_int BTU_PER_CUBIC_INCH) = true.
Proof.
  unfold in_range. intros Hvol.
  pose proof units_per_one_pos as HU.
  unfold volume_of. cbn [chamber input_width input_height input_length].
  assert (Hbtu : between 0 (2 ^ 20 * units_per_one)
                   (w ⊗ h ⊗ l ⊗ of_int BTU_PER_CUBIC_INCH)).
  { eapply fmul_between;
      [exact Hvol | apply (of_int_between 450); small_int | lia | lia
      | apply representable_0
      | apply small_int_representable; small_int | nia | nia]. }
  apply Hbtu.
Qed.

Lemma checked_floor_finite (w h l ins : float) (door : Z) :
  in_range 3 12 w -> in_range 6 48 l -> in_range 1 3 ins ->
  is_finite (ext_l_of (chamber w h l ins door)
             ⊗ ext_w_of (chamber w h l ins door)) = true.
Proof.
  intros Hw Hl Hins.
  pose proof units_per_one_pos as HU.
  unfold ext_l_of, ext_w_of.
  cbn [chamber input_width input_length input_insulation].
  pose proof (checked_ext_w w ins Hw Hins) as Hextw.
  pose proof (checked_ext_l l Hl) as Hextl.
  assert (Hfloor : between 0 (2 ^ 20 * units_per_one)
                     ((l ⊕ dec 10 1) ⊗ (w ⊕ ins ⊗ of_int 2 ⊕ dec 5 1))).
  { pose proof (pow2_pos 1073 ltac:(lia)).
    eapply fmul_between;
      [exact Hextl | exact Hextw | lia | lia
      | apply representable_0
      | apply small_int_representable; small_int | nia |].
    rewrite units_per_one_halves. with_fraction 1073 nia. }
  apply Hfloor.
Qed.

Lemma bind_eq_assoc {A B C : Type} (c : result A) (k1 : A -> result B)
    (k2 : B -> result C) (r : result C) :
  bind c (fun a => bind (k1 a) k2) = r -> bind (bind c k1) k2 = r.
Proof. destruct c; exact (fun H => H). Qed.

Lemma bind_eq_raise {A B : Type} (c : result A) (k : A -> result B)
    (e : exn) :
  c = Raise e -> bind c k = Raise e.
Proof. intros ->. reflexivity. Qed.

Ltac unfold_run :=
  unfold calculate_forge_specs;
  cbn [chamber input_width input_height input_length input_insulation
       input_door_config];
  unfold REFRACTORY_DENSITY_LB_PER_CF, REFRACTORY_BAG_SIZE_LB,
    BTU_PER_CUBIC_INCH, HOLE_COVERAGE_CI, MIN_BURNER_HOLES, BURNER_ROWS,
    HOLE_SPACING, COST_REFRACTORY_PER_BAG, COST_BASE_MATERIALS.

Ltac project_fields :=
  cbn [internal_w internal_h internal_l insulation door_config
       internal_volume external_w external_h external_l
       burner_holes holes_per_row burner_rows burner_length burner_width
       cfm_required cfm_recommended static_pressure
       refractory_bags refractory_weight blanket_sqft ifb_floor ifb_doors
       front_door_w front_door_h rear_door_w rear_door_h
       steel_cuts btu_required estimated_cost generated_date].

(** ** Magnitudes through sums and literals *)

Lemma fadd_within (a : Z) (x y : float) :
  within a x = true -> within a y = true -> 0 <= a -> a + 1 < 2098 ->
  within (a + 1) (x ⊕ y) = true.
Proof.
  intros Hx Hy Ha Hlt.
  pose proof (within_units a x Hx Ha) as Hux.
  pose proof (within_units a y Hy Ha) as Huy.
  rewrite (fadd_finite x y (within_finite a x Hx) (within_finite a y Hy)).
  destruct (Z.eqb_spec (units x + units y) 0) as [He | Hne].
  - pose proof (pow2_pos (a + 1) ltac:(lia)).
    destruct (signbit x && signbit y); [reflexivity |].
    cbn [within]. apply Z.leb_le. change (Z.abs 0) with 0. lia.
  - apply round_units_within; [lia | lia |].
    rewrite Z.pow_add_r by lia. change (2 ^ 1) with 2. lia.
Qed.

Lemma dec_within (j m digits : Z) :
  0 <= digits -> 0 <= j -> j + 1074 < 2098 ->
  Z.abs m <= 2 ^ j * 10 ^ digits ->
  within (j + 1074) (dec m digits) = true.
Proof.
  intros Hd Hj Hlt Hm. unfold dec.
  pose proof units_per_one_pos as HU.
  assert (Hp : 0 < 10 ^ digits) by (apply Z.pow_pos_nonneg; lia).
  apply round_units_within; [exact Hp | lia |].
  rewrite Z.abs_mul, (Z.abs_eq units_per_one), pow2_units by lia.
  replace (2 ^ j * units_per_one * 10 ^ digits)
    with (2 ^ j * 10 ^ digits * units_per_one) by ring.
  apply Z.mul_le_mono_nonneg_r; lia.
Qed.

Lemma of_int_within (j n : Z) :
  0 <= j <= 1023 -> Z.abs n <= 2 ^ j -> within (j + 1074) (of_int n) = true.
Proof. intros Hj Hn. apply (float_of_int_within j n Hj Hn). Qed.

(** ** Chambers of modest size *)

(** A chamber whose sides and insulation are finite and at most 1024
    inches in magnitude has a finite heat demand and floor area. *)
Lemma modest_chamber_finite (w h l ins : float) (door : Z) :
  within 1084 w = true -> within 1084 h = true -> within 1084 l = true ->
  within 1084 ins = true ->
  is_finite (volume_of (chamber w h l ins door)
             ⊗ of_int BTU_PER_CUBIC_INCH) = true /\
  is_finite (ext_l_of (chamber w h l ins door)
             ⊗ ext_w_of (chamber w h l ins door)) = true.
Proof.
  intros Hw Hh Hl Hins.
  unfold volume_of, ext_l_of, ext_w_of;
    cbn [chamber input_width input_height input_length input_insulation].
  split.
  - apply (within_finite 1114).
    apply (fmul_within 1104 1084);
      [| apply (of_int_within 10); small_int | lia | lia | lia | lia].
    apply (fmul_within 1094 1084); [| exact Hl | lia | lia | lia | lia].
    apply (fmul_within 1084 1084);
      [exact Hw | exact Hh | lia | lia | lia | lia].
  - apply (within_finite 1100).
    apply (fmul_within 1085 1087); [| | lia | lia | lia | lia].
    + apply (fadd_within 1084); [exact Hl | | lia | lia].
      apply (dec_within 10); [lia | lia | lia | small_int].
    + apply (fadd_within 1086); [| | lia | lia].
      * apply (fadd_within 1085); [| | lia | lia].
        -- apply (within_weaken 1084); [exact Hw | lia].
        -- apply (fmul_within 1084 1075);
             [exact Hins | apply (of_int_within 1); small_int
             | lia | lia | lia | lia].
      * apply (dec_within 12); [lia | lia | lia | small_int].
Qed.

(** A chamber of small whole numbers of inches. *)
Lemma whole_chamber_returns (now : string) (w h l ins door : Z) :
  Z.abs w <= 2 ^ 10 -> Z.abs h <= 2 ^ 10 -> Z.abs l <= 2 ^ 10 ->
  Z.abs ins <= 2 ^ 10 ->
  returns (calculate_forge_specs now
             (chamber (of_int w) (of_int h) (of_int l) (of_int ins) door)).
Proof.
  intros Hw Hh Hl Hins.
  destruct (modest_chamber_finite (of_int w) (of_int h) (of_int l)
              (of_int ins) door) as [Hbtu Hfloor];
    try (apply (of_int_within 10); [lia | assumption]).
  apply calculate_forge_specs_returns; assumption.
Qed.

(** ** Dropped bits *)

Lemma dropped_bits_le (a j : Z) :
  0 <= j -> a < 2 ^ (j + 53) -> dropped_bits a <= j.
Proof.
  intros Hj Ha. unfold dropped_bits.
  destruct (Z_lt_le_dec 0 a) as [Hpos | Hneg].
  - apply Z.log2_lt_pow2 in Ha; lia.
  - rewrite Z.log2_nonpos by lia. lia.
Qed.

(** ** Holes per row *)

(** A third of a hole count below [2^50], rounded to the nearest float and
    then to the nearest integer, is within a third of a hole of it. *)
Lemma row_share_close (total h : Z) (x : float) :
  0 <= total <= 2 ^ 50 ->
  int_truediv total 3 = Ok x -> round x = Ok h ->
  -1 <= 3 * h - total <= 1.
Proof.
  intros Ht Hdiv Hround.
  unfold int_truediv in Hdiv. change (3 =? 0) with false in Hdiv.
  cbv iota in Hdiv.
  change (Z.sgn 3) with 1 in Hdiv. change (Z.abs 3) with 3 in Hdiv.
  rewrite Z.mul_1_r in Hdiv.
  pose proof units_per_one_pos as HU.
  set (n := total * units_per_one) in *.
  set (s := dropped_bits (Z.abs n / 3)).
  assert (Hs : 0 <= s <= 1071).
  { split; [apply dropped_bits_nonneg |].
    apply dropped_bits_le; [lia |].
    apply Z.div_lt_upper_bound; [lia |].
    unfold n. rewrite Z.abs_mul, (Z.abs_eq total), (Z.abs_eq units_per_one)
      by lia.
    change (1071 + 53) with (50 + 1074). rewrite pow2_units by lia.
    assert (total * units_per_one <= 2 ^ 50 * units_per_one)
      by (apply Z.mul_le_mono_nonneg_r; lia).
    assert (0 < 2 ^ 50 * units_per_one) by (apply Z.mul_pos_pos; lia).
    lia. }
  assert (Hps : 0 < 2 ^ s <= 2 ^ 1071)
    by (split; [apply pow2_pos | apply pow2_le]; lia).
  pose proof (rne_div_close n (3 * 2 ^ s) ltac:(lia)) as Hclose.
  assert (Hk : nearest53 n 3 = rne_div n (3 * 2 ^ s) * 2 ^ s)
    by reflexivity.
  pose proof (round_units_inv (xorb (total <? 0) (3 <? 0)) n 3) as Hinv.
  set (e := 2 ^ 1071) in *.
  assert (HUe : units_per_one = 8 * e) by apply units_per_one_eighths.
  destruct (round_units _ n 3) as [| sg | | k];
    try discriminate; try contradiction;
    apply Ok_inj in Hdiv; subst x; cbn [round] in Hround;
    apply Ok_inj in Hround; subst h.
  - rewrite Hk in Hinv. unfold n in *.
    set (r := rne_div _ _) in *. clearbody r e s. nia.
  - destruct Hinv as [Hkn _]. rewrite Hk in Hkn.
    pose proof (rne_div_close k units_per_one HU) as Hh.
    set (h := rne_div k units_per_one) in *. unfold n in *.
    set (r := rne_div _ (3 * 2 ^ s)) in *.
    clearbody r h e s. subst k. rewrite HUe in *. clear HUe HU.
    set (p := 2 ^ s) in *. clearbody p.
    assert (2 * Z.abs (3 * (h * (8 * e)) - total * (8 * e)) < 32 * e) by lia.
    nia.
Qed.

(** ** The burner of a run *)

(** The steps that size the burner, as a run took them. *)
Lemma burner_steps (now : string) (u : UserInput) (s : ForgeSpecs) :
  calculate_forge_specs now u = Ok s ->
  exists rounded share,
    round (volume_of u ⊘ of_int 18) = Ok rounded /\
    int_truediv (Z.max 12 rounded) 3 = Ok share /\
    round share = Ok (holes_per_row s) /\
    burner_holes s = holes_per_row s * 3.
Proof.
  intros H. invert_specs H. unfold volume_of.
  match goal with
  | E1 : round (_ ⊘ of_int 18) = Ok ?n,
    E2 : int_truediv (Z.max 12 ?n) 3 = Ok ?x,
    E3 : round ?x = Ok _ |- _ =>
      exists n, x; exact (conj E1 (conj E2 (conj E3 eq_refl)))
  end.
Qed.

(** The first hole count of a chamber between 100 and 2000 cubic
    inches. *)
Lemma validated_target (volume : float) (rounded : Z) :
  in_range 100 2000 volume ->
  round (volume ⊘ of_int 18) = Ok rounded -> 5 <= rounded <= 111.
Proof.
  unfold in_range. intros Hvol Hr.
  pose proof (pow2_pos 1071 ltac:(lia)) as He.
  assert (Hraw : between (40 * 2 ^ 1071) (889 * 2 ^ 1071)
                   (volume ⊘ of_int 18)).
  { eapply fdiv_int_between;
      [exact Hvol | small_int
      | apply scaled_representable; [lia | small_int]
      | apply scaled_representable; [lia | small_int] | |];
      rewrite units_per_one_eighths;
      set (e := 2 ^ 1071) in *; clearbody e; lia. }
  apply (round_between _ _ 5 111 rounded _ Hraw Hr).
  - rewrite units_per_one_eighths.
    set (e := 2 ^ 1071) in *; clearbody e; lia.
  - rewrite units_per_one_eighths.
    set (e := 2 ^ 1071) in *; clearbody e; lia.
  - right. intros Hz. rewrite Hz in Hraw. destruct Hraw as [_ Hu].
    cbn [units] in Hu. set (e := 2 ^ 1071) in *; clearbody e; lia.
Qed.

Lemma validated_burner (now : string) (w h l ins : float) (door : Z)
    (s : ForgeSpecs) :
  validate_inputs w h l ins = [] ->
  calculate_forge_specs now (chamber w h l ins door) = Ok s ->
  12 <= burner_holes s <= 111 /\ 4 <= holes_per_row s <= 37.
Proof.
  intros Hv H. apply silent_in_ranges in Hv as (_ & _ & _ & _ & Hvol).
  destruct (burner_steps _ _ _ H) as (n & x & E1 & E2 & E3 & Hholes).
  unfold volume_of in E1.
  cbn [chamber input_width input_height input_length] in E1.
  pose proof (validated_target _ _ Hvol E1) as Hn.
  pose proof (row_share_close (Z.max 12 n) (holes_per_row s) x
                ltac:(lia) E2 E3).
  lia.
Qed.

(** ** Differences *)

Lemma fneg_between (a b : Z) (x : float) :
  between a b x -> between (- b) (- a) (fneg x).
Proof.
  intros [Hf Hu]. destruct x as [| s | | k]; try discriminate;
    cbn [fneg units] in *.
  - split; [reflexivity | cbn [units]; lia].
  - destruct (Z.eqb_spec k 0);
      (split; [reflexivity | cbn [units]; lia]).
Qed.

Lemma fsub_int_between (a b n lo hi : Z) (x : float) :
  between a b x -> Z.abs n <= 2 ^ 53 ->
  representable lo = true -> representable hi = true ->
  lo <= a - n * units_per_one -> b - n * units_per_one <= hi ->
  between lo hi (x ⊖ of_int n).
Proof.
  intros Hx Hn Hlo Hhi Hl Hh. unfold fsub.
  eapply fadd_between;
    [exact Hx | exact (fneg_between _ _ _ (of_int_between n Hn))
    | exact Hlo | exact Hhi | lia | lia].
Qed.

Lemma between_gt_0 (lo hi : Z) (x : float) :
  between lo hi x -> 0 < lo -> float_gt_int x 0 = true.
Proof.
  intros Hx Hlo. destruct (between_positive lo hi x Hx Hlo) as (k & -> & Hk).
  cbn [float_gt_int units]. apply Z.ltb_lt. lia.
Qed.

(** ** The frame of a run *)

Lemma run_angle_iron (now : string) (u : UserInput) (s : ForgeSpecs) :
  calculate_forge_specs now u = Ok s ->
  angle_iron (steel_cuts s) =
    [ {| angle_name := "Corner Posts"; angle_qty := 4;
         angle_length := ext_h_of u; angle_size := angle_stock |};
      {| angle_name := "Top/Bottom Rails"; angle_qty := 8;
         angle_length := ext_l_of u ⊖ of_int 4;
         angle_size := angle_stock |};
      {| angle_name := "End Rails"; angle_qty := 8;
         angle_length := ext_w_of u ⊖ of_int 4;
         angle_size := angle_stock |} ].
Proof.
  intros H. invert_specs H. unfold ext_w_of, ext_h_of, ext_l_of.
  match goal with
  | E : calculate_steel_cuts ?a ?b ?c ?d ?e = Ok ?cuts |- _ =>
      destruct (calculate_steel_cuts_ok a b c d e) as (cuts' & E' & Hangle);
      assert (cuts = cuts')
        by (apply Ok_inj; rewrite <- E, <- E'; exact eq_refl);
      subst cuts'
  end.
  assumption.
Qed.

(** In a chamber that passes validation every piece of angle iron has a
    positive length. *)
Lemma validated_frame (now : string) (w h l ins : float) (door : Z)
    (s : ForgeSpecs) :
  validate_inputs w h l ins = [] ->
  calculate_forge_specs now (chamber w h l ins door) = Ok s ->
  forall a, In a (angle_iron (steel_cuts s)) ->
            float_gt_int (angle_length a) 0 = true.
Proof.
  intros Hv H. apply silent_in_ranges in Hv
    as (Hw & Hh & Hl & Hins & _).
  rewrite (run_angle_iron _ _ _ H).
  unfold ext_w_of, ext_h_of, ext_l_of.
  cbn [chamber input_width input_height input_length input_insulation].
  pose proof (checked_ext_w w ins Hw Hins) as Hextw.
  pose proof (checked_ext_w h ins Hh Hins) as Hexth.
  pose proof (checked_ext_l l Hl) as Hextl.
  pose proof (pow2_pos 1073 ltac:(lia)) as Hhalf.
  pose proof units_per_one_pos as HU.
  intros a [<- | [<- | [<- | []]]]; cbn [angle_length].
  - apply (between_gt_0 _ _ _ Hexth). lia.
  - apply (between_gt_0 (3 * units_per_one) (45 * units_per_one));
      [| lia].
    eapply fsub_int_between;
      [exact Hextl | small_int
      | apply small_int_representable; small_int
      | apply small_int_representable; small_int | lia | lia].
  - apply (between_gt_0 (3 * 2 ^ 1073) (29 * 2 ^ 1073)); [| lia].
    eapply fsub_int_between;
      [exact Hextw | small_int
      | apply scaled_representable; [lia | small_int]
      | apply scaled_representable; [lia | small_int] | |];
      rewrite units_per_one_halves;
      set (e := 2 ^ 1073) in *; clearbody e; lia.
Qed.

(** ** Not-a-number inputs *)

Lemma fadd_nan_r (x : float) : x ⊕ NaN = NaN.
Proof. destruct x; reflexivity. Qed.

Lemma fmul_nan_r (x : float) : x ⊗ NaN = NaN.
Proof. destruct x; reflexivity. Qed.

(** A side that is not a number makes the calculator raise ValueError, at
    the first [round]. *)
Lemma nan_side_raises (now : string) (w h l ins : float) (door : Z) :
  is_nan w || is_nan h || is_nan l = true ->
  calculate_forge_specs now (chamber w h l ins door) = Raise ValueError.
Proof.
  intros Hnan. unfold_run. rewrite (fmul_nan w h l Hnan).
  do 3 rerun.
  apply bind_eq_raise. reflexivity.
Qed.

(** An insulation thickness that is not a number leaves no finite floor
    area, and the calculator does not return. *)
Lemma nan_insulation_fails (now : string) (w h l : float) (door : Z) :
  ~ returns (calculate_forge_specs now (chamber w h l NaN door)).
Proof.
  intros [s Hs].
  destruct (calculate_forge_specs_finite _ _ _ Hs) as [_ Hfloor].
  unfold ext_l_of, ext_w_of in Hfloor.
  cbn [chamber input_width input_length input_insulation] in Hfloor.
  change (NaN ⊗ of_int 2) with NaN in Hfloor.
  rewrite (fadd_nan_r w) in Hfloor.
  change (NaN ⊕ dec 5 1) with NaN in Hfloor.
  rewrite (fmul_nan_r (l ⊕ dec 10 1)) in Hfloor. discriminate.
Qed.

(** ** The warnings of [validate_inputs] *)

Lemma validate_inputs_length (w h l ins : float) :
  (List.length (validate_inputs w h l ins) <= 5)%nat.
Proof.
  rewrite validate_inputs_steps.
  rewrite (appended_if_length (float_gt_int (w ⊗ h ⊗ l) 2000)).
  rewrite (appended_if_length (float_lt_int (w ⊗ h ⊗ l) 100)).
  rewrite !appended_if_length. cbn [List.length].
  destruct (float_lt_int (w ⊗ h ⊗ l) 100) eqn:Esmall.
  - rewrite (small_not_large _ Esmall).
    repeat match goal with
           | |- context [if ?c then 1%nat else 0%nat] => destruct c
           end; lia.
  - repeat match goal with
           | |- context [if ?c then 1%nat else 0%nat] => destruct c
           end; lia.
Qed.

Lemma in_validate_inputs (w h l ins : float) (m : message) :
  In m (validate_inputs w h l ins) ->
  (m = width_warning w \/ m = height_warning h \/ m = length_warning l \/
   m = insulation_warning ins) \/
  float_lt_int (w ⊗ h ⊗ l) 100 = true /\ m = small_warning (w ⊗ h ⊗ l) \/
  float_gt_int (w ⊗ h ⊗ l) 2000 = true /\ m = large_warning (w ⊗ h ⊗ l).
Proof.
  rewrite validate_inputs_steps. intros Hin.
  apply (proj1 (appended_if_in _ _ _ _)) in Hin as [Hin | Hlarge];
    [| right; right; exact Hlarge].
  apply (proj1 (appended_if_in _ _ _ _)) in Hin as [Hin | Hsmall];
    [| right; left; exact Hsmall].
  left.
  apply (proj1 (appended_if_in _ _ _ _)) in Hin as [Hin | [_ Hm]];
    [| right; right; right; exact Hm].
  apply (proj1 (appended_if_in _ _ _ _)) in Hin as [Hin | [_ Hm]];
    [| right; right; left; exact Hm].
  apply (proj1 (appended_if_in _ _ _ _)) in Hin as [Hin | [_ Hm]];
    [| right; left; exact Hm].
  apply (proj1 (appended_if_in _ _ _ _)) in Hin as [[] | [_ Hm]].
  left; exact Hm.
Qed.

(** A side that is not a number fails its range check. *)
Lemma nan_out_of_range (lo hi : Z) (x : float) :
  is_nan x = true -> negb (int_le_float lo x && float_le_int x hi) = true.
Proof. destruct x; try discriminate. reflexivity. Qed.

Lemma nan_side_warnings (w h l ins : float) :
  (is_nan w = true -> In (width_warning w) (validate_inputs w h l ins)) /\
  (is_nan h = true -> In (height_warning h) (validate_inputs w h l ins)) /\
  (is_nan l = true -> In (length_warning l) (validate_inputs w h l ins)).
Proof.
  rewrite validate_inputs_steps. repeat split; intros Hnan.
  - do 5 (apply (proj2 (appended_if_in _ _ _ _)); left).
    apply (proj2 (appended_if_in _ _ _ _)). right.
    split; [apply nan_out_of_range, Hnan | reflexivity].
  - do 4 (apply (proj2 (appended_if_in _ _ _ _)); left).
    apply (proj2 (appended_if_in _ _ _ _)). right.
    split; [apply nan_out_of_range, Hnan | reflexivity].
  - do 3 (apply (proj2 (appended_if_in _ _ _ _)); left).
    apply (proj2 (appended_if_in _ _ _ _)). right.
    split; [apply nan_out_of_range, Hnan | reflexivity].
Qed.

Lemma nan_volume_unflagged (w h l ins : float) (m : message) :
  is_nan w || is_nan h || is_nan l = true ->
  In m (validate_inputs w h l ins) -> ~ volume_warning m.
Proof.
  intros Hnan Hin. apply in_validate_inputs in Hin.
  rewrite (fmul_nan w h l Hnan) in Hin.
  destruct Hin as [Hrange | [[Hc _] | [Hc _]]]; try discriminate Hc.
  intros [v Hv].
  destruct Hrange as [-> | [-> | [-> | ->]]]; destruct Hv as [Hv | Hv];
    discriminate Hv.
Qed.

(** ** The plates of a run *)

Lemma calculate_steel_cuts_plates (ext_w ext_h ext_l door_w door_h : float) :
  exists cuts,
    calculate_steel_cuts ext_w ext_h ext_l door_w door_h = Ok cuts /\
    plates cuts =
      [ {| plate_name := "Side Panels"; plate_qty := 2;
           plate_w := ext_l; plate_h := ext_h;
           plate_thickness := quarter_inch; plate_note := None |};
        {| plate_name := "Top Panel"; plate_qty := 1;
           plate_w := ext_l; plate_h := ext_w;
           plate_thickness := quarter_inch; plate_note := None |};
        {| plate_name := "Bottom Panel"; plate_qty := 1;
           plate_w := ext_l; plate_h := ext_w;
           plate_thickness := quarter_inch; plate_note := None |};
        {| plate_name := "Front End Panel"; plate_qty := 1;
           plate_w := ext_w; plate_h := ext_h;
           plate_thickness := quarter_inch;
           plate_note :=
             Some [ Text "Cut "; Value door_w;
                    Text (inch_mark ++ "x"); Value door_h;
                    Text (inch_mark ++ " door opening") ] |};
        {| plate_name := "Rear End Panel"; plate_qty := 1;
           plate_w := ext_w; plate_h := ext_h;
           plate_thickness := quarter_inch; plate_note := None |} ].
Proof.
  unfold calculate_steel_cuts. convert_literals.
  eexists. split; reflexivity.
Qed.

Lemma run_plates (now : string) (u : UserInput) (s : ForgeSpecs) :
  calculate_forge_specs now u = Ok s ->
  exists cuts,
    calculate_steel_cuts (ext_w_of u) (ext_h_of u) (ext_l_of u)
      (front_door_w s) (front_door_h s) = Ok cuts /\
    steel_cuts s = cuts /\
    round_ndigits (input_width u ⊗ dec 85 2) 1 = Ok (front_door_w s) /\
    round_ndigits (input_height u ⊗ dec 85 2) 1 = Ok (front_door_h s).
Proof.
  intros H. invert_specs H. unfold ext_w_of, ext_h_of, ext_l_of.
  eexists. split; [eassumption |]. split; [reflexivity |].
  split; assumption.
Qed.

(** ** The other keys of a run *)

Lemma run_echo (now : string) (u : UserInput) (s : ForgeSpecs) :
  calculate_forge_specs now u = Ok s ->
  internal_w s = input_width u /\
  internal_h s = input_height u /\
  internal_l s = input_length u /\
  insulation s = input_insulation u /\
  door_config s = input_door_config u /\
  generated_date s = now.
Proof. intros H. invert_specs H. repeat split. Qed.

Lemma run_burner_geometry (now : string) (u : UserInput) (s : ForgeSpecs) :
  calculate_forge_specs now u = Ok s ->
  burner_rows s = 3 /\
  burner_width s = dec 30 1 /\
  (span <- int_mul_float (holes_per_row s) (dec 75 2) ;;
   round_ndigits (span ⊕ dec 15 1) 1) = Ok (burner_length s).
Proof.
  intros H. invert_specs H.
  split; [reflexivity |]. split; [reflexivity |].
  replay. assumption.
Qed.

Lemma run_performance (now : string) (u : UserInput) (s : ForgeSpecs) :
  calculate_forge_specs now u = Ok s ->
  round (volume_of u ⊗ of_int 450) = Ok (btu_required s) /\
  round_ndigits (of_int 250 ⊕ refractory_bags s ⊗ of_int 110) 2
  = Ok (estimated_cost s).
Proof. intros H. invert_specs H. unfold volume_of. split; assumption. Qed.

Lemma run_lining (now : string) (u : UserInput) (s : ForgeSpecs) :
  calculate_forge_specs now u = Ok s ->
  round_ndigits
    ((ext_l_of u ⊗ ext_h_of u ⊗ of_int 2
      ⊕ ext_l_of u ⊗ ext_w_of u
      ⊕ ext_w_of u ⊗ ext_h_of u ⊗ of_int 2) ⊘ of_int 144) 1
  = Ok (blanket_sqft s) /\
  (exists bricks,
     round (ext_l_of u ⊗ ext_w_of u ⊘ of_int 72) = Ok bricks /\
     ifb_floor s = Z.max 2 bricks) /\
  2 <= ifb_floor s /\
  ifb_doors s = (if input_door_config u =? 1 then 4 else 6).
Proof.
  intros H. invert_specs H. unfold ext_w_of, ext_h_of, ext_l_of.
  split; [assumption |]. split; [| split; [lia | reflexivity]].
  eexists. split; [eassumption | reflexivity].
Qed.

(** ** Required and recommended airflow *)

Lemma margin_between (n : Z) (margin : float) :
  0 <= n <= 2 ^ 52 ->
  int_mul_float n (dec 125 2) = Ok margin ->
  between (n * units_per_one) (2 * n * units_per_one) margin.
Proof.
  intros Hn Hm. unfold int_mul_float in Hm.
  rewrite float_of_int_small in Hm
    by (assert (2 ^ 52 <= 2 ^ 53) by (apply pow2_le; lia); lia).
  cbn [bind] in Hm. apply Ok_inj in Hm. subst margin.
  rewrite dec_125_2.
  pose proof units_per_one_pos as HU.
  pose proof (pow2_pos 1072 ltac:(lia)) as Hp.
  assert (H52 : 2 ^ 52 * 2 = 2 ^ 53) by reflexivity.
  eapply fmul_between;
    [apply (of_int_between n); lia
    | split; [reflexivity | cbn [units]; split; apply Z.le_refl]
    | nia | lia
    | apply small_int_representable; lia
    | apply small_int_representable; lia | |];
    rewrite units_per_one_quarters;
    set (e := 2 ^ 1072) in *; clearbody e; nia.
Qed.

(** ** Rounding to one decimal *)

(** [round(x, 1)] of a positive value between two bounds. *)
Lemma round_ndigits_1_between (lo hi m1 m2 lo' hi' : Z) (x y : float) :
  between lo hi x -> 0 < lo -> round_ndigits x 1 = Ok y ->
  (2 * m1 - 1) * units_per_one < 20 * lo ->
  20 * hi < (2 * m2 + 1) * units_per_one ->
  representable lo' = true -> representable hi' = true ->
  lo' * 10 <= m1 * units_per_one -> m2 * units_per_one <= hi' * 10 ->
  between lo' hi' y.
Proof.
  intros Hx Hlo Hr H1 H2 Hlo' Hhi' Hl Hh.
  pose proof units_per_one_pos as HU.
  destruct (between_positive lo hi x Hx Hlo) as (k & -> & Hk).
  unfold round_ndigits in Hr.
  change (323 <? 1) with false in Hr. change (1 <? -308) with false in Hr.
  change (0 <=? 1) with true in Hr. cbv iota in Hr.
  change (10 ^ 1) with 10 in Hr.
  set (m := rne_div (k * 10) units_per_one) in *.
  assert (Hm : m1 <= m <= m2).
  { split.
    - apply rne_div_above_half; [exact HU | lia].
    - apply rne_div_below_half; [exact HU | lia]. }
  assert (Hb : between lo' hi' (round_units (k <? 0) (m * units_per_one) 10)).
  { apply round_units_between; [lia | exact Hlo' | exact Hhi' |].
    clearbody m. nia. }
  destruct (round_units (k <? 0) (m * units_per_one) 10) as [| sg | | r];
    try discriminate; apply Ok_inj in Hr; subst y; exact Hb.
Qed.

(** The burner of 4 to 37 holes per row is between 4 and 30 inches
    long. *)
Lemma burner_length_between (hpr : Z) (span len : float) :
  4 <= hpr <= 37 ->
  int_mul_float hpr (dec 75 2) = Ok span ->
  round_ndigits (span ⊕ dec 15 1) 1 = Ok len ->
  in_range 4 30 len.
Proof.
  intros Hh Hs Hl. unfold in_range.
  unfold int_mul_float in Hs.
  rewrite float_of_int_small in Hs
    by (assert (2 ^ 6 <= 2 ^ 53) by (apply pow2_le; lia);
        change (2 ^ 6) with 64 in *; lia).
  cbn [bind] in Hs. apply Ok_inj in Hs. subst span.
  rewrite dec_75_2, dec_15_1 in Hl.
  pose proof (pow2_pos 1072 ltac:(lia)) as Hp.
  assert (H53 : 64 <= 2 ^ 53)
    by (change 64 with (2 ^ 6); apply pow2_le; lia).
  assert (Hof : between (16 * 2 ^ 1072) (148 * 2 ^ 1072) (of_int hpr)).
  { apply (between_weaken (hpr * units_per_one) (hpr * units_per_one));
      [apply of_int_between; lia | |];
      rewrite units_per_one_quarters;
      set (e := 2 ^ 1072) in *; clearbody e; nia. }
  assert (Hspan : between (12 * 2 ^ 1072) (111 * 2 ^ 1072)
                    (of_int hpr ⊗ Fin (3 * 2 ^ 1072))).
  { eapply fmul_between;
      [exact Hof
      | split; [reflexivity | cbn [units]; split; apply Z.le_refl]
      | lia | lia
      | apply scaled_representable; [lia | small_int]
      | apply scaled_representable; [lia | small_int] | |];
      rewrite units_per_one_quarters;
      set (e := 2 ^ 1072) in *; clearbody e; nia. }
  assert (Hsum : between (18 * 2 ^ 1072) (117 * 2 ^ 1072)
                   (of_int hpr ⊗ Fin (3 * 2 ^ 1072) ⊕ Fin (6 * 2 ^ 1072))).
  { eapply fadd_between;
      [exact Hspan
      | split; [reflexivity | cbn [units]; split; apply Z.le_refl]
      | apply scaled_representable; [lia | small_int]
      | apply scaled_representable; [lia | small_int] | |];
      set (e := 2 ^ 1072) in *; clearbody e; lia. }
  apply (round_ndigits_1_between _ _ 45 293 _ _ _ _ Hsum);
    [| exact Hl | | | | | |].
  - set (e := 2 ^ 1072) in *; clearbody e; lia.
  - rewrite units_per_one_quarters.
    set (e := 2 ^ 1072) in *; clearbody e; lia.
  - rewrite units_per_one_quarters.
    set (e := 2 ^ 1072) in *; clearbody e; lia.
  - apply small_int_representable; small_int.
  - apply small_int_representable; small_int.
  - pose proof units_per_one_pos. lia.
  - pose proof units_per_one_pos. lia.
Qed.

(** In a chamber that passes validation the envelope and the burner have
    positive sizes. *)
Lemma validated_sizes (now : string) (w h l ins : float) (door : Z)
    (s : ForgeSpecs) :
  validate_inputs w h l ins = [] ->
  calculate_forge_specs now (chamber w h l ins door) = Ok s ->
  in_range 5 19 (external_w s) /\
  in_range 5 19 (external_h s) /\
  in_range 7 49 (external_l s) /\
  in_range 4 30 (burner_length s).
Proof.
  intros Hv H.
  destruct (validated_burner _ _ _ _ _ _ _ Hv H) as (_ & Hrow).
  apply silent_in_ranges in Hv as (Hw & Hh & Hl & Hins & _).
  destruct (calculate_forge_specs_dimensions _ _ _ H)
    as (_ & Hextw & Hexth & Hextl).
  destruct (run_burner_geometry _ _ _ H) as (_ & _ & Hlen).
  rewrite Hextw, Hexth, Hextl. unfold ext_w_of, ext_h_of, ext_l_of.
  cbn [chamber input_width input_height input_length input_insulation].
  pose proof (checked_ext_w w ins Hw Hins) as Hbw.
  pose proof (checked_ext_w h ins Hh Hins) as Hbh.
  pose proof (checked_ext_l l Hl) as Hbl.
  pose proof (pow2_pos 1073 ltac:(lia)) as Hp.
  pose proof units_per_one_pos as HU.
  unfold in_range.
  split; [| split; [| split]].
  - apply (between_weaken _ _ _ _ _ Hbw);
      rewrite units_per_one_halves;
      set (e := 2 ^ 1073) in *; clearbody e; lia.
  - apply (between_weaken _ _ _ _ _ Hbh);
      rewrite units_per_one_halves;
      set (e := 2 ^ 1073) in *; clearbody e; lia.
  - exact Hbl.
  - apply bind_ok in Hlen as (span & Hspan & Hlen).
    exact (burner_length_between _ _ _ Hrow Hspan Hlen).
Qed.

(** ** Where the minimum hole count stops applying *)

Lemma fdiv_int_finite (x : float) (n : Z) :
  is_finite x = true -> 0 < n <= 2 ^ 53 ->
  x ⊘ of_int n
  = round_units (xorb (signbit x) (n * units_per_one <? 0))
                (units x * units_per_one) (n * units_per_one).
Proof.
  intros Hf Hn. pose proof units_per_one_pos as HU.
  rewrite of_int_small by lia.
  rewrite (fdiv_finite x (Fin (n * units_per_one)) Hf eq_refl)
    by (cbn [units]; nia).
  cbn [units signbit].
  assert (Hpos : 0 < n * units_per_one) by nia.
  rewrite (Z.abs_eq (n * units_per_one)), Z.sgn_pos, Z.mul_1_r by lia.
  reflexivity.
Qed.

(** A result of [round_units] that [round] accepts. *)
Lemma round_round_units (nz : bool) (n d r : Z) :
  0 < d -> round (round_units nz n d) = Ok r ->
  r = rne_div (nearest53 n d) units_per_one.
Proof.
  intros Hd Hr. pose proof units_per_one_pos as HU.
  pose proof (round_units_inv nz n d) as Hinv.
  destruct (round_units nz n d) as [| sg | | k]; try discriminate;
    cbn [round] in Hr; apply Ok_inj in Hr; subst r.
  - rewrite Hinv. symmetry. apply (rne_div_exact 0). exact HU.
  - destruct Hinv as [-> _]. reflexivity.
Qed.

(** From 243 cubic inches on, the first hole count is at least 14. *)
Lemma target_from_243 (volume : float) (n : Z) :
  float_lt_int volume 243 = false ->
  round (volume ⊘ of_int 18) = Ok n -> 14 <= n.
Proof.
  intros Hge Hr. pose proof units_per_one_pos as HU.
  destruct volume as [| sg | | v].
  - discriminate Hr.
  - rewrite of_int_small in Hr by small_int. discriminate Hr.
  - cbn [float_lt_int units] in Hge. apply Z.ltb_ge in Hge. lia.
  - cbn [float_lt_int units] in Hge. apply Z.ltb_ge in Hge.
    rewrite (fdiv_int_finite (Fin v) 18 eq_refl) in Hr by small_int.
    cbn [units] in Hr.
    apply round_round_units in Hr; [| lia]. subst n.
    assert (Hk : 27 * 2 ^ 1073
                 <= nearest53 (v * units_per_one) (18 * units_per_one)).
    { apply nearest53_ge_representable;
        [lia | apply scaled_representable; [lia | small_int] |].
      rewrite (units_per_one_split 1073) in * by lia.
      change (2 ^ (1074 - 1073)) with 2 in *.
      set (e := 2 ^ 1073) in *. clearbody e. nia. }
    apply rne_div_at_half; [exact HU | reflexivity |].
    rewrite (units_per_one_split 1073) in * by lia.
    change (2 ^ (1074 - 1073)) with 2 in *.
    set (e := 2 ^ 1073) in *.
    set (k := nearest53 _ _) in *. clearbody k e. lia.
Qed.

(** Below 243 cubic inches the first hole count is at most 13: the
    quotient of the largest float below 243 by 18 still rounds below
    13.5. *)
Lemma target_below_243 (volume : float) (n : Z) :
  is_binary64 volume = true ->
  float_lt_int volume 243 = true ->
  round (volume ⊘ of_int 18) = Ok n -> n <= 13.
Proof.
  intros Hb Hlt Hr. pose proof units_per_one_pos as HU.
  destruct volume as [| sg | | v].
  - discriminate Hr.
  - rewrite of_int_small in Hr by small_int. discriminate Hr.
  - rewrite (fdiv_int_finite NegZero 18 eq_refl) in Hr by small_int.
    cbn [units] in Hr. apply round_round_units in Hr; [| lia]. subst n.
    apply rne_div_below_half; [exact HU |].
    assert (Hk : nearest53 (0 * units_per_one) (18 * units_per_one) <= 0)
      by (apply nearest53_nonpos; lia).
    set (k := nearest53 _ _) in *. clearbody k. lia.
  - cbn [float_lt_int units] in Hlt. apply Z.ltb_lt in Hlt.
    cbn [is_binary64] in Hb.
    rewrite (fdiv_int_finite (Fin v) 18 eq_refl) in Hr by small_int.
    cbn [units] in Hr.
    apply round_round_units in Hr; [| lia]. subst n.
    apply rne_div_below_half; [exact HU |].
    pose proof (pow2_pos 1025 ltac:(lia)) as He.
    assert (HUe : units_per_one = 2 ^ 49 * 2 ^ 1025)
      by (apply (units_per_one_split 1025); lia).
    destruct (Z_le_gt_dec v (240 * units_per_one)) as [Hlow | Hhigh].
    + assert (Hk : nearest53 (v * units_per_one) (18 * units_per_one)
                   <= 107 * 2 ^ 46 * 2 ^ 1025).
      { apply nearest53_le_representable;
          [lia | apply scaled_representable; [lia | small_int] |].
        rewrite HUe in *. set (e := 2 ^ 1025) in *. clearbody e. nia. }
      rewrite HUe in *. set (e := 2 ^ 1025) in *.
      set (k := nearest53 _ _) in *. clearbody k e. lia.
    + (* the floats between 240 and 243 are multiples of 2^1029 *)
      assert (Hmult : exists c, v = c * 2 ^ 1029).
      { apply representable_multiple; [lia | exact Hb |].
        change (1029 + 52) with (7 + 1074). rewrite pow2_units by lia.
        change (2 ^ 7) with 128. lia. }
      destruct Hmult as [c Hc].
      assert (H1029 : 2 ^ 1029 = 16 * 2 ^ 1025)
        by (rewrite (pow2_split 1029 1025) by lia; reflexivity).
      unfold nearest53.
      assert (Hs : dropped_bits (Z.abs (v * units_per_one)
                                 / (18 * units_per_one)) = 1025).
      { rewrite Z.abs_eq by nia.
        rewrite Z.div_mul_cancel_r by lia.
        unfold dropped_bits.
        assert (Hlog : Z.log2 (v / 18) = 1077).
        { apply Z.log2_unique; [lia |].
          change (1077 + 1) with (4 + 1074).
          change 1077 with (3 + 1074).
          rewrite !pow2_units by lia.
          change (2 ^ 3) with 8. change (2 ^ 4) with 16.
          split.
          - apply Z.div_le_lower_bound; lia.
          - apply Z.div_lt_upper_bound; lia. }
        rewrite Hlog. reflexivity. }
      rewrite Hs.
      assert (Hr : rne_div (v * units_per_one)
                     (18 * units_per_one * 2 ^ 1025) <= 27 * 2 ^ 48 - 1).
      { apply rne_div_below_half; [nia |].
        rewrite HUe, H1029 in *. set (e := 2 ^ 1025) in *.
        clearbody e. nia. }
      rewrite HUe in *. set (e := 2 ^ 1025) in *.
      set (r := rne_div _ _) in *. clearbody r e. nia.
Qed.

(* ===================================================================== *)
(** * Part VIII: further properties                                      *)
(* ===================================================================== *)

(** ** Input validation *)

(** X1: [validate_inputs] returns no warning exactly when width and
    height are finite and between 3 and 12, the length between 6 and 48,
    the insulation between 1.0 and 3.0, and the float product
    [width * height * length] between 100 and 2000, bounds included. *)
Theorem validate_inputs_silent_iff (w h l ins : float) :
  validate_inputs w h l ins = [] <->
  in_range 3 12 w /\ in_range 3 12 h /\ in_range 6 48 l /\
  in_range 1 3 ins /\ in_range 100 2000 (w ⊗ h ⊗ l).
Proof.
  split.
  - apply silent_in_ranges.
  - intros (Hw & Hh & Hl & Hins & Hvol).
    apply in_ranges_silent; assumption.
Qed.

(** X2: [validate_inputs] returns at most five warnings: the warnings
    for a very small and for a very large chamber never come together. *)
Theorem validate_inputs_at_most_five (w h l ins : float) :
  (List.length (validate_inputs w h l ins) <= 5)%nat /\
  ~ (In (small_warning (w ⊗ h ⊗ l)) (validate_inputs w h l ins) /\
     In (large_warning (w ⊗ h ⊗ l)) (validate_inputs w h l ins)).
Proof.
  split; [apply validate_inputs_length |].
  intros [Hsmall Hlarge].
  apply in_validate_inputs in Hsmall, Hlarge.
  destruct Hsmall as [Hs | [[Hs _] | [_ Hs]]].
  - destruct Hs as [Hs | [Hs | [Hs | Hs]]]; discriminate Hs.
  - destruct Hlarge as [Hl | [[_ Hl] | [Hl _]]].
    + destruct Hl as [Hl | [Hl | [Hl | Hl]]]; discriminate Hl.
    + discriminate Hl.
    + rewrite (small_not_large _ Hs) in Hl. discriminate Hl.
  - discriminate Hs.
Qed.

(** X3: a width, height or length that is not a number always draws the
    range warning of that side, since [not (lo <= x <= hi)] holds of it,
    and never a warning about the volume, since the volume is then not a
    number and both of its comparisons are false. *)
Theorem nan_side_flagged (w h l ins : float) :
  is_nan w || is_nan h || is_nan l = true ->
  validate_inputs w h l ins <> [] /\
  (forall m, In m (validate_inputs w h l ins) -> ~ volume_warning m) /\
  (is_nan w = true -> In (width_warning w) (validate_inputs w h l ins)) /\
  (is_nan h = true -> In (height_warning h) (validate_inputs w h l ins)) /\
  (is_nan l = true -> In (length_warning l) (validate_inputs w h l ins)).
Proof.
  intros Hnan.
  destruct (nan_side_warnings w h l ins) as (Hw & Hh & Hl).
  split; [| split; [| split; [| split]]]; try assumption.
  - intros Hnil. rewrite Hnil in Hw, Hh, Hl.
    destruct (is_nan w); [exact (Hw eq_refl) |].
    destruct (is_nan h); [exact (Hh eq_refl) |].
    destruct (is_nan l); [exact (Hl eq_refl) | discriminate Hnan].
  - intros m. apply nan_volume_unflagged. exact Hnan.
Qed.

(** ** Validation and the calculator *)

(** X4: a chamber that [validate_inputs] passes without a warning is one
    [calculate_forge_specs] returns a record for, whatever the door
    configuration: none of its steps raises. *)
Theorem validated_chamber_returns (now : string) (w h l ins : float)
    (door : Z) :
  validate_inputs w h l ins = [] ->
  returns (calculate_forge_specs now (chamber w h l ins door)).
Proof.
  intros Hv. apply silent_in_ranges in Hv as (Hw & Hh & Hl & Hins & Hvol).
  apply calculate_forge_specs_returns.
  - exact (checked_heat_finite w h l ins door Hvol).
  - exact (checked_floor_finite w h l ins door Hw Hl Hins).
Qed.

(** X5: in a chamber that passes validation the burner has between 12
    and 111 holes, in rows of 4 to 37, and is between 4 and 30 inches
    long. *)
Theorem validated_burner_size (now : string) (w h l ins : float) (door : Z)
    (s : ForgeSpecs) :
  validate_inputs w h l ins = [] ->
  calculate_forge_specs now (chamber w h l ins door) = Ok s ->
  12 <= burner_holes s <= 111 /\
  4 <= holes_per_row s <= 37 /\
  in_range 4 30 (burner_length s).
Proof.
  intros Hv H.
  destruct (validated_burner _ _ _ _ _ _ _ Hv H) as (Hholes & Hrow).
  destruct (validated_sizes _ _ _ _ _ _ _ Hv H) as (_ & _ & _ & Hlen).
  exact (conj Hholes (conj Hrow Hlen)).
Qed.

(** X6: in a chamber that passes validation the external width and
    height are between 5 and 19 inches, the external length between 7
    and 49, and every piece of angle iron of the cut list, corner posts
    and rails, has a positive length. *)
Theorem validated_envelope_and_frame (now : string) (w h l ins : float)
    (door : Z) (s : ForgeSpecs) :
  validate_inputs w h l ins = [] ->
  calculate_forge_specs now (chamber w h l ins door) = Ok s ->
  in_range 5 19 (external_w s) /\
  in_range 5 19 (external_h s) /\
  in_range 7 49 (external_l s) /\
  (forall a, In a (angle_iron (steel_cuts s)) ->
             float_gt_int (angle_length a) 0 = true).
Proof.
  intros Hv H.
  destruct (validated_sizes _ _ _ _ _ _ _ Hv H) as (Hw & Hh & Hl & _).
  pose proof (validated_frame _ _ _ _ _ _ _ Hv H) as Hframe.
  exact (conj Hw (conj Hh (conj Hl Hframe))).
Qed.

(** ** The burner *)

(** X7: when the first hole count [max(12, round(internal_volume / 18))],
    of the volume [width * height * length] of the input, is at most
    [2^50], re-deriving the hole count from the holes per row changes it
    by at most one hole. *)
Theorem rederivation_within_one (now : string) (u : UserInput)
    (s : ForgeSpecs) (rounded : Z) :
  calculate_forge_specs now u = Ok s ->
  round (volume_of u ⊘ of_int 18) = Ok rounded ->
  Z.max 12 rounded <= 2 ^ 50 ->
  -1 <= burner_holes s - Z.max 12 rounded <= 1.
Proof.
  intros H Hr Hmax.
  destruct (burner_steps now u s H) as (n & x & E1 & E2 & E3 & Hholes).
  assert (Hn : n = rounded)
    by (apply Ok_inj; rewrite <- E1; exact Hr).
  subst n.
  pose proof (row_share_close (Z.max 12 rounded) (holes_per_row s) x
                ltac:(lia) E2 E3).
  lia.
Qed.

(** X8: the burner has exactly the minimum of 12 holes exactly when the
    internal volume, the float product [width * height * length] of the
    input, is below 243 cubic inches: up to there
    [round(internal_volume / 18)] is at most 13, which makes 4 holes per
    row, and from 243 on it is at least 14, which makes 5 or more. *)
Theorem minimum_holes_below_243 (now : string) (u : UserInput)
    (s : ForgeSpecs) :
  calculate_forge_specs now u = Ok s ->
  (burner_holes s = 12 <-> float_lt_int (volume_of u) 243 = true).
Proof.
  intros H.
  destruct (burner_steps now u s H) as (n & x & E1 & E2 & E3 & Hholes).
  assert (Hb : is_binary64 (volume_of u) = true)
    by apply fmul_binary64.
  assert (Hrow : 2 ^ 2 <= holes_per_row s).
  { apply (int_truediv_round_lower 2 (Z.max 12 n) 3 (holes_per_row s) x);
      [lia | reflexivity | change (2 ^ 2) with 4; lia
      | exact E2 | exact E3]. }
  change (2 ^ 2) with 4 in Hrow.
  destruct (float_lt_int (volume_of u) 243) eqn:Hlt.
  - pose proof (target_below_243 _ _ Hb Hlt E1) as Hn.
    assert (H50 : 13 <= 2 ^ 50)
      by (assert (2 ^ 4 <= 2 ^ 50) by (apply pow2_le; lia);
          change (2 ^ 4) with 16 in *; lia).
    pose proof (row_share_close (Z.max 12 n) (holes_per_row s) x
                  ltac:(lia) E2 E3).
    split; [reflexivity | intros _; lia].
  - pose proof (target_from_243 _ _ Hlt E1) as Hn.
    split; [| discriminate].
    intros H12. exfalso.
    destruct (Z_le_gt_dec (Z.max 12 n) (2 ^ 50)) as [Hsmall | Hbig].
    + pose proof (row_share_close (Z.max 12 n) (holes_per_row s) x
                    ltac:(lia) E2 E3).
      lia.
    + assert (Hrow8 : 2 ^ 3 <= holes_per_row s).
      { apply (int_truediv_round_lower 3 (Z.max 12 n) 3
                 (holes_per_row s) x);
          [lia | reflexivity | | exact E2 | exact E3].
        assert (2 ^ 5 <= 2 ^ 50) by (apply pow2_le; lia).
        change (2 ^ 5) with 32 in *. change (2 ^ 3) with 8. lia. }
      change (2 ^ 3) with 8 in Hrow8. lia.
Qed.

(** X9: the required airflow is [round(internal_volume / 18 * 1.2)] of
    the volume of the input, and whenever it is between 0 and [2^52] the
    recommended airflow is never below it and at most twice as much. *)
Theorem recommended_covers_required (now : string) (u : UserInput)
    (s : ForgeSpecs) :
  calculate_forge_specs now u = Ok s ->
  0 <= cfm_required s <= 2 ^ 52 ->
  round (volume_of u ⊘ of_int 18 ⊗ dec 12 1) = Ok (cfm_required s) /\
  cfm_required s <= cfm_recommended s <= 2 * cfm_required s.
Proof.
  intros H Hn. invert_specs H. unfold volume_of.
  split; [assumption |].
  match goal with
  | Em : int_mul_float ?n (dec 125 2) = Ok ?margin,
    Er : round ?margin = Ok ?r |- _ =>
      pose proof (margin_between n margin Hn Em) as Hb;
      pose proof units_per_one_pos as HU;
      apply (round_between _ _ n (2 * n) r margin Hb Er); [nia | nia |];
      destruct (Z.eq_dec n 0) as [Hz | Hz]; [left; lia | right];
      destruct (between_positive _ _ _ Hb ltac:(nia)) as (k & Hk & _);
      rewrite Hk; discriminate
  end.
Qed.

(** ** Totality beyond the specified inputs *)

(** X10: [calculate_forge_specs] checks nothing about its input: it
    returns a record for every chamber whose sides and insulation are
    finite and at most 1024 inches in magnitude, zero and negative ones
    included, and for every integer given as door configuration. *)
Theorem modest_chamber_returns (now : string) (w h l ins : float)
    (door : Z) :
  within 1084 w = true -> within 1084 h = true -> within 1084 l = true ->
  within 1084 ins = true ->
  returns (calculate_forge_specs now (chamber w h l ins door)).
Proof.
  intros Hw Hh Hl Hins.
  destruct (modest_chamber_finite w h l ins door Hw Hh Hl Hins)
    as [Hbtu Hfloor].
  apply calculate_forge_specs_returns; assumption.
Qed.

(** X11: a side that is not a number makes [calculate_forge_specs] raise
    ValueError, at the first [round]; an insulation thickness that is
    not a number keeps it from returning. *)
Theorem nan_input_fails (now : string) (w h l ins : float) (door : Z) :
  (is_nan w || is_nan h || is_nan l = true ->
   calculate_forge_specs now (chamber w h l ins door) = Raise ValueError) /\
  (is_nan ins = true ->
   ~ returns (calculate_forge_specs now (chamber w h l ins door))).
Proof.
  split.
  - apply nan_side_raises.
  - intros Hnan. destruct ins; try discriminate Hnan.
    apply nan_insulation_fails.
Qed.

(** ** Door configurations *)

(** X12: an integer other than 1 and 2 given as door configuration,
    listed by the prompt or not, is handled as side loading: the record
    is that of the same chamber with a front door only, but for the door
    configuration it echoes and the door brick count, 6 instead of 4;
    the rear door dimensions are the integer zero. *)
Theorem other_door_as_front_only (now : string) (w h l ins : float)
    (door : Z) (front : ForgeSpecs) :
  door <> 1 -> door <> 2 ->
  calculate_forge_specs now (chamber w h l ins FrontOnly) = Ok front ->
  exists other,
    calculate_forge_specs now (chamber w h l ins door) = Ok other /\
    same_except_doors front other /\
    door_config other = door /\
    ifb_doors front = 4 /\ ifb_doors other = 6 /\
    rear_door_w other = PyInt 0 /\ rear_door_h other = PyInt 0.
Proof.
  intros Hd1 Hd2 H. invert_specs H.
  unfold FrontOnly in *.
  match goal with
  | E : (if 1 =? 2 then _ else _) = Ok _ |- _ =>
      change (1 =? 2) with false in E; cbv iota in E;
      apply Ok_inj in E; subst
  end.
  apply Z.eqb_neq in Hd1, Hd2.
  eexists. split.
  - unfold_run. rewrite Hd1, Hd2.
    repeat rerun.
    exact eq_refl.
  - unfold same_except_doors. project_fields.
    repeat split.
Qed.

(** X13: with front and rear doors the record is that of the same
    chamber with a front door only, but for four keys: the door
    configuration, the door brick count, 6 instead of 4, and the rear
    door, [round(width * 0.7, 1)] by [round(height * 0.75, 1)] instead of
    the integer zero twice.  The steel cut list is the same: the rear
    end panel gets no door opening. *)
Theorem front_and_rear_as_front_only (now : string) (w h l ins : float)
    (front : ForgeSpecs) :
  calculate_forge_specs now (chamber w h l ins FrontOnly) = Ok front ->
  exists both rear_w rear_h,
    calculate_forge_specs now (chamber w h l ins FrontAndRear) = Ok both /\
    same_except_rear_door front both /\
    door_config both = FrontAndRear /\
    ifb_doors front = 4 /\ ifb_doors both = 6 /\
    rear_door_w front = PyInt 0 /\ rear_door_h front = PyInt 0 /\
    rear_door_w both = PyFloat rear_w /\ rear_door_h both = PyFloat rear_h /\
    round_ndigits (w ⊗ dec 7 1) 1 = Ok rear_w /\
    round_ndigits (h ⊗ dec 75 2) 1 = Ok rear_h.
Proof.
  intros H. invert_specs H.
  unfold FrontOnly, FrontAndRear in *.
  match goal with
  | E : (if 1 =? 2 then _ else _) = Ok _ |- _ =>
      change (1 =? 2) with false in E; cbv iota in E;
      apply Ok_inj in E; subst
  end.
  destruct (round_ndigits_total (w ⊗ dec 7 1) 1) as (rear_w & Ew & _);
    [apply fmul_binary64 | lia |].
  destruct (round_ndigits_total (h ⊗ dec 75 2) 1) as (rear_h & Eh & _);
    [apply fmul_binary64 | lia |].
  eexists. exists rear_w, rear_h. split.
  - unfold_run. change (2 =? 2) with true. change (2 =? 1) with false.
    cbv iota.
    repeat first [rerun | apply bind_eq_assoc].
    exact eq_refl.
  - unfold same_except_rear_door. project_fields.
    repeat split; assumption.
Qed.

(** ** The steel plates *)

(** X14: [calculate_steel_cuts] raises on no five floats, and the plates
    of a run are two side panels [ext_l] by [ext_h], a top and a bottom
    panel [ext_l] by [ext_w] and a front and a rear end panel [ext_w] by
    [ext_h], all of quarter-inch plate; the only note is the door opening
    of the front end panel, of the size of the front door,
    [round(width * 0.85, 1)] by [round(height * 0.85, 1)]. *)
Theorem steel_plates_of_run (now : string) (u : UserInput) (s : ForgeSpecs) :
  calculate_forge_specs now u = Ok s ->
  (forall a b c d e : float, returns (calculate_steel_cuts a b c d e)) /\
  round_ndigits (input_width u ⊗ dec 85 2) 1 = Ok (front_door_w s) /\
  round_ndigits (input_height u ⊗ dec 85 2) 1 = Ok (front_door_h s) /\
  plates (steel_cuts s) =
    [ {| plate_name := "Side Panels"; plate_qty := 2;
         plate_w := ext_l_of u; plate_h := ext_h_of u;
         plate_thickness := quarter_inch; plate_note := None |};
      {| plate_name := "Top Panel"; plate_qty := 1;
         plate_w := ext_l_of u; plate_h := ext_w_of u;
         plate_thickness := quarter_inch; plate_note := None |};
      {| plate_name := "Bottom Panel"; plate_qty := 1;
         plate_w := ext_l_of u; plate_h := ext_w_of u;
         plate_thickness := quarter_inch; plate_note := None |};
      {| plate_name := "Front End Panel"; plate_qty := 1;
         plate_w := ext_w_of u; plate_h := ext_h_of u;
         plate_thickness := quarter_inch;
         plate_note :=
           Some [ Text "Cut "; Value (front_door_w s);
                  Text (inch_mark ++ "x"); Value (front_door_h s);
                  Text (inch_mark ++ " door opening") ] |};
      {| plate_name := "Rear End Panel"; plate_qty := 1;
         plate_w := ext_w_of u; plate_h := ext_h_of u;
         plate_thickness := quarter_inch; plate_note := None |} ].
Proof.
  intros H.
  destruct (run_plates now u s H) as (cuts & Hcuts & Hs & Hdw & Hdh).
  split; [| split; [exact Hdw | split; [exact Hdh |]]].
  - intros a b c d e.
    destruct (calculate_steel_cuts_plates a b c d e) as (cuts' & Hc & _).
    exists cuts'. exact Hc.
  - rewrite Hs.
    destruct (calculate_steel_cuts_plates (ext_w_of u) (ext_h_of u)
                (ext_l_of u) (front_door_w s) (front_door_h s))
      as (cuts' & Hcuts' & Hplates).
    assert (cuts = cuts')
      by (apply Ok_inj; rewrite <- Hcuts, <- Hcuts'; exact eq_refl).
    subst cuts'. exact Hplates.
Qed.

(** ** The other keys *)

(** X15: a run echoes the four dimensions and the door configuration,
    stamps the record with the clock reading, and gives the burner three
    rows, a width of 3.0 and the length
    [round(holes_per_row * 0.75 + 1.5, 1)]. *)
Theorem echo_and_burner_geometry (now : string) (u : UserInput)
    (s : ForgeSpecs) :
  calculate_forge_specs now u = Ok s ->
  internal_w s = input_width u /\
  internal_h s = input_height u /\
  internal_l s = input_length u /\
  insulation s = input_insulation u /\
  door_config s = input_door_config u /\
  generated_date s = now /\
  burner_rows s = BURNER_ROWS /\
  burner_width s = dec 30 1 /\
  (span <- int_mul_float (holes_per_row s) HOLE_SPACING ;;
   round_ndigits (span ⊕ dec 15 1) 1) = Ok (burner_length s).
Proof.
  intros H.
  destruct (run_echo now u s H) as (Hw & Hh & Hl & Hins & Hdoor & Hdate).
  destruct (run_burner_geometry now u s H) as (Hrows & Hwidth & Hlen).
  exact (conj Hw (conj Hh (conj Hl (conj Hins (conj Hdoor (conj Hdate
           (conj Hrows (conj Hwidth Hlen)))))))).
Qed.

(** X16: in terms of the volume and the envelope of the input, the heat
    demand is [round(internal_volume * 450)]; the cost is
    [round(250 + refractory_bags * 110, 2)], from the bag count already
    rounded to one decimal; the blanket is
    [round((ext_l * ext_h * 2 + ext_l * ext_w + ext_w * ext_h * 2) / 144, 1)];
    the floor takes [max(2, round(ext_l * ext_w / 72))] bricks, at least
    two, and the doors four bricks with a front door only and six
    otherwise. *)
Theorem performance_and_lining (now : string) (u : UserInput)
    (s : ForgeSpecs) :
  calculate_forge_specs now u = Ok s ->
  round (volume_of u ⊗ of_int BTU_PER_CUBIC_INCH)
  = Ok (btu_required s) /\
  round_ndigits
    (of_int COST_BASE_MATERIALS
     ⊕ refractory_bags s ⊗ of_int COST_REFRACTORY_PER_BAG) 2
  = Ok (estimated_cost s) /\
  round_ndigits
    ((ext_l_of u ⊗ ext_h_of u ⊗ of_int 2
      ⊕ ext_l_of u ⊗ ext_w_of u
      ⊕ ext_w_of u ⊗ ext_h_of u ⊗ of_int 2) ⊘ of_int 144) 1
  = Ok (blanket_sqft s) /\
  (exists bricks,
     round (ext_l_of u ⊗ ext_w_of u ⊘ of_int 72) = Ok bricks /\
     ifb_floor s = Z.max 2 bricks) /\
  2 <= ifb_floor s /\
  ifb_doors s = (if input_door_config u =? FrontOnly then 4 else 6).
Proof.
  intros H.
  destruct (run_performance now u s H) as (Hbtu & Hcost).
  destruct (run_lining now u s H) as (Hblanket & Hfloor & Hmin & Hdoors).
  exact (conj Hbtu (conj Hcost (conj Hblanket (conj Hfloor
           (conj Hmin Hdoors))))).
Qed.

(* ===================================================================== *)
(** * Part IX: the properties at work on concrete chambers              *)
(* ===================================================================== *)

(** ** Whole numbers of inches *)

(** The product of two positive integers is exact while it fits. *)
Lemma fmul_of_int (a b : Z) :
  0 < a -> 0 < b -> a * b <= 2 ^ 53 ->
  of_int a ⊗ of_int b = of_int (a * b).
Proof.
  intros Ha Hb Hab. pose proof units_per_one_pos as HU.
  assert (a <= 2 ^ 53 /\ b <= 2 ^ 53) as [Ha' Hb'] by nia.
  rewrite (of_int_small a), (of_int_small b), (of_int_small (a * b))
    by nia.
  rewrite (fmul_finite (Fin (a * units_per_one)) (Fin (b * units_per_one))
             eq_refl eq_refl).
  cbn [units].
  replace (a * units_per_one * (b * units_per_one))
    with (a * b * units_per_one * units_per_one) by ring.
  apply round_units_exact;
    [exact HU | apply small_int_representable; nia | nia].
Qed.

(** An exact quotient of integers, rounded. *)
Lemma round_fdiv_of_int (a b q : Z) :
  0 < q -> 0 < b <= 2 ^ 53 -> q <= 2 ^ 53 -> a = q * b -> a <= 2 ^ 53 ->
  round (of_int a ⊘ of_int b) = Ok q.
Proof.
  intros Hq Hb Hq' Ha Ha'. pose proof units_per_one_pos as HU.
  rewrite (of_int_small a) by nia.
  rewrite (fdiv_int_finite (Fin (a * units_per_one)) b eq_refl Hb).
  cbn [units]. subst a.
  replace (q * b * units_per_one * units_per_one)
    with (q * units_per_one * (b * units_per_one)) by ring.
  rewrite round_units_exact;
    [| nia | apply small_int_representable; lia | nia].
  cbn [round]. rewrite rne_div_exact by exact HU. reflexivity.
Qed.

Lemma of_int_in_range (lo hi n : Z) :
  lo <= n <= hi -> Z.abs n <= 2 ^ 53 -> in_range lo hi (of_int n).
Proof.
  intros Hn Hsmall. pose proof units_per_one_pos as HU.
  apply (between_weaken _ _ _ _ _ (of_int_between n Hsmall)); nia.
Qed.

(** Scenario A passes validation. *)
Lemma scenario_A_validates :
  validate_inputs (of_int 6) (of_int 6) (of_int 14) (of_int 2) = [].
Proof.
  apply in_ranges_silent.
  - apply (of_int_in_range 3 12 6); small_int.
  - apply (of_int_in_range 3 12 6); small_int.
  - apply (of_int_in_range 6 48 14); small_int.
  - apply (of_int_in_range 1 3 2); small_int.
  - rewrite (fmul_of_int 6 6) by small_int.
    rewrite (fmul_of_int (6 * 6) 14) by small_int.
    apply (of_int_in_range 100 2000 (6 * 6 * 14)); small_int.
Qed.

(** The volume of a chamber of whole numbers of inches. *)
Lemma whole_volume (w h l : Z) (ins : float) (door : Z) :
  0 < w -> 0 < h -> 0 < l -> w * h * l <= 2 ^ 53 ->
  volume_of (chamber (of_int w) (of_int h) (of_int l) ins door)
  = of_int (w * h * l).
Proof.
  intros Hw Hh Hl Hv. unfold volume_of.
  cbn [chamber input_width input_height input_length].
  rewrite (fmul_of_int w h) by nia.
  rewrite (fmul_of_int (w * h) l) by nia.
  reflexivity.
Qed.

Lemma round_of_int (n : Z) : Z.abs n <= 2 ^ 53 -> round (of_int n) = Ok n.
Proof.
  intros Hn. rewrite of_int_small by exact Hn. cbn [round].
  rewrite rne_div_exact by apply units_per_one_pos. reflexivity.
Qed.

(** An exact quotient of integers. *)
Lemma int_truediv_whole (a b q : Z) :
  0 < q <= 2 ^ 53 -> 0 < b -> a = q * b ->
  int_truediv a b = Ok (of_int q).
Proof.
  intros Hq Hb Ha. pose proof units_per_one_pos as HU.
  unfold int_truediv.
  destruct (Z.eqb_spec b 0); [lia |].
  rewrite (Z.abs_eq b), Z.sgn_pos, Z.mul_1_r by lia. subst a.
  replace (q * b * units_per_one) with (q * units_per_one * b) by ring.
  rewrite round_units_exact;
    [| exact Hb | apply small_int_representable; lia | nia].
  rewrite of_int_small by lia. reflexivity.
Qed.

Lemma small_chamber_returns :
  returns (calculate_forge_specs sample_date small_chamber).
Proof. apply whole_chamber_returns; small_int. Qed.

Lemma small_chamber_volume : volume_of small_chamber = of_int 54.
Proof. apply (whole_volume 3 3 6); small_int. Qed.

(** ** The properties of Part VI *)

Lemma scenario_B_returns :
  returns (calculate_forge_specs sample_date scenario_B).
Proof. apply whole_chamber_returns; small_int. Qed.

Lemma scenario_C_returns :
  returns (calculate_forge_specs sample_date scenario_C).
Proof. apply whole_chamber_returns; small_int. Qed.

Lemma tiny_chamber_returns :
  returns (calculate_forge_specs sample_date tiny_chamber).
Proof. apply whole_chamber_returns; small_int. Qed.

(** In scenario A the first target is 28 holes and the burner gets 27. *)
Example rederivation_changes_hole_count :
  exists s,
    calculate_forge_specs sample_date scenario_A = Ok s /\
    (rounded <- round (internal_volume s ⊘ of_int 18) ;;
     Ok (Z.max 12 rounded)) = Ok 28 /\
    burner_holes s = 27.
Proof.
  destruct (scenario_A_runs sample_date) as (s & Hrun & Hcomputed & _).
  destruct Hcomputed as (Hvol & Hholes & _).
  exists s. split; [exact Hrun |]. split; [| exact Hholes].
  rewrite Hvol.
  rewrite (round_fdiv_of_int 504 18 28) by small_int.
  reflexivity.
Qed.

(** The chamber of 54 cubic inches: 54 / 18 is 3, the minimum of 12
    applies, and the burner gets 12 holes in rows of 4. *)
Lemma burner_holes_multiple_of_rows_witness :
  exists s,
    calculate_forge_specs sample_date small_chamber = Ok s /\
    internal_volume s = of_int 54 /\
    holes_per_row s = 4 /\
    burner_holes s = 12 /\
    burner_holes s mod 3 = 0 /\
    12 <= burner_holes s.
Proof.
  destruct small_chamber_returns as (s & Hrun).
  exists s. split; [exact Hrun |].
  destruct (burner_holes_multiple_of_rows sample_date small_chamber s Hrun)
    as (Hvol & Hrow & Hholes & Hmod & Hmin).
  rewrite small_chamber_volume in Hvol, Hrow.
  apply bind_ok in Hrow as (rounded & Hrounded & Hrow).
  rewrite (round_fdiv_of_int 54 18 3) in Hrounded by small_int.
  apply Ok_inj in Hrounded. subst rounded.
  apply bind_ok in Hrow as (share & Hshare & Hrow).
  rewrite (int_truediv_whole (Z.max 12 3) 3 4) in Hshare by small_int.
  apply Ok_inj in Hshare. subst share.
  rewrite (round_of_int 4) in Hrow by small_int.
  apply Ok_inj in Hrow.
  assert (Hfour : holes_per_row s = 4) by (symmetry; exact Hrow).
  assert (Htwelve : burner_holes s = 12)
    by (rewrite Hholes, Hfour; reflexivity).
  exact (conj Hvol (conj Hfour (conj Htwelve (conj Hmod Hmin)))).
Defined.

(** The chamber of 54 cubic inches: 3.0 * 1.2 rounds to 4 and 4 * 1.25
    to 5. *)
Lemma cfm_from_raw_coverage_witness :
  exists s,
    calculate_forge_specs sample_date small_chamber = Ok s /\
    internal_volume s = of_int 54 /\
    cfm_required s = 4 /\ cfm_recommended s = 5.
Proof.
  destruct small_chamber_returns as (s & Hrun).
  exists s. split; [exact Hrun |].
  destruct (cfm_from_raw_coverage sample_date small_chamber s Hrun)
    as (Hvol & Hreq & Hrec & _).
  rewrite small_chamber_volume in Hvol, Hreq.
  assert (Hfour : round (of_int 54 ⊘ of_int 18 ⊗ dec 12 1) = Ok 4)
    by (vm_compute; reflexivity).
  rewrite Hfour in Hreq. apply Ok_inj in Hreq.
  rewrite <- Hreq in Hrec.
  assert (Hfive : (margin <- int_mul_float 4 (dec 125 2) ;; round margin)
                  = Ok 5)
    by (vm_compute; reflexivity).
  rewrite Hfive in Hrec. apply Ok_inj in Hrec.
  exact (conj Hvol (conj (eq_sym Hreq) (eq_sym Hrec))).
Defined.

(** At a volume of exactly 500 the static pressure is ["3.0"]; at 54 it
    is ["1.5"]. *)
Lemma static_pressure_step_witness :
  (exists s,
     calculate_forge_specs sample_date scenario_C = Ok s /\
     volume_of scenario_C = of_int 500 /\
     static_pressure s = "3.0"%string) /\
  (exists s,
     calculate_forge_specs sample_date small_chamber = Ok s /\
     volume_of small_chamber = of_int 54 /\
     static_pressure s = "1.5"%string).
Proof.
  split.
  - destruct scenario_C_returns as (s & Hrun).
    exists s. split; [exact Hrun |].
    assert (Hexact : volume_of scenario_C = of_int 500)
      by (apply (whole_volume 5 10 10); small_int).
    split; [exact Hexact |].
    destruct (static_pressure_step sample_date scenario_C s Hrun)
      as (_ & _ & _ & _ & Hboundary).
    exact (Hboundary Hexact).
  - destruct small_chamber_returns as (s & Hrun).
    exists s. split; [exact Hrun |].
    split; [exact small_chamber_volume |].
    destruct (static_pressure_step sample_date small_chamber s Hrun)
      as (_ & Hbelow & _).
    apply Hbelow. rewrite small_chamber_volume.
    rewrite of_int_small by small_int.
    cbn [float_lt_int units]. apply Z.ltb_lt.
    pose proof units_per_one_pos. lia.
Defined.

Lemma returns_unless_overflow_witness :
  valid_input scenario_A /\
  returns (calculate_forge_specs sample_date scenario_A) /\
  calculate_forge_specs sample_date scenario_A <> Raise ZeroDivisionError.
Proof.
  assert (Hvalid : valid_input scenario_A).
  { unfold valid_input. repeat split; try (vm_compute; reflexivity).
    left. reflexivity. }
  split; [exact Hvalid |].
  destruct (returns_unless_overflow sample_date scenario_A Hvalid)
    as (_ & Hsafe).
  split; [| exact Hsafe].
  destruct (scenario_A_runs sample_date) as (s & Hrun & _).
  exists s. exact Hrun.
Defined.

Lemma refractory_from_shell_volume_witness :
  exists s,
    calculate_forge_specs sample_date scenario_A = Ok s /\
    refractory_volume_of s = shell_volume_of scenario_A /\
    round_ndigits
      (shell_volume_of scenario_A ⊘ of_int 1728
         ⊗ of_int REFRACTORY_DENSITY_LB_PER_CF
         ⊘ of_int REFRACTORY_BAG_SIZE_LB) 1 = Ok (refractory_bags s) /\
    refractory_bags s = dec 11 1 /\
    refractory_weight s = dec 612 1.
Proof.
  destruct (scenario_A_runs sample_date)
    as (s & Hrun & _ & _ & _ & _ & Hbags & Hweight & _).
  exists s. split; [exact Hrun |].
  destruct (refractory_from_shell_volume sample_date scenario_A s Hrun)
    as (Hshell & Hformula & _).
  exact (conj Hshell (conj Hformula (conj Hbags Hweight))).
Defined.

(** Scenario B: the rear door is 4.2 by 4.5. *)
Lemma door_sizing_witness :
  exists s,
    calculate_forge_specs sample_date scenario_B = Ok s /\
    rear_door_w s = PyFloat (dec 42 1) /\
    rear_door_h s = PyFloat (dec 45 1).
Proof.
  destruct scenario_B_returns as (s & Hrun).
  exists s. split; [exact Hrun |].
  destruct (door_sizing sample_date scenario_B s Hrun)
    as (_ & _ & Hrear & _).
  destruct (Hrear eq_refl) as (rear_w & rear_h & Hw & Hh & Ew & Eh).
  assert (Ew' : round_ndigits (input_width scenario_B ⊗ dec 70 2) 1
                = Ok (dec 42 1)) by (vm_compute; reflexivity).
  assert (Eh' : round_ndigits (input_height scenario_B ⊗ dec 75 2) 1
                = Ok (dec 45 1)) by (vm_compute; reflexivity).
  rewrite Ew' in Ew. rewrite Eh' in Eh.
  apply Ok_inj in Ew. apply Ok_inj in Eh. subst rear_w rear_h.
  exact (conj Hw Hh).
Defined.

Lemma external_envelope_witness :
  exists s,
    calculate_forge_specs sample_date scenario_A = Ok s /\
    external_w s =
      input_width scenario_A ⊕ of_int 2 ⊗ input_insulation scenario_A
        ⊕ dec 5 1 /\
    external_w s = dec 105 1 /\
    external_l s = of_int 15.
Proof.
  destruct (scenario_A_runs sample_date)
    as (s & Hrun & _ & Hw & _ & Hl & _).
  exists s. split; [exact Hrun |].
  destruct (external_envelope sample_date scenario_A s Hrun) as (Hsum & _).
  exact (conj Hsum (conj Hw Hl)).
Defined.

Lemma side_loading_as_front_only_witness :
  exists front side,
    calculate_forge_specs sample_date scenario_A = Ok front /\
    calculate_forge_specs sample_date
      (chamber (of_int 6) (of_int 6) (of_int 14) (of_int 2) SideLoading)
    = Ok side /\
    same_except_doors front side /\
    ifb_doors front = 4 /\ ifb_doors side = 6.
Proof.
  destruct (scenario_A_runs sample_date) as (front & Hrun & _).
  destruct (side_loading_as_front_only sample_date
              (of_int 6) (of_int 6) (of_int 14) (of_int 2) front Hrun)
    as (side & Hside & Hsame & _ & _ & Hfront4 & Hside6).
  exists front, side.
  exact (conj Hrun (conj Hside (conj Hsame (conj Hfront4 Hside6)))).
Defined.

(** The tiny chamber: the end rails are -0.5 inch long and the
    top/bottom rails -1 inch. *)
Lemma rails_not_bounded_below_witness :
  exists s,
    calculate_forge_specs sample_date tiny_chamber = Ok s /\
    float_lt_int (ext_w_of tiny_chamber) 4 = true /\
    ext_w_of tiny_chamber ⊖ of_int 4 = dec (-5) 1 /\
    ext_l_of tiny_chamber ⊖ of_int 4 = of_int (-1) /\
    float_lt_int (ext_w_of tiny_chamber ⊖ of_int 4) 0 = true /\
    float_lt_int (ext_l_of tiny_chamber ⊖ of_int 4) 0 = true.
Proof.
  destruct tiny_chamber_returns as (s & Hrun).
  exists s. split; [exact Hrun |].
  destruct (rails_not_bounded_below sample_date tiny_chamber s Hrun)
    as (_ & _ & Hend & Hrail).
  assert (Hw : float_lt_int (ext_w_of tiny_chamber) 4 = true)
    by (vm_compute; reflexivity).
  assert (Hl : float_lt_int (ext_l_of tiny_chamber) 4 = true)
    by (vm_compute; reflexivity).
  split; [exact Hw |].
  split; [vm_compute; reflexivity |].
  split; [vm_compute; reflexivity |].
  split; [exact (Hend Hw) | exact (Hrail Hl)].
Defined.

(** ** The further properties on concrete chambers *)

(** A width that is not a number. *)
Lemma nan_side_flagged_witness :
  validate_inputs NaN (of_int 6) (of_int 14) (of_int 2) <> [] /\
  In (width_warning NaN)
     (validate_inputs NaN (of_int 6) (of_int 14) (of_int 2)).
Proof.
  destruct (nan_side_flagged NaN (of_int 6) (of_int 14) (of_int 2) eq_refl)
    as (Hne & _ & Hw & _).
  exact (conj Hne (Hw eq_refl)).
Defined.

Lemma validated_chamber_returns_witness :
  validate_inputs (of_int 6) (of_int 6) (of_int 14) (of_int 2) = [] /\
  returns (calculate_forge_specs sample_date scenario_B).
Proof.
  exact (conj scenario_A_validates
           (validated_chamber_returns sample_date (of_int 6) (of_int 6)
              (of_int 14) (of_int 2) FrontAndRear scenario_A_validates)).
Defined.

Lemma validated_burner_size_witness :
  exists s,
    calculate_forge_specs sample_date scenario_A = Ok s /\
    burner_holes s = 27 /\
    12 <= burner_holes s <= 111 /\
    4 <= holes_per_row s <= 37 /\
    in_range 4 30 (burner_length s).
Proof.
  destruct (scenario_A_runs sample_date) as (s & Hrun & Hcomputed & _).
  destruct Hcomputed as (_ & Hholes & _).
  exists s. split; [exact Hrun |]. split; [exact Hholes |].
  exact (validated_burner_size sample_date (of_int 6) (of_int 6)
           (of_int 14) (of_int 2) FrontOnly s scenario_A_validates Hrun).
Defined.

Lemma validated_envelope_and_frame_witness :
  exists s,
    calculate_forge_specs sample_date scenario_A = Ok s /\
    in_range 5 19 (external_w s) /\
    in_range 7 49 (external_l s) /\
    (forall a, In a (angle_iron (steel_cuts s)) ->
               float_gt_int (angle_length a) 0 = true).
Proof.
  destruct (scenario_A_runs sample_date) as (s & Hrun & _).
  exists s. split; [exact Hrun |].
  destruct (validated_envelope_and_frame sample_date (of_int 6) (of_int 6)
              (of_int 14) (of_int 2) FrontOnly s scenario_A_validates Hrun)
    as (Hw & _ & Hl & Hframe).
  exact (conj Hw (conj Hl Hframe)).
Defined.

(** Scenario A: the first count is 28 and the burner gets 27 holes. *)
Lemma rederivation_within_one_witness :
  exists s,
    calculate_forge_specs sample_date scenario_A = Ok s /\
    round (volume_of scenario_A ⊘ of_int 18) = Ok 28 /\
    burner_holes s = 27 /\
    -1 <= burner_holes s - Z.max 12 28 <= 1.
Proof.
  destruct (scenario_A_runs sample_date) as (s & Hrun & Hcomputed & _).
  destruct Hcomputed as (_ & Hholes & _).
  exists s. split; [exact Hrun |].
  assert (Hround : round (volume_of scenario_A ⊘ of_int 18) = Ok 28).
  { unfold scenario_A. rewrite (whole_volume 6 6 14) by small_int.
    apply (round_fdiv_of_int (6 * 6 * 14) 18 28); small_int. }
  split; [exact Hround |]. split; [exact Hholes |].
  apply (rederivation_within_one sample_date scenario_A s 28 Hrun Hround).
  small_int.
Defined.

(** The tiny chamber, 12 cubic inches, gets the minimum of 12 holes. *)
Lemma minimum_holes_below_243_witness :
  exists s,
    calculate_forge_specs sample_date tiny_chamber = Ok s /\
    float_lt_int (volume_of tiny_chamber) 243 = true /\
    burner_holes s = 12.
Proof.
  destruct tiny_chamber_returns as (s & Hrun).
  exists s. split; [exact Hrun |].
  assert (Hlt : float_lt_int (volume_of tiny_chamber) 243 = true).
  { unfold tiny_chamber. rewrite (whole_volume 1 6 2) by small_int.
    rewrite of_int_small by small_int.
    cbn [float_lt_int units]. apply Z.ltb_lt.
    pose proof units_per_one_pos. lia. }
  split; [exact Hlt |].
  destruct (minimum_holes_below_243 sample_date tiny_chamber s Hrun)
    as [_ Hmin].
  exact (Hmin Hlt).
Defined.

Lemma recommended_covers_required_witness :
  exists s,
    calculate_forge_specs sample_date scenario_A = Ok s /\
    cfm_required s = 34 /\ cfm_recommended s = 42 /\
    cfm_required s <= cfm_recommended s <= 2 * cfm_required s.
Proof.
  destruct (scenario_A_runs sample_date) as (s & Hrun & Hcomputed & _).
  destruct Hcomputed as (_ & _ & _ & _ & Hreq & Hrec & _).
  exists s. split; [exact Hrun |].
  split; [exact Hreq |]. split; [exact Hrec |].
  refine (proj2 (recommended_covers_required sample_date scenario_A s Hrun _)).
  rewrite Hreq. small_int.
Defined.

(** A chamber of width zero and height minus six. *)
Lemma modest_chamber_returns_witness :
  returns (calculate_forge_specs sample_date
             (chamber (of_int 0) (of_int (-6)) (of_int 14) (of_int 0) 0)).
Proof.
  apply modest_chamber_returns; apply (of_int_within 10); small_int.
Defined.

(** Door configuration 7, which the prompt does not offer. *)
Lemma other_door_as_front_only_witness :
  exists front other,
    calculate_forge_specs sample_date scenario_A = Ok front /\
    calculate_forge_specs sample_date
      (chamber (of_int 6) (of_int 6) (of_int 14) (of_int 2) 7) = Ok other /\
    same_except_doors front other /\
    door_config other = 7 /\ ifb_doors other = 6.
Proof.
  destruct (scenario_A_runs sample_date) as (front & Hrun & _).
  destruct (other_door_as_front_only sample_date
              (of_int 6) (of_int 6) (of_int 14) (of_int 2) 7 front
              ltac:(discriminate) ltac:(discriminate) Hrun)
    as (other & Hother & Hsame & Hdoor & _ & Hbricks & _).
  exists front, other.
  exact (conj Hrun (conj Hother (conj Hsame (conj Hdoor Hbricks)))).
Defined.

Lemma front_and_rear_as_front_only_witness :
  exists front both,
    calculate_forge_specs sample_date scenario_A = Ok front /\
    calculate_forge_specs sample_date scenario_B = Ok both /\
    same_except_rear_door front both /\
    ifb_doors front = 4 /\ ifb_doors both = 6.
Proof.
  destruct (scenario_A_runs sample_date) as (front & Hrun & _).
  destruct (front_and_rear_as_front_only sample_date
              (of_int 6) (of_int 6) (of_int 14) (of_int 2) front Hrun)
    as (both & rear_w & rear_h & Hboth & Hsame & _ & Hfront & Hbricks & _).
  exists front, both.
  exact (conj Hrun (conj Hboth (conj Hsame (conj Hfront Hbricks)))).
Defined.

Lemma steel_plates_of_run_witness :
  exists s,
    calculate_forge_specs sample_date scenario_A = Ok s /\
    map plate_name (plates (steel_cuts s)) =
      [ "Side Panels"; "Top Panel"; "Bottom Panel"; "Front End Panel";
        "Rear End Panel" ]%string /\
    map plate_qty (plates (steel_cuts s)) = [2; 1; 1; 1; 1].
Proof.
  destruct (scenario_A_runs sample_date) as (s & Hrun & _).
  exists s. split; [exact Hrun |].
  destruct (steel_plates_of_run sample_date scenario_A s Hrun)
    as (_ & _ & _ & Hplates).
  rewrite Hplates. split; reflexivity.
Defined.

Lemma echo_and_burner_geometry_witness :
  exists s,
    calculate_forge_specs sample_date scenario_A = Ok s /\
    internal_w s = input_width scenario_A /\
    generated_date s = sample_date /\
    burner_rows s = BURNER_ROWS.
Proof.
  destruct (scenario_A_runs sample_date) as (s & Hrun & _).
  exists s. split; [exact Hrun |].
  destruct (echo_and_burner_geometry sample_date scenario_A s Hrun)
    as (Hw & _ & _ & _ & _ & Hdate & Hrows & _).
  exact (conj Hw (conj Hdate Hrows)).
Defined.

Lemma performance_and_lining_witness :
  exists s,
    calculate_forge_specs sample_date scenario_A = Ok s /\
    round (volume_of scenario_A ⊗ of_int BTU_PER_CUBIC_INCH)
    = Ok (btu_required s) /\
    btu_required s = 226800 /\
    2 <= ifb_floor s.
Proof.
  destruct (scenario_A_runs sample_date)
    as (s & Hrun & _ & _ & _ & _ & _ & _ & _ & _ & _ & _ & _ & Hbtu & _).
  exists s. split; [exact Hrun |].
  destruct (performance_and_lining sample_date scenario_A s Hrun)
    as (Hheat & _ & _ & _ & Hfloor & _).
  exact (conj Hheat (conj Hbtu Hfloor)).
Defined.
